(** * Bravo: the Beta session protocol (bravo/protocols/beta.py)

    A shallow embedding of [BetaServerProtocol] and [BravoProtocol]: the
    per-connection packet handlers, the chunk streamer, the build and dig
    pipelines and the two periodic loops, followed by the properties of
    the session that the specification states about them.

    Conventions.
    - Python integers are [Z]; Python floats are rationals [Q] (every finite
      float is one, and the handlers only compare, subtract and truncate
      them).
    - A handler is a computation in the monad [M]: it threads the session
      and returns either a value or a raised Python exception, keeping the
      mutations made before the exception.
    - Calls on the transport, the factory and the hooks are appended, in
      order, to the session's effect log [out].
    - Deferreds are taken in the case where they have already fired: a
      [yield] resumes at once, in program order. *)

From Stdlib Require Import ZArith QArith Qround Lia.
From stdpp Require Import base option list gmap sets strings pretty sorting functions.

Local Open Scope Z_scope.

(** ** Python values *)

Module Py.

(** The exceptions the handlers can raise. *)
Inductive exn : Type :=
| BuildError | KeyError | IndexError | AttributeError
| UnboundLocalError | AssertionError | TypeError
| TaskDone | TaskFailed | TaskStopped.

Inductive outcome (A : Type) : Type :=
| Return (a : A)
| Raise (e : exn).
Arguments Return {A} a.
Arguments Raise {A} e.

(** [int(x)] on a float: truncation toward zero. *)
Definition int (x : Q) : Z := Z.quot (Qnum x) (Z.pos (Qden x)).

(** [bool(n)] on an integer. *)
Definition bool_of (n : Z) : bool := negb (n =? 0).

(** [xrange(a, b)]: the integers [a, a+1, ..., b-1]. *)
Definition xrange (a b : Z) : list Z :=
  (λ k : nat, a + Z.of_nat k) <$> seq 0 (Z.to_nat (b - a)).

(** [itertools.product(l1, l2)], the rightmost index running fastest. *)
Definition product {A B : Type} (l1 : list A) (l2 : list B) : list (A * B) :=
  a ← l1; b ← l2; [(a, b)].

(** [max(a, b)] on numbers: [b] only when [b > a]. *)
Definition max (a b : Q) : Q := if Qlt_le_dec a b then b else a.

(** The keys the session's dictionaries are indexed with: an integer or a
    pair of integers.  In Python an integer never equals a tuple. *)
Inductive key : Type :=
| KInt (n : Z)
| KPair (a b : Z).

#[global] Instance key_eq_dec : EqDecision key.
Proof. solve_decision. Defined.

Definition key_encode (k : key) : Z + Z * Z :=
  match k with KInt n => inl n | KPair a b => inr (a, b) end.
Definition key_decode (x : Z + Z * Z) : key :=
  match x with inl n => KInt n | inr (a, b) => KPair a b end.

#[global] Instance key_countable : Countable key.
Proof.
  apply (inj_countable' key_encode key_decode).
  by intros [].
Defined.

End Py.

Import Py.

(** ** The circle of visible chunk offsets *)

(** [circle], the module-level list comprehension. *)
Definition circle : list (Z * Z) :=
  filter (λ p : Z * Z, p.1 ^ 2 + p.2 ^ 2 ≤ 100)
         (product (xrange (-10) 10) (xrange (-10) 10)).

(** Modelled from the spec: [split_coords] of [bravo.utilities.coords],
    which is not part of the sources at hand.  Section 3 gives it as
    [cx = x >> 4], [smallx = x & 15]. *)
Definition split_coords (x z : Z) : Z * Z * Z * Z :=
  (Z.shiftr x 4, Z.land x 15, Z.shiftr z 4, Z.land z 15).


(** ** Data model *)

(** An inventory slot: [(primary, secondary, count)]. *)
Definition Slot : Type := Z * Z * Z.

(** The fields of [bravo.inventory] objects that the protocol reads.  A
    player's inventory has [identifier = 0], a workbench window 1. *)
Record Inventory : Type := {
  identifier : Z;
  holdables : list (option Slot);
  armor : list (option Slot);
  crafting : list (option Slot);
  storage : list (option Slot);
}.

Record Player : Type := {
  eid : Z;
  equipped : nat;
  inventory : Inventory;
}.

Definition set_inventory (i : Inventory) (p : Player) : Player :=
  {| eid := eid p; equipped := equipped p; inventory := i |}.

Record Location : Type := {
  loc_x : Q; loc_y : Q; loc_z : Q;
  stance : Q;
  yaw : Q; pitch : Q;
  loc_grounded : bool;
}.

Record Entity : Type := { ent_eid : Z; ent_name : string }.

(** A block of [bravo.blocks]: the attributes and methods the build and dig
    pipelines use.  Faces and dig states are the strings of the packet
    codec (["-x"], ["+y"], ["noop"], ["started"], ...). *)
Record Block : Type := {
  slot : Z;
  drop : Z;
  breakable : bool;
  orientable : bool;
  orientation : string → option Z;
}.

(** A chunk object is owned by the world and shared by reference; the
    session holds the reference [(x, z)] and reads the contents through the
    world. *)
Record Chunk : Type := { chunk_x : Z; chunk_z : Z }.

Record ChunkData : Type := {
  blocks_of : gmap (Z * Z * Z) Z;
  metadata_of : gmap (Z * Z * Z) Z;
  entities : list Entity;
  tiles : list (Z * Z * Z * Entity);
  dirty : bool;
}.

Definition World : Type := Z * Z → ChunkData.

Definition chunk_of (w : World) (c : Chunk) : ChunkData := w (chunk_x c, chunk_z c).

(** [chunk.get_block(coords)]; an unset cell is air. *)
Definition get_block (w : World) (c : Chunk) (coords : Z * Z * Z) : Z :=
  default 0 (blocks_of (chunk_of w c) !! coords).

Definition get_metadata (w : World) (c : Chunk) (coords : Z * Z * Z) : Z :=
  default 0 (metadata_of (chunk_of w c) !! coords).

Definition chunk_set_block (coords : Z * Z * Z) (b : Z) (d : ChunkData) : ChunkData :=
  {| blocks_of := <[coords := b]> (blocks_of d); metadata_of := metadata_of d;
     entities := entities d; tiles := tiles d; dirty := true |}.

Definition chunk_set_metadata (coords : Z * Z * Z) (m : Z) (d : ChunkData) : ChunkData :=
  {| blocks_of := blocks_of d; metadata_of := <[coords := m]> (metadata_of d);
     entities := entities d; tiles := tiles d; dirty := true |}.

(** [chunk.destroy(coords)]: the cell becomes air. *)
Definition chunk_destroy (coords : Z * Z * Z) (d : ChunkData) : ChunkData :=
  {| blocks_of := <[coords := 0]> (blocks_of d);
     metadata_of := <[coords := 0]> (metadata_of d);
     entities := entities d; tiles := tiles d; dirty := true |}.

(** Modelled from the spec: the world gateway's [set_block] and
    [set_metadata] (section 6), which address a block by world coordinates
    and write it into the owning chunk. *)
Definition world_set_block (coords : Z * Z * Z) (b : Z) (w : World) : World :=
  let '(x, y, z) := coords in
  let '(bigx, smallx, bigz, smallz) := split_coords x z in
  <[(bigx, bigz) := chunk_set_block (smallx, y, smallz) b (w (bigx, bigz))]> w.

Definition world_set_metadata (coords : Z * Z * Z) (m : Z) (w : World) : World :=
  let '(x, y, z) := coords in
  let '(bigx, smallx, bigz, smallz) := split_coords x z in
  <[(bigx, bigz) := chunk_set_metadata (smallx, y, smallz) m (w (bigx, bigz))]> w.

Definition world_get_block (w : World) (coords : Z * Z * Z) : Z :=
  let '(x, y, z) := coords in
  let '(bigx, smallx, bigz, smallz) := split_coords x z in
  get_block w {| chunk_x := bigx; chunk_z := bigz |} (smallx, y, smallz).

Record BuildData : Type := {
  bd_block : Block;
  bd_metadata : Z;
  bd_x : Z; bd_y : Z; bd_z : Z;
  bd_face : string;
}.

(** *** Packets and effects *)

Inductive field : Type :=
| FInt (n : Z)
| FStr (s : string)
| FBool (b : bool).

(** What is written to a transport: [make_packet(name, **kw)],
    [make_error_packet(message)], or the [save_to_packet()] of an object. *)
Inductive Packet : Type :=
| make_packet (name : string) (kw : list (string * field))
| make_error_packet (message : string)
| inventory_save_to_packet (i : Inventory)
| chunk_save_to_packet (c : Chunk)
| entity_save_to_packet (e : Entity).

(** The calls a handler makes on its collaborators. *)
Inductive Event : Type :=
| transport_write (p : Packet)
| transport_loseConnection
| factory_broadcast (p : Packet)
| factory_broadcast_for_others (p : Packet)
| factory_flush_chunk (c : Chunk)
| factory_give (coords : Z * Z * Z) (item : Z * Z) (count : Z)
| factory_chat (message : string)
| factory_destroy_entity (e : Z)
| world_request_chunk (x z : Z)
| world_save_player (name : option string) (p : Player)
| inventory_select (wid : Z) (slot : Z) (button shift : bool)
| pre_build_hook (k : nat) (bd : BuildData)
| post_build_hook (k : nat) (coords : Z * Z * Z) (b : Block)
| dig_hook (k : nat) (c : Chunk) (coords : Z * Z * Z) (b : Block)
| automaton_feed (k : nat) (coords : Z * Z * Z)
| log_err (message : string).

(** *** Timers and tasks *)

(** [twisted.internet.task.LoopingCall]: the protocol only starts it, stops
    it and tests [running]. *)
Record LoopingCall : Type := { running : bool; interval : Q }.

(** A call scheduled with [deferLater]: here always [run_dig_hooks] with its
    three arguments, whose callback clears [last_dig]. *)
Record DelayedCall : Type := {
  dc_delay : Q;
  dc_chunk : Chunk;
  dc_coords : Z * Z * Z;
  dc_block : Block;
}.

(** The work of a cooperative task: the calls its generator will make. *)
Inductive Work : Type :=
| enable_work (k : key)
| disable_work (k : key).

Inductive TaskStatus : Type := Running | Done | Failed | Stopped.

Record CooperativeTask : Type := { work : list Work; status : TaskStatus }.

(** *** The session *)

Definition STATE_UNAUTHENTICATED : Z := 0.
Definition STATE_CHALLENGED : Z := 1.
Definition STATE_AUTHENTICATED : Z := 2.

Definition SUPPORTED_PROTOCOL : Z := 11.

(** A [BravoProtocol] instance with the part of its surroundings that its
    handlers read or change. *)
Record Session : Type := {
  (* BetaServerProtocol *)
  state : Z;
  chunks : gmap key Chunk;
  windows : gmap Z Inventory;
  wid : Z;
  location : Location;
  player : option Player;
  username : option string;
  ping_loop : LoopingCall;
  (* BravoProtocol *)
  chunk_tasks : option (list CooperativeTask);
  time_loop : option LoopingCall;
  last_dig : option (Z * Z * Z * Z * Q);
  (* factory.world, factory.protocols, the reactor, and the effect log *)
  world : World;
  protocols : gset string;
  delayed : list DelayedCall;
  out : list Event;
}.

(** Attribute assignment, one setter per attribute. *)
Definition set_state (v : Z) (s : Session) : Session :=
  {| state := v; chunks := chunks s; windows := windows s; wid := wid s;
     location := location s; player := player s; username := username s;
     ping_loop := ping_loop s; chunk_tasks := chunk_tasks s;
     time_loop := time_loop s; last_dig := last_dig s; world := world s;
     protocols := protocols s; delayed := delayed s; out := out s |}.
Definition set_chunks (v : gmap key Chunk) (s : Session) : Session :=
  {| state := state s; chunks := v; windows := windows s; wid := wid s;
     location := location s; player := player s; username := username s;
     ping_loop := ping_loop s; chunk_tasks := chunk_tasks s;
     time_loop := time_loop s; last_dig := last_dig s; world := world s;
     protocols := protocols s; delayed := delayed s; out := out s |}.
Definition set_windows (v : gmap Z Inventory) (s : Session) : Session :=
  {| state := state s; chunks := chunks s; windows := v; wid := wid s;
     location := location s; player := player s; username := username s;
     ping_loop := ping_loop s; chunk_tasks := chunk_tasks s;
     time_loop := time_loop s; last_dig := last_dig s; world := world s;
     protocols := protocols s; delayed := delayed s; out := out s |}.
Definition set_wid (v : Z) (s : Session) : Session :=
  {| state := state s; chunks := chunks s; windows := windows s; wid := v;
     location := location s; player := player s; username := username s;
     ping_loop := ping_loop s; chunk_tasks := chunk_tasks s;
     time_loop := time_loop s; last_dig := last_dig s; world := world s;
     protocols := protocols s; delayed := delayed s; out := out s |}.
Definition set_location (v : Location) (s : Session) : Session :=
  {| state := state s; chunks := chunks s; windows := windows s;
     wid := wid s; location := v; player := player s; username := username s;
     ping_loop := ping_loop s; chunk_tasks := chunk_tasks s;
     time_loop := time_loop s; last_dig := last_dig s; world := world s;
     protocols := protocols s; delayed := delayed s; out := out s |}.
Definition set_player (v : option Player) (s : Session) : Session :=
  {| state := state s; chunks := chunks s; windows := windows s;
     wid := wid s; location := location s; player := v;
     username := username s; ping_loop := ping_loop s;
     chunk_tasks := chunk_tasks s; time_loop := time_loop s;
     last_dig := last_dig s; world := world s; protocols := protocols s;
     delayed := delayed s; out := out s |}.
Definition set_ping_loop (v : LoopingCall) (s : Session) : Session :=
  {| state := state s; chunks := chunks s; windows := windows s;
     wid := wid s; location := location s; player := player s;
     username := username s; ping_loop := v; chunk_tasks := chunk_tasks s;
     time_loop := time_loop s; last_dig := last_dig s; world := world s;
     protocols := protocols s; delayed := delayed s; out := out s |}.
Definition set_chunk_tasks (v : option (list CooperativeTask)) (s : Session) : Session :=
  {| state := state s; chunks := chunks s; windows := windows s;
     wid := wid s; location := location s; player := player s;
     username := username s; ping_loop := ping_loop s; chunk_tasks := v;
     time_loop := time_loop s; last_dig := last_dig s; world := world s;
     protocols := protocols s; delayed := delayed s; out := out s |}.
Definition set_time_loop (v : option LoopingCall) (s : Session) : Session :=
  {| state := state s; chunks := chunks s; windows := windows s;
     wid := wid s; location := location s; player := player s;
     username := username s; ping_loop := ping_loop s;
     chunk_tasks := chunk_tasks s; time_loop := v; last_dig := last_dig s;
     world := world s; protocols := protocols s; delayed := delayed s;
     out := out s |}.
Definition set_last_dig (v : option (Z * Z * Z * Z * Q)) (s : Session) : Session :=
  {| state := state s; chunks := chunks s; windows := windows s;
     wid := wid s; location := location s; player := player s;
     username := username s; ping_loop := ping_loop s;
     chunk_tasks := chunk_tasks s; time_loop := time_loop s; last_dig := v;
     world := world s; protocols := protocols s; delayed := delayed s;
     out := out s |}.
Definition set_world (v : World) (s : Session) : Session :=
  {| state := state s; chunks := chunks s; windows := windows s;
     wid := wid s; location := location s; player := player s;
     username := username s; ping_loop := ping_loop s;
     chunk_tasks := chunk_tasks s; time_loop := time_loop s;
     last_dig := last_dig s; world := v; protocols := protocols s;
     delayed := delayed s; out := out s |}.
Definition set_protocols (v : gset string) (s : Session) : Session :=
  {| state := state s; chunks := chunks s; windows := windows s;
     wid := wid s; location := location s; player := player s;
     username := username s; ping_loop := ping_loop s;
     chunk_tasks := chunk_tasks s; time_loop := time_loop s;
     last_dig := last_dig s; world := world s; protocols := v;
     delayed := delayed s; out := out s |}.
Definition set_delayed (v : list DelayedCall) (s : Session) : Session :=
  {| state := state s; chunks := chunks s; windows := windows s;
     wid := wid s; location := location s; player := player s;
     username := username s; ping_loop := ping_loop s;
     chunk_tasks := chunk_tasks s; time_loop := time_loop s;
     last_dig := last_dig s; world := world s; protocols := protocols s;
     delayed := v; out := out s |}.
Definition set_out (v : list Event) (s : Session) : Session :=
  {| state := state s; chunks := chunks s; windows := windows s;
     wid := wid s; location := location s; player := player s;
     username := username s; ping_loop := ping_loop s;
     chunk_tasks := chunk_tasks s; time_loop := time_loop s;
     last_dig := last_dig s; world := world s; protocols := protocols s;
     delayed := delayed s; out := v |}.

(** ** The handler monad *)

Definition M (A : Type) : Type := Session → outcome A * Session.

#[global] Instance M_ret : MRet M := λ A a s, (Return a, s).

#[global] Instance M_bind : MBind M := λ A B f m s,
  match m s with
  | (Return a, s') => f a s'
  | (Raise e, s') => (Raise e, s')
  end.

Definition raise {A : Type} (e : exn) : M A := λ s, (Raise e, s).
Definition get : M Session := λ s, (Return s, s).
Definition modify (f : Session → Session) : M unit := λ s, (Return (), f s).

(** Record a call on a collaborator. *)
Definition emit (e : Event) : M unit := modify (λ s, set_out (out s ++ [e]) s).

(** [try: m  except BuildError: ...]: [None] when [m] raised [BuildError]. *)
Definition except_BuildError {A : Type} (m : M A) : M (option A) := λ s,
  match m s with
  | (Return a, s') => (Return (Some a), s')
  | (Raise BuildError, s') => (Return None, s')
  | (Raise e, s') => (Raise e, s')
  end.

(** [maybeDeferred(f, ...)] whose result nobody inspects: an exception of
    [f] stays in the Deferred. *)
Definition maybeDeferred (m : M unit) : M unit := λ s, (Return (), (m s).2).

(** [for x in l: body(x)], with the position of [x] in [l]. *)
Fixpoint for_each {A : Type} (l : list A) (k : nat) (body : nat → A → M unit) : M unit :=
  match l with
  | [] => mret ()
  | x :: l' => body k x ;; for_each l' (S k) body
  end.

(** [l[n]] on a list. *)
Definition index {A : Type} (l : list A) (n : nat) : M A :=
  match l !! n with
  | Some x => mret x
  | None => raise IndexError
  end.

(** [self.player], followed by an attribute access: [None] has none. *)
Definition the_player : M Player :=
  s ← get;
  match player s with
  | Some p => mret p
  | None => raise AttributeError
  end.

Definition modify_player (f : Player → Player) : M unit :=
  p ← the_player; modify (set_player (Some (f p))).

(** ** BetaServerProtocol *)

Definition new_LoopingCall : LoopingCall := {| running := false; interval := 0 |}.

Definition new_Location : Location :=
  {| loc_x := 0; loc_y := 0; loc_z := 0; stance := 0; yaw := 0; pitch := 0;
     loc_grounded := false |}.

(** [BetaServerProtocol.__init__], with the class attributes of
    [BravoProtocol]; the world and the registry of the factory it is
    attached to are given. *)
Definition new_protocol (w : World) (registry : gset string) : Session :=
  {| state := STATE_UNAUTHENTICATED; chunks := ∅; windows := ∅; wid := 1;
     location := new_Location; player := None; username := None;
     ping_loop := new_LoopingCall; chunk_tasks := None; time_loop := None;
     last_dig := None; world := w; protocols := registry; delayed := [];
     out := [] |}.

(** [error(message)]. *)
Definition error (message : string) : M unit :=
  emit (transport_write (make_error_packet message)) ;;
  emit transport_loseConnection.

(** [update_ping()]. *)
Definition update_ping : M unit :=
  emit (transport_write (make_packet "ping" [])).

(** [self._ping_loop.start(interval)]: a started [LoopingCall] calls its
    function at once and then every [interval] seconds. *)
Definition ping_loop_start (i : Q) : M unit :=
  s ← get;
  if running (ping_loop s) then raise AssertionError
  else modify (set_ping_loop {| running := true; interval := i |}) ;; update_ping.

(** [self._ping_loop.stop()]. *)
Definition ping_loop_stop : M unit :=
  s ← get;
  if running (ping_loop s)
  then modify (set_ping_loop {| running := false; interval := interval (ping_loop s) |})
  else raise AssertionError.

(** The reactor reaching the next period of the ping loop: a running loop
    calls [update_ping], a stopped one has no call left to fire. *)
Definition ping_loop_fire : M unit :=
  s ← get;
  if running (ping_loop s) then update_ping else mret ().

(** [BetaServerProtocol.connectionLost(reason)]. *)
Definition BetaServerProtocol_connectionLost : M unit :=
  s ← get;
  if running (ping_loop s) then ping_loop_stop else mret ().

(** [BetaServerProtocol.authenticated()]. *)
Definition BetaServerProtocol_authenticated : M unit :=
  modify (set_state STATE_AUTHENTICATED) ;;
  ping_loop_start 5.

(** [grounded(container)]. *)
Definition set_grounded (g : bool) (l : Location) : Location :=
  {| loc_x := loc_x l; loc_y := loc_y l; loc_z := loc_z l; stance := stance l;
     yaw := yaw l; pitch := pitch l; loc_grounded := g |}.

Definition grounded (container_grounded : Z) : M unit :=
  s ← get;
  modify (set_location (set_grounded (bool_of container_grounded) (location s))).

Record PositionPacket : Type := {
  position_x : Q; position_y : Q; position_stance : Q; position_z : Q;
  grounded_grounded : Z;
}.

(** The block coordinate [position] stores for a received [x] or [z]:
    [int(v) if v > 0 else int(v) - 1]. *)
Definition block_coord (v : Q) : Z :=
  if Qlt_le_dec 0 v then int v else int v - 1.

Definition set_position (x y z st : Q) (l : Location) : Location :=
  {| loc_x := x; loc_y := y; loc_z := z; stance := st;
     yaw := yaw l; pitch := pitch l; loc_grounded := loc_grounded l |}.

Section Position.

(** The [position_changed] callback, which subclasses override. *)
Variable position_changed : M unit.

(** [position(container)]. *)
Definition position (container : PositionPacket) : M unit :=
  s ← get;
  let l := location s in
  let old_position := (loc_x l, loc_y l, loc_z l) in
  let x := inject_Z (block_coord (position_x container)) in
  let y := inject_Z (int (position_y container)) in
  let z := inject_Z (block_coord (position_z container)) in
  modify (set_location (set_position x y z (position_stance container) l)) ;;
  grounded (grounded_grounded container) ;;
  if Qeq_bool old_position.1.1 x && Qeq_bool old_position.1.2 y
     && Qeq_bool old_position.2 z
  then mret ()
  else position_changed.

End Position.

(** ** BravoProtocol *)

Record DiggingPacket : Type := {
  dig_state : string;
  dig_x : Z; dig_y : Z; dig_z : Z;
  dig_face : string;
}.

Record BuildPacket : Type := {
  build_x : Z; build_y : Z; build_z : Z;
  build_face : string;
  build_primary : Z;
}.

Record WactionPacket : Type := {
  waction_wid : Z;
  waction_slot : Z;
  waction_button : Z;
  waction_token : Z;
  waction_shift : Z;
}.

(** What a local variable bound to an inventory refers to. *)
Inductive InventoryRef : Type :=
| player_inventory
| window_inventory (w : Z).

(** What [dict.pop(key, default)] can return for [self.chunks]. *)
Inductive value : Type :=
| VInt (n : Z)
| VChunk (c : Chunk).

Definition set_status (st : TaskStatus) (t : CooperativeTask) : CooperativeTask :=
  {| work := work t; status := st |}.

(** [for task in tasks: try: task.stop() except (TaskDone, TaskFailed): pass].
    Stopping a finished task raises; only [TaskDone] and [TaskFailed] are
    caught. *)
Fixpoint stop_tasks (ts : list CooperativeTask) : list CooperativeTask * option exn :=
  match ts with
  | [] => ([], None)
  | t :: ts' =>
    match status t with
    | Running => let r := stop_tasks ts' in (set_status Stopped t :: r.1, r.2)
    | Done | Failed => let r := stop_tasks ts' in (t :: r.1, r.2)
    | Stopped => (t :: ts', Some TaskStopped)
    end
  end.

(** [if self.chunk_tasks: for task in self.chunk_tasks: ...]. *)
Definition stop_chunk_tasks : M unit :=
  s ← get;
  match chunk_tasks s with
  | None | Some [] => mret ()
  | Some ts =>
    let r := stop_tasks ts in
    modify (set_chunk_tasks (Some r.1)) ;;
    match r.2 with
    | None => mret ()
    | Some e => raise e
    end
  end.

(** [cooperate(iterator)]. *)
Definition cooperate (w : list Work) : CooperativeTask := {| work := w; status := Running |}.

(** The sort key of [update_chunks]: the squared distance to [(x, z)]. *)
Definition distance_key (x z : Z) (t : key) : Z :=
  match t with
  | KPair a b => (a - x) ^ 2 + (b - z) ^ 2
  | KInt _ => 0
  end.

(** The order [sorted(added, key=...)] sorts by. *)
Definition nearer (x z : Z) (a b : key) : Prop := distance_key x z a ≤ distance_key x z b.

#[global] Instance nearer_dec (x z : Z) : RelDecision (nearer x z).
Proof. intros a b. unfold nearer. apply _. Defined.

(** The set [new] of [update_chunks]: the circle moved to chunk [(x, z)]. *)
Definition visible (x z : Z) : gset key :=
  list_to_set ((λ p : Z * Z, KPair (p.1 + x) (p.2 + z)) <$> circle).

Definition entity_equipment (e s primary secondary : Z) : Packet :=
  make_packet "entity-equipment"
    [("eid", FInt e); ("slot", FInt s); ("primary", FInt primary);
     ("secondary", FInt secondary)].

Definition prechunk (x z enabled : Z) : Packet :=
  make_packet "prechunk" [("x", FInt x); ("z", FInt z); ("enabled", FInt enabled)].

Definition destroy (e : Z) : Packet := make_packet "destroy" [("eid", FInt e)].

Section Bravo.

(** The tables of [bravo.blocks]. *)
Variable blocks : gmap Z Block.
Variable items : gmap Z Block.
(** [blocks["workbench"]]. *)
Variable workbench : Block.

(** [bravo.inventory]: [inventory.consume(item, index)] and
    [inventory.select(slot, alternate, shift)] return a flag and leave the
    inventory updated; [Workbench()] and [sync_inventories(src, dst)]. *)
Variable consume : Inventory → Z * Z → nat → bool * Inventory.
Variable select : Inventory → Z → bool → bool → bool * Inventory.
Variable Workbench : Inventory.
Variable sync_inventories : Inventory → Inventory → Inventory.

(** The hooks resolved in [__init__], in configuration order, and the
    factory's automatons given by their [blocks] trigger sets. *)
Variable pre_build_hooks : list (BuildData → M (bool * BuildData)).
Variable post_build_hooks : list (Z * Z * Z → Block → M unit).
Variable dig_hooks : list (Chunk → Z * Z * Z → Block → M unit).
Variable automatons : list (gset Z).

(** [dig_policies["notchy"]], [Location.in_front_of] and [factory.time]. *)
Variable is_1ko : Z → option Slot → bool.
Variable dig_time : Z → option Slot → Q.
Variable in_front_of : Location → Z → Q * Q * Q.
Variable factory_time : Q.

(** [update_time()]. *)
Definition update_time : M unit :=
  emit (transport_write (make_packet "time" [("timestamp", FInt (int factory_time))])).

(** [self.time_loop = LoopingCall(self.update_time); self.time_loop.start(i)]. *)
Definition time_loop_start (i : Q) : M unit :=
  modify (set_time_loop (Some {| running := true; interval := i |})) ;;
  update_time.

(** The reactor reaching the next period of the time loop. *)
Definition time_loop_fire : M unit :=
  s ← get;
  match time_loop s with
  | Some l => if running l then update_time else mret ()
  | None => mret ()
  end.

(** [run_dig_hooks(chunk, coords, block)]. *)
Definition run_dig_hooks (chunk : Chunk) (coords : Z * Z * Z) (block : Block) : M unit :=
  (if breakable block
   then modify (λ s, set_world
          (<[(chunk_x chunk, chunk_z chunk) :=
               chunk_destroy coords (chunk_of (world s) chunk)]> (world s)) s)
   else mret () : M unit) ;;
  for_each dig_hooks 0 (λ k hook,
    emit (dig_hook k chunk coords block) ;;
    maybeDeferred (hook chunk coords block)) ;;
  emit (factory_flush_chunk chunk).

(** A call scheduled by [digging] coming due: [run_dig_hooks] runs, then
    the callback [setattr(self, "last_dig", None)]. *)
Definition fire_delayed (c : DelayedCall) : M unit :=
  run_dig_hooks (dc_chunk c) (dc_coords c) (dc_block c) ;;
  modify (set_last_dig None).

(** [blocks[block]]. *)
Definition blocks_getitem (b : Z) : M Block :=
  match blocks !! b with
  | Some bl => mret bl
  | None => raise KeyError
  end.

Definition chunk_error (what : string) (bigx bigz : Z) : string :=
  "Couldn't " +:+ what +:+ " in chunk (" +:+ pretty bigx +:+ ", "
    +:+ pretty bigz +:+ ")!".

(** The branch of [digging] for a player dropping the held item. *)
Definition drop_held : M unit :=
  p ← the_player;
  let i := inventory p in
  holding ← index (holdables i) (equipped p);
  match holding with
  | Some (primary, secondary, count) =>
    let r := consume i (primary, secondary) (equipped p) in
    modify_player (set_inventory r.2) ;;
    if r.1 then
      s ← get;
      let '(dx, dy, dz) := in_front_of (location s) 2 in
      let dy := (dy + 1)%Q in
      let coords := (int (dx * 32) + 16, int (dy * 32) + 16, int (dz * 32) + 16) in
      emit (factory_give coords (primary, secondary) 1) ;;
      p ← the_player;
      emit (transport_write (inventory_save_to_packet (inventory p))) ;;
      left ← index (holdables (inventory p)) (equipped p);
      match left with
      | None => emit (factory_broadcast_for_others (entity_equipment (eid p) 0 65535 0))
      | Some _ => mret ()
      end
    else mret ()
  | None => mret ()
  end.

(** [digging(container)]; [now] is what [time()] returns during the call. *)
Definition digging (now : Q) (container : DiggingPacket) : M unit :=
  let x := dig_x container in
  let y := dig_y container in
  let z := dig_z container in
  if (x =? -1) && (z =? -1) && (y =? 255) then mret ()
  else if String.eqb (dig_state container) "dropped"
          && String.eqb (dig_face container) "-y"
          && (x =? 0) && (y =? 0) && (z =? 0)
  then drop_held
  else
    let '(bigx, smallx, bigz, smallz) := split_coords x z in
    let coords := (smallx, y, smallz) in
    s ← get;
    match chunks s !! KPair bigx bigz with
    | None => error (chunk_error "dig" bigx bigz)
    | Some chunk =>
      let block := get_block (world s) chunk (smallx, y, smallz) in
      if String.eqb (dig_state container) "started" then
        p ← the_player;
        tool ← index (holdables (inventory p)) (equipped p);
        if is_1ko block tool then
          b ← blocks_getitem block;
          run_dig_hooks chunk coords b
        else
          let dtime := (now + dig_time block tool)%Q in
          modify (set_last_dig (Some (coords, block, dtime)))
      else if String.eqb (dig_state container) "stopped" then
        match last_dig s with
        | None => mret ()
        | Some (oldcoords, oldblock, dtime) =>
          if bool_decide (oldcoords ≠ coords) || bool_decide (oldblock ≠ block)
          then modify (set_last_dig None)
          else
            let dtime := (dtime - now)%Q in
            b ← blocks_getitem block;
            modify (λ s, set_delayed
              (delayed s ++ [{| dc_delay := Py.max dtime 0; dc_chunk := chunk;
                                dc_coords := coords; dc_block := b |}]) s)
        end
      else mret ()
    end.

(** The face offset of [run_build]. *)
Definition offset (face : string) (x y z : Z) : Z * Z * Z :=
  if String.eqb face "-x" then (x - 1, y, z)
  else if String.eqb face "+x" then (x + 1, y, z)
  else if String.eqb face "-y" then (x, y - 1, z)
  else if String.eqb face "+y" then (x, y + 1, z)
  else if String.eqb face "-z" then (x, y, z - 1)
  else if String.eqb face "+z" then (x, y, z + 1)
  else (x, y, z).

(** [self.player.inventory.consume(item, self.player.equipped)]. *)
Definition player_consume (item : Z * Z) : M bool :=
  p ← the_player;
  let r := consume (inventory p) item (equipped p) in
  modify_player (set_inventory r.2) ;;
  mret r.1.

(** [run_build(builddata)]. *)
Definition run_build (builddata : BuildData) : M unit :=
  let block := bd_block builddata in
  let face := bd_face builddata in
  if bool_decide (slot block ∉ dom blocks) then raise BuildError
  else
    metadata ←
      (if (bd_metadata builddata =? 0) && orientable block then
         match orientation block face with
         | None => raise BuildError
         | Some m => mret m
         end
       else mret (bd_metadata builddata) : M Z);
    consumed ← player_consume (slot block, 0);
    (if consumed : bool then mret ()
     else
       consumed ← player_consume (drop block, 0);
       if consumed : bool then mret () else raise BuildError : M unit) ;;
    let coords := offset face (bd_x builddata) (bd_y builddata) (bd_z builddata) in
    modify (λ s, set_world (world_set_block coords (slot block) (world s)) s) ;;
    if metadata =? 0 then mret ()
    else modify (λ s, set_world (world_set_metadata coords metadata (world s)) s).

(** The loop over [self.pre_build_hooks]: a hook that returns
    [cont = False] ends the loop ([break]); the loop leaves the last
    [builddata] bound. *)
Fixpoint run_pre_build_hooks (hooks : list (BuildData → M (bool * BuildData)))
    (k : nat) (builddata : BuildData) : M BuildData :=
  match hooks with
  | [] => mret builddata
  | hook :: rest =>
    emit (pre_build_hook k builddata) ;;
    r ← hook builddata;
    if (r : bool * BuildData).1 then run_pre_build_hooks rest (S k) r.2 else mret r.2
  end.

(** [build], from the comment "Run the build." to the end. *)
Definition commit_build (builddata : BuildData) : M unit :=
  r ← except_BuildError (run_build builddata);
  match r with
  | None => mret ()
  | Some _ =>
    let newblock := slot (bd_block builddata) in
    let coords := (bd_x builddata, bd_y builddata, bd_z builddata) in
    for_each post_build_hooks 0 (λ k hook,
      emit (post_build_hook k coords (bd_block builddata)) ;;
      hook coords (bd_block builddata)) ;;
    for_each automatons 0 (λ k automaton_blocks,
      if bool_decide (newblock ∈ automaton_blocks)
      then emit (automaton_feed k coords) else mret ()) ;;
    p ← the_player;
    emit (transport_write (inventory_save_to_packet (inventory p))) ;;
    s ← get;
    for_each (map_to_list (chunks s)) 0 (λ _ kc, emit (factory_flush_chunk kc.2))
  end.

(** [build(container)]. *)
Definition build (container : BuildPacket) : M unit :=
  let x := build_x container in
  let y := build_y container in
  let z := build_z container in
  if (x =? -1) && (z =? -1) && (y =? 255) then mret ()
  else
    let '(bigx, smallx, bigz, smallz) := split_coords x z in
    s ← get;
    match chunks s !! KPair bigx bigz with
    | None => error (chunk_error "select" bigx bigz)
    | Some chunk =>
      if get_block (world s) chunk (smallx, y, smallz) =? slot workbench then
        p ← the_player;
        let i := sync_inventories (inventory p) Workbench in
        modify (set_windows (<[wid s := i]> (windows s))) ;;
        let packet := make_packet "window-open"
          [("wid", FInt (wid s)); ("type", FStr "workbench");
           ("title", FStr "Hurp"); ("slots", FInt 2)] in
        modify (set_wid (wid s + 1)) ;;
        emit (transport_write packet)
      else if build_primary container =? -1 then mret ()
      else if String.eqb (build_face container) "noop" then mret ()
      else
        match blocks !! build_primary container ∪ items !! build_primary container with
        | None =>
          emit (log_err ("Ignoring request to place unknown block "
                           +:+ pretty (build_primary container)))
        | Some block =>
          if (y =? 127) && String.eqb (build_face container) "+y" then mret ()
          else
            let builddata :=
              {| bd_block := block; bd_metadata := 0; bd_x := x; bd_y := y;
                 bd_z := z; bd_face := build_face container |} in
            builddata ← run_pre_build_hooks pre_build_hooks 0 builddata;
            commit_build builddata
        end
    end.


(** Reading a local variable that holds an inventory:
    [UnboundLocalError] when no branch has assigned it. *)
Definition read_local (i : option InventoryRef) : M Inventory :=
  match i with
  | None => raise UnboundLocalError
  | Some player_inventory => p ← the_player; mret (inventory p)
  | Some (window_inventory w) =>
    s ← get;
    match windows s !! w with
    | Some inv => mret inv
    | None => raise KeyError
    end
  end.

(** Storing back the inventory a method call has updated in place. *)
Definition write_back (i : InventoryRef) (inv : Inventory) : M unit :=
  match i with
  | player_inventory => modify_player (set_inventory inv)
  | window_inventory w => modify (λ s, set_windows (<[w := inv]> (windows s)) s)
  end.

(** [slot in range(5, 9)]. *)
Definition in_range_5_9 (n : Z) : bool := (5 <=? n) && (n <? 9).

(** [waction(container)]. *)
Definition waction (container : WactionPacket) : M unit :=
  let w := waction_wid container in
  s ← get;
  i ← (if w =? 0 then mret (Some player_inventory)
       else if bool_decide (w ∈ dom (windows s)) then mret (Some (window_inventory w))
       else error ("Couldn't find window " +:+ pretty w) ;; mret None
       : M (option InventoryRef));
  inv ← read_local i;
  let r := select inv (waction_slot container) (bool_of (waction_button container))
             (bool_of (waction_shift container)) in
  emit (inventory_select w (waction_slot container)
          (bool_of (waction_button container)) (bool_of (waction_shift container))) ;;
  from_option (λ ref, write_back ref r.2) (mret ()) i ;;
  let selected := r.1 in
  (if selected then
     emit (transport_write (inventory_save_to_packet r.2)) ;;
     if (w =? 0) && (in_range_5_9 (waction_slot container)
                     || (waction_slot container =? 36)) then
       item ← (if in_range_5_9 (waction_slot container)
               then index (armor r.2) (Z.to_nat (waction_slot container - 5))
               else index (holdables r.2) 0 : M (option Slot));
       let eslot := if in_range_5_9 (waction_slot container)
                    then 4 - (waction_slot container - 5) else 0 in
       let ps := match item with
                 | None => (65535, 0)
                 | Some (primary, secondary, count) => (primary, secondary)
                 end in
       p ← the_player;
       emit (factory_broadcast_for_others (entity_equipment (eid p) eslot ps.1 ps.2))
     else mret ()
   else mret () : M unit) ;;
  emit (transport_write (make_packet "window-token"
    [("wid", FInt 0); ("token", FInt (waction_token container));
     ("acknowledged", FBool selected)])).

(** [dict.pop(key, default)] on [self.chunks]. *)
Definition chunks_pop (k : key) (default : value) : M value :=
  s ← get;
  match chunks s !! k with
  | Some c => modify (set_chunks (delete k (chunks s))) ;; mret (VChunk c)
  | None => mret default
  end.

(** [v.entities]: an integer has no such attribute. *)
Definition getattr_entities (v : value) : M (list Entity) :=
  match v with
  | VChunk c => s ← get; mret (entities (chunk_of (world s) c))
  | VInt _ => raise AttributeError
  end.

(** [disable_chunk(x, z)]. *)
Definition disable_chunk (x z : Z) : M unit :=
  chunk ← chunks_pop (KInt x) (VInt z);
  es ← getattr_entities chunk;
  for_each es 0 (λ _ entity, emit (transport_write (destroy (ent_eid entity)))) ;;
  emit (transport_write (prechunk x z 0)).

(** [send_chunk(chunk)]. *)
Definition send_chunk (chunk : Chunk) : M unit :=
  emit (transport_write (prechunk (chunk_x chunk) (chunk_z chunk) 1)) ;;
  emit (transport_write (chunk_save_to_packet chunk)) ;;
  s ← get;
  for_each (entities (chunk_of (world s) chunk)) 0 (λ _ entity,
    emit (transport_write (entity_save_to_packet entity))) ;;
  for_each (tiles (chunk_of (world s) chunk)) 0 (λ _ tile,
    if String.eqb (ent_name tile.2) "Sign"
    then emit (transport_write (entity_save_to_packet tile.2)) else mret ()) ;;
  modify (λ s, set_chunks (<[KPair (chunk_x chunk) (chunk_z chunk) := chunk]> (chunks s)) s).

(** [enable_chunk(x, z)]; the world's Deferred fires with the chunk at
    [(x, z)]. *)
Definition enable_chunk (x z : Z) : M unit :=
  s ← get;
  if bool_decide (KPair x z ∈ dom (chunks s)) then mret ()
  else
    emit (world_request_chunk x z) ;;
    send_chunk {| chunk_x := x; chunk_z := z |}.

(** One step of a cooperative task: [for i, j in ...] unpacks the key. *)
Definition run_work (w : Work) : M unit :=
  match w with
  | enable_work (KPair i j) => enable_chunk i j
  | disable_work (KPair i j) => disable_chunk i j
  | enable_work (KInt _) | disable_work (KInt _) => raise TypeError
  end.

(** [update_chunks()]. *)
Definition update_chunks : M unit :=
  s ← get;
  let '(x, _, z, _) := split_coords (int (loc_x (location s))) (int (loc_z (location s))) in
  let new := visible x z in
  let old := dom (chunks s) in
  let added := new ∖ old in
  let discarded := old ∖ new in
  stop_chunk_tasks ;;
  modify (set_chunk_tasks (Some
    [cooperate (enable_work <$>
       merge_sort (nearer x z) (elements added));
     cooperate (disable_work <$> elements discarded)])).

(** [BravoProtocol.connectionLost(reason)]. *)
Definition connectionLost : M unit :=
  s ← get;
  match time_loop s with
  | Some l =>
    if running l
    then modify (set_time_loop (Some {| running := false; interval := interval l |}))
    else raise AssertionError
  | None => mret ()
  end ;;
  stop_chunk_tasks ;;
  s ← get;
  match player s with
  | Some p =>
    emit (world_save_player (username s) p) ;;
    emit (factory_destroy_entity (eid p)) ;;
    emit (factory_broadcast (destroy (eid p))) ;;
    emit (factory_chat (default "None" (username s) +:+ " has left the game."))
  | None => mret ()
  end ;;
  s ← get;
  match username s with
  | Some name =>
    if bool_decide (name ∈ protocols s)
    then modify (set_protocols (protocols s ∖ {[name]}))
    else mret ()
  | None => mret ()
  end.

End Bravo.

(** [BetaServerProtocol.position_changed()]: [pass]. *)
Definition BetaServerProtocol_position_changed : M unit := mret ().

(** ** A concrete world

    A small server used to run the handlers on explicit inputs. *)

Module Scenario.

Definition stone : Block :=
  {| slot := 1; drop := 4; breakable := true; orientable := false;
     orientation := λ _, None |}.

Definition cobblestone : Block :=
  {| slot := 4; drop := 4; breakable := true; orientable := false;
     orientation := λ _, None |}.

(** A torch cannot hang from a ceiling: no orientation on face ["-y"]. *)
Definition torch : Block :=
  {| slot := 50; drop := 50; breakable := true; orientable := true;
     orientation := λ face, if String.eqb face "-y" then None else Some 5 |}.

Definition workbench : Block :=
  {| slot := 58; drop := 58; breakable := true; orientable := false;
     orientation := λ _, None |}.

Definition blocks : gmap Z Block :=
  {[ 1 := stone; 4 := cobblestone; 50 := torch; 58 := workbench ]}.

Definition diamond_pickaxe : Block :=
  {| slot := 278; drop := 278; breakable := false; orientable := false;
     orientation := λ _, None |}.

Definition items : gmap Z Block := {[ 278 := diamond_pickaxe ]}.

Definition set_holdables (h : list (option Slot)) (i : Inventory) : Inventory :=
  {| identifier := identifier i; holdables := h; armor := armor i;
     crafting := crafting i; storage := storage i |}.

(** Modelled from the spec: [Inventory.consume] of [bravo.inventory], which
    is not part of the sources at hand.  Section 3 gives it as
    [consume((id, meta), held_slot) -> bool]: it takes one item of that
    kind from the held slot, and reports whether it could. *)
Definition consume (i : Inventory) (item : Z * Z) (index : nat) : bool * Inventory :=
  match holdables i !! index with
  | Some (Some (primary, secondary, count)) =>
    if (primary =? item.1) && (secondary =? item.2) then
      (true, set_holdables
               (<[index := if count <=? 1 then None
                           else Some (primary, secondary, count - 1)]> (holdables i)) i)
    else (false, i)
  | _ => (false, i)
  end.

(** A [select] that never changes anything. *)
Definition select (i : Inventory) (_ : Z) (_ _ : bool) : bool * Inventory := (false, i).

Definition empty_inventory (ident : Z) : Inventory :=
  {| identifier := ident; holdables := replicate 9 None; armor := replicate 4 None;
     crafting := replicate 4 None; storage := replicate 27 None |}.

Definition Workbench : Inventory := empty_inventory 1.

Definition sync_inventories (src dst : Inventory) : Inventory :=
  {| identifier := identifier dst; holdables := holdables src; armor := armor dst;
     crafting := crafting dst; storage := storage src |}.

(** Five blocks of stone in the first holdable slot. *)
Definition alice : Player :=
  {| eid := 7; equipped := 0;
     inventory := set_holdables (Some (1, 0, 5) :: replicate 8 None) (empty_inventory 0) |}.

Definition empty_chunk : ChunkData :=
  {| blocks_of := ∅; metadata_of := ∅; entities := []; tiles := []; dirty := false |}.

Definition flat : World := λ _, empty_chunk.

Definition chunk00 : Chunk := {| chunk_x := 0; chunk_z := 0 |}.

(** Alice, logged in, with chunk (0, 0) streamed to her client. *)
Definition session : Session :=
  set_chunks {[ KPair 0 0 := chunk00 ]}
    (set_player (Some alice) (new_protocol flat ∅)).

(** The pre-build hooks of the veto scenario of section 8: the first sets
    the metadata to 3 and continues, the second vetoes. *)
Definition set_metadata_3 (bd : BuildData) : M (bool * BuildData) :=
  mret (true, {| bd_block := bd_block bd; bd_metadata := 3; bd_x := bd_x bd;
                 bd_y := bd_y bd; bd_z := bd_z bd; bd_face := bd_face bd |}).

Definition veto (bd : BuildData) : M (bool * BuildData) := mret (false, bd).

Definition pre_build_hooks : list (BuildData → M (bool * BuildData)) :=
  [set_metadata_3; veto].

Definition post_build_hooks : list (Z * Z * Z → Block → M unit) := [λ _ _, mret ()].

Definition dig_hooks : list (Chunk → Z * Z * Z → Block → M unit) := [λ _ _ _, mret ()].

Definition automatons : list (gset Z) := [].

Definition is_1ko (_ : Z) (_ : option Slot) : bool := false.
Definition dig_time (_ : Z) (_ : option Slot) : Q := 3 # 2.
Definition in_front_of (l : Location) (_ : Z) : Q * Q * Q := (loc_x l, loc_y l, loc_z l).

(** Alice places her stone on top of the block at (1, 64, 1). *)
Definition place_stone : BuildPacket :=
  {| build_x := 1; build_y := 64; build_z := 1; build_face := "+y"; build_primary := 1 |}.

(** The same session in a world with stone at (1, 64, 1), which Alice began
    to dig: the dig is due at time 10. *)
Definition stony : World :=
  <[(0, 0) := chunk_set_block (1, 64, 1) 1 empty_chunk]> flat.

Definition mid_dig : Session :=
  set_last_dig (Some (1, 64, 1, 1, 10%Q)) (set_world stony session).

Definition stop_digging (x y z : Z) : DiggingPacket :=
  {| dig_state := "stopped"; dig_x := x; dig_y := y; dig_z := z; dig_face := "+y" |}.

Definition build : BuildPacket → M unit :=
  build blocks items workbench consume Workbench sync_inventories
        pre_build_hooks post_build_hooks automatons.

Definition digging : Q → DiggingPacket → M unit :=
  digging blocks consume dig_hooks is_1ko dig_time in_front_of.

End Scenario.

(** ** Vocabulary of the statements *)

(** Every key of [self.chunks] is a pair: the only assignment,
    in [send_chunk], uses [chunk.x, chunk.z]. *)
Definition tuple_keys (s : Session) : Prop :=
  ∀ k, k ∈ dom (chunks s) → ∃ a b, k = KPair a b.

(** The chunk key a queued call is for. *)
Definition enable_work_key (w : Work) : key :=
  match w with enable_work k | disable_work k => k end.

Section Vocabulary.

Variable blocks : gmap Z Block.
Variable items : gmap Z Block.
Variable workbench : Block.
Variable consume : Inventory → Z * Z → nat → bool * Inventory.

(** A [consume] that reports failure has taken nothing. *)
Definition failure_takes_nothing : Prop :=
  ∀ i item index, (consume i item index).1 = false → (consume i item index).2 = i.

(** The three ways [run_build] can fail. *)
Definition is_item (bd : BuildData) : Prop := slot (bd_block bd) ∉ dom blocks.

Definition cannot_orient (bd : BuildData) : Prop :=
  bd_metadata bd = 0 ∧ orientable (bd_block bd) = true ∧
  orientation (bd_block bd) (bd_face bd) = None.

Definition cannot_consume (p : Player) (bd : BuildData) : Prop :=
  (consume (inventory p) (slot (bd_block bd), 0) (equipped p)).1 = false ∧
  (consume (inventory p) (drop (bd_block bd), 0) (equipped p)).1 = false.

(** The two world writes at the end of [run_build]. *)
Definition place (bd : BuildData) (metadata : Z) (s : Session) : Session :=
  let coords := offset (bd_face bd) (bd_x bd) (bd_y bd) (bd_z bd) in
  let s1 := set_world (world_set_block coords (slot (bd_block bd)) (world s)) s in
  if metadata =? 0 then s1
  else set_world (world_set_metadata coords metadata (world s1)) s1.

(** The metadata [run_build] places, [None] when the block cannot be
    oriented on the face. *)
Definition placed_metadata (bd : BuildData) : option Z :=
  if (bd_metadata bd =? 0) && orientable (bd_block bd)
  then orientation (bd_block bd) (bd_face bd)
  else Some (bd_metadata bd).

(** A build packet that gets past the guards of [build], down to the
    pre-build hooks, with [block] what its [primary] resolves to. *)
Definition reaches_pre_build (container : BuildPacket) (s : Session) (block : Block) : Prop :=
  let x := build_x container in
  let y := build_y container in
  let z := build_z container in
  ¬ (x = -1 ∧ z = -1 ∧ y = 255) ∧
  (∃ chunk, chunks s !! KPair (Z.shiftr x 4) (Z.shiftr z 4) = Some chunk ∧
            get_block (world s) chunk (Z.land x 15, y, Z.land z 15) ≠ slot workbench) ∧
  build_primary container ≠ -1 ∧
  build_face container ≠ "noop" ∧
  blocks !! build_primary container ∪ items !! build_primary container = Some block ∧
  ¬ (y = 127 ∧ build_face container = "+y").

(** The [BuildData] the hooks start from. *)
Definition initial_builddata (container : BuildPacket) (block : Block) : BuildData :=
  {| bd_block := block; bd_metadata := 0; bd_x := build_x container;
     bd_y := build_y container; bd_z := build_z container;
     bd_face := build_face container |}.

(** [vetoed hooks k bd s bd' s']: run from [bd] in session [s], the hooks
    continue until one of them returns [cont = False], with [bd'], leaving
    the session [s']. *)
Inductive vetoed :
  list (BuildData → M (bool * BuildData)) → nat → BuildData → Session →
  BuildData → Session → Prop :=
| vetoed_here hook rest k bd s bd' s' :
    hook bd (set_out (out s ++ [pre_build_hook k bd]) s) = (Return (false, bd'), s') →
    vetoed (hook :: rest) k bd s bd' s'
| vetoed_later hook rest k bd s bd1 s1 bd' s' :
    hook bd (set_out (out s ++ [pre_build_hook k bd]) s) = (Return (true, bd1), s1) →
    vetoed rest (S k) bd1 s1 bd' s' →
    vetoed (hook :: rest) k bd s bd' s'.

End Vocabulary.

(** ** More of the protocol *)

(** The chunks [send_initial_chunk_and_location] enables before the player
    is spawned: [product(xrange(bigx - 3, bigx + 3), xrange(bigz - 3, bigz + 3))]. *)
Definition initial_square (bigx bigz : Z) : list (Z * Z) :=
  product (xrange (bigx - 3) (bigx + 3)) (xrange (bigz - 3) (bigz + 3)).

(** The task [send_initial_chunk_and_location] hands to [cooperate]: one
    [enable_chunk] per chunk of the square, run to its end. *)
Definition enable_initial_chunks : M unit :=
  s ← get;
  let '(bigx, _, bigz, _) :=
    split_coords (int (loc_x (location s))) (int (loc_z (location s))) in
  for_each (initial_square bigx bigz) 0 (λ _ p, enable_chunk p.1 p.2).



(** [l[i]] for an integer index: a negative index counts from the end. *)
Definition getitem {A : Type} (l : list A) (i : Z) : outcome A :=
  let n := Z.of_nat (length l) in
  let j := if i <? 0 then n + i else i in
  if (0 <=? j) && (j <? n) then
    match l !! Z.to_nat j with
    | Some x => Return x
    | None => Raise IndexError
    end
  else Raise IndexError.

#[global] Instance outcome_ret : MRet outcome := λ A a, Return a.

#[global] Instance outcome_bind : MBind outcome := λ A B f m,
  match m with
  | Return a => f a
  | Raise e => Raise e
  end.

(** The test of the loops of [Ascend] and [Descend] (bravo/plugins/warp.py):
    [column[y] and not column[y + 1] and not column[y + 2]]. *)
Definition platform_at (column : list Z) (y : Z) : outcome bool :=
  a ← getitem column y;
  if a =? 0 then mret false
  else
    b ← getitem column (y + 1);
    if negb (b =? 0) then mret false
    else
      c ← getitem column (y + 2);
      mret (c =? 0).

(** [while y < 125: y += 1; if <platform>: break], run for the [n]
    iterations it has left; [None] is the [else] branch of the loop. *)
Fixpoint ascend_loop (column : list Z) (n : nat) (y : Z) : outcome (option Z) :=
  match n with
  | O => Return None
  | S n' =>
    let y := y + 1 in
    found ← platform_at column y;
    if found : bool then Return (Some y) else ascend_loop column n' y
  end.

(** The search of [Ascend.chat_command] from height [y]: the loop runs
    while [y < 125], so [125 - y] times at most. *)
Definition ascend (column : list Z) (y : Z) : outcome (option Z) :=
  ascend_loop column (Z.to_nat (125 - y)) y.

(** [while y > 0: y -= 1; if <platform>: break]. *)
Fixpoint descend_loop (column : list Z) (n : nat) (y : Z) : outcome (option Z) :=
  match n with
  | O => Return None
  | S n' =>
    let y := y - 1 in
    found ← platform_at column y;
    if found : bool then Return (Some y) else descend_loop column n' y
  end.

(** The search of [Descend.chat_command] from height [y]. *)
Definition descend (column : list Z) (y : Z) : outcome (option Z) :=
  descend_loop column (Z.to_nat y) y.

Section Callbacks.

(** The callbacks of [BetaServerProtocol], which subclasses override. *)
Variable position_changed : M unit.
Variable orientation_changed : M unit.



End Callbacks.

Section Lobby.

Variable sync_inventories : Inventory → Inventory → Inventory.
Variable in_front_of : Location → Z → Q * Q * Q.

(** [factory.login_hook(self, container)]: a Deferred, which fails when the
    computation raises; and [self.authenticated()]. *)
Variable login_hook : M unit.
Variable authenticated : M unit.

(** [BravoProtocol.login(container)].  The Deferred of the hook gets the
    errback first and the callback second, so the callback also runs on
    what the errback returns. *)
Definition login (protocol : Z) : M unit :=
  if protocol <? SUPPORTED_PROTOCOL then
    error "This server doesn't support your ancient client."
  else if SUPPORTED_PROTOCOL <? protocol then
    error "This server doesn't support your newfangled client."
  else λ s,
    match login_hook s with
    | (Return _, s1) => maybeDeferred authenticated s1
    | (Raise _, s1) =>
      (emit transport_loseConnection ;; maybeDeferred authenticated) s1
    end.

(** [wclose(container)]. *)
Definition wclose (w : Z) : M unit :=
  s ← get;
  match windows s !! w with
  | Some i =>
    (if identifier i =? 1 then
       let '(dx, dy, dz) := in_front_of (location s) 1 in
       let dy := (dy + 1)%Q in
       let coords := (int (dx * 32) + 16, int (dy * 32) + 16, int (dz * 32) + 16) in
       for_each (crafting i) 0 (λ _ item,
         match item with
         | None => mret ()
         | Some (primary, secondary, count) =>
           emit (factory_give coords (primary, secondary) count)
         end)
     else mret () : M unit) ;;
    modify (λ s, set_windows (delete w (windows s)) s) ;;
    p ← the_player;
    modify_player (set_inventory (sync_inventories i (inventory p)))
  | None =>
    if w =? 0 then mret ()
    else error ("Can't close non-existent window " +:+ pretty w +:+ "!")
  end.

End Lobby.

(** ** Vocabulary of the further statements *)

(** The packets [send_chunk] writes for the contents of a chunk. *)
Definition chunk_packets (c : Chunk) (d : ChunkData) : list Event :=
  [transport_write (prechunk (chunk_x c) (chunk_z c) 1);
   transport_write (chunk_save_to_packet c)]
  ++ (transport_write ∘ entity_save_to_packet <$> entities d)
  ++ (tiles d ≫= λ tile,
        if String.eqb (ent_name tile.2) "Sign"
        then [transport_write (entity_save_to_packet tile.2)] else []).


(** Every entry of the chunk cache is keyed by its chunk's coordinates. *)
Definition cache_coherent (s : Session) : Prop :=
  ∀ k c, chunks s !! k = Some c → k = KPair (chunk_x c) (chunk_z c).

(** What stopping does to one task. *)
Definition stopped_task (t : CooperativeTask) : CooperativeTask :=
  match status t with
  | Running => set_status Stopped t
  | _ => t
  end.


(** The two guards at the head of [digging]: the sentinel packet and the
    packet of a player dropping the held item. *)
Definition dig_sentinel (c : DiggingPacket) : bool :=
  (dig_x c =? -1) && (dig_z c =? -1) && (dig_y c =? 255).

Definition dig_drop (c : DiggingPacket) : bool :=
  String.eqb (dig_state c) "dropped" && String.eqb (dig_face c) "-y"
  && (dig_x c =? 0) && (dig_y c =? 0) && (dig_z c =? 0).

(** The chunk key and the coordinates in the chunk a packet at [(x, y, z)]
    is about. *)
Definition chunk_key (x z : Z) : key := KPair (Z.shiftr x 4) (Z.shiftr z 4).
Definition local_coords (x y z : Z) : Z * Z * Z := (Z.land x 15, y, Z.land z 15).

(** A digging packet at [(x, y, z)] in phase [st]. *)
Definition dig_packet (st : string) (x y z : Z) (face : string) : DiggingPacket :=
  {| dig_state := st; dig_x := x; dig_y := y; dig_z := z; dig_face := face |}.

(** A hook that leaves the session as it finds it (it may still raise). *)
Definition quiet {A : Type} (m : M A) : Prop := ∀ s, (m s).2 = s.


(** ** Further concrete cases *)

Module Cases.

(** What Alice holds, and the session of the scenario in the world with
    stone at (1, 64, 1). *)
Definition held_stone : option Slot := Some (1, 0, 5).

Definition on_stone : Session := set_world Scenario.stony Scenario.session.

(** When a dig of that stone begun at time 4 is due. *)
Definition due : Q := 4 + Scenario.dig_time 1 held_stone.

(** The session of the scenario in a world with a workbench at (2, 64, 2). *)
Definition at_workbench : Session :=
  set_world (<[(0, 0) := chunk_set_block (2, 64, 2) 58 Scenario.empty_chunk]> Scenario.flat)
    Scenario.session.

(** Alice clicks on the workbench with an empty hand. *)
Definition click_workbench : BuildPacket :=
  {| build_x := 2; build_y := 64; build_z := 2; build_face := "+y"; build_primary := -1 |}.

(** Stone placed on top of (1, 64, 1), as the hooks see it at first. *)
Definition stone_on_top : BuildData :=
  {| bd_block := Scenario.stone; bd_metadata := 0; bd_x := 1; bd_y := 64; bd_z := 1;
     bd_face := "+y" |}.

(** Chunk (1, 0), next to chunk (0, 0). *)
Definition chunk10 : Chunk := {| chunk_x := 1; chunk_z := 0 |}.

(** Stone at (1, 64, 1) and at (17, 64, 1): the same place within chunks
    (0, 0) and (1, 0). *)
Definition two_stones : World :=
  <[(1, 0) := chunk_set_block (1, 64, 1) 1 Scenario.empty_chunk]> Scenario.stony.

(** Alice with both chunks streamed to her client. *)
Definition two_chunks : Session :=
  set_chunks {[ KPair 0 0 := Scenario.chunk00; KPair 1 0 := chunk10 ]}
    (set_world two_stones Scenario.session).

(** A workbench with cobblestone and a torch left on its crafting grid,
    open as window 1 of Alice's session. *)
Definition used_workbench : Inventory :=
  {| identifier := 1; holdables := replicate 9 None; armor := replicate 4 None;
     crafting := [Some (4, 0, 2); None; Some (50, 0, 1); None];
     storage := replicate 27 None |}.

Definition crafting_open : Session :=
  set_windows {[ 1 := used_workbench ]} (set_wid 2 Scenario.session).

(** Alice's session while she plays: both loops running, one chunk still
    to be enabled, Alice and Bob in the registry. *)
Definition playing : Session :=
  {| state := STATE_AUTHENTICATED; chunks := {[ KPair 0 0 := Scenario.chunk00 ]};
     windows := ∅; wid := 1; location := new_Location; player := Some Scenario.alice;
     username := Some "alice"; ping_loop := {| running := true; interval := 5 |};
     chunk_tasks := Some [cooperate [enable_work (KPair 1 0)]; cooperate []];
     time_loop := Some {| running := true; interval := 10 |}; last_dig := None;
     world := Scenario.flat; protocols := {[ "alice"; "bob" ]}; delayed := [];
     out := [] |}.

(** A [select] that always reports a change and leaves the inventory. *)
Definition changing_select (i : Inventory) (_ : Z) (_ _ : bool) : bool * Inventory := (true, i).

(** A click on the given slot of window [w], with token 5. *)
Definition click (w slot : Z) : WactionPacket :=
  {| waction_wid := w; waction_slot := slot; waction_button := 0; waction_token := 5;
     waction_shift := 0 |}.

(** A column with ground up to height 63 and a ledge at height 70, and a
    column that is solid up to the top of the world. *)
Definition hill : list Z := replicate 64 1 ++ replicate 6 0 ++ [1] ++ replicate 57 0.

Definition tower : list Z := replicate 128 1.

End Cases.


(** The guard at the head of [build]. *)
Definition build_sentinel (c : BuildPacket) : bool :=
  (build_x c =? -1) && (build_z c =? -1) && (build_y c =? 255).

(** Window ids are handed out from [wid], which starts at 1 and only
    grows: every open window has an id below it. *)
Definition windows_below_wid (s : Session) : Prop :=
  1 ≤ wid s ∧ ∀ w, w ∈ dom (windows s) → 1 ≤ w < wid s.

(** The window-open packet of [build]. *)
Definition window_open (w : Z) : Packet :=
  make_packet "window-open"
    [("wid", FInt w); ("type", FStr "workbench"); ("title", FStr "Hurp");
     ("slots", FInt 2)].

(** Reading a block's metadata back through the world. *)
Definition world_get_metadata (w : World) (coords : Z * Z * Z) : Z :=
  let '(x, y, z) := coords in
  let '(bigx, smallx, bigz, smallz) := split_coords x z in
  get_metadata w {| chunk_x := bigx; chunk_z := bigz |} (smallx, y, smallz).

(** The automatons fed after a build of [newblock], with their positions. *)
Definition feeds (newblock : Z) (coords : Z * Z * Z) (automatons : list (gset Z)) : list Event :=
  mjoin (imap (λ k blocks_k,
    if bool_decide (newblock ∈ blocks_k) then [automaton_feed k coords] else [])
    automatons).

(** ** Vocabulary of the last statements *)




(** A number with no fractional part. *)
Definition whole (v : Q) : Prop := Qnum v mod Z.pos (Qden v) = 0.

(** Where [wclose] gives the items left in a workbench: one block above
    the place one block in front of the player, in thirty-seconds of a
    block. *)
Definition give_coords (in_front_of : Location → Z → Q * Q * Q) (l : Location) : Z * Z * Z :=
  let '(dx, dy, dz) := in_front_of l 1 in
  (int (dx * 32) + 16, int ((dy + 1) * 32) + 16, int (dz * 32) + 16).

(** The items [wclose] gives back: every stack left on the crafting grid
    of a workbench (identifier 1), whole; nothing for another window. *)
Definition leftovers (coords : Z * Z * Z) (i : Inventory) : list Event :=
  if identifier i =? 1 then
    crafting i ≫= λ item,
      match item with
      | None => []
      | Some (primary, secondary, count) => [factory_give coords (primary, secondary) count]
      end
  else [].

(** The time loop and the chunk tasks once [connectionLost] has stopped
    them. *)
Definition stopped_loop (l : option LoopingCall) : option LoopingCall :=
  match l with
  | Some l => Some {| running := false; interval := interval l |}
  | None => None
  end.

Definition stopped_tasks (ts : option (list CooperativeTask)) : option (list CooperativeTask) :=
  match ts with
  | Some ts => Some (stopped_task <$> ts)
  | None => None
  end.

(** The window-token packet that ends [waction]: its [wid] is always 0. *)
Definition window_token (token : Z) (acknowledged : bool) : Packet :=
  make_packet "window-token"
    [("wid", FInt 0); ("token", FInt token); ("acknowledged", FBool acknowledged)].

(** The entity-equipment packet for what is in an equipment slot. *)
Definition equipment_packet (e eslot : Z) (item : option Slot) : Packet :=
  make_packet "entity-equipment"
    [("eid", FInt e); ("slot", FInt eslot);
     ("primary", FInt (match item with Some (primary, _, _) => primary | None => 65535 end));
     ("secondary", FInt (match item with Some (_, secondary, _) => secondary | None => 0 end))].

(** A place to stand at height [y] of a column: a block there and none in
    the two places above.  Outside the column there is nothing. *)
Definition block_at (column : list Z) (y : Z) : Z :=
  if y <? 0 then 0 else default 0 (column !! Z.to_nat y).

Definition platform (column : list Z) (y : Z) : bool :=
  negb (block_at column y =? 0) && (block_at column (y + 1) =? 0)
  && (block_at column (y + 2) =? 0).

(** * Properties *)

(** ** Reasoning about handlers *)

Ltac run :=
  repeat (unfold mbind, M_bind, mret, M_ret, raise, get, modify, emit,
            modify_player, the_player, index, error in *; simpl in *).

Lemma emit_eq (e : Event) (s : Session) :
  emit e s = (Return (), set_out (out s ++ [e]) s).
Proof. reflexivity. Qed.

Lemma set_player_same (s : Session) : set_player (player s) s = s.
Proof. by destruct s. Qed.

Lemma set_inventory_same (p : Player) : set_inventory (inventory p) p = p.
Proof. by destruct p. Qed.

(** ** The circle *)

Lemma elem_of_xrange (a b k : Z) : k ∈ xrange a b ↔ a ≤ k < b.
Proof.
  unfold xrange. rewrite list_elem_of_fmap. split.
  - intros (n & -> & Hn). apply elem_of_seq in Hn. lia.
  - intros H. exists (Z.to_nat (k - a)). split; [lia|].
    apply elem_of_seq. lia.
Qed.

Lemma elem_of_product {A B : Type} (l1 : list A) (l2 : list B) (a : A) (b : B) :
  (a, b) ∈ product l1 l2 ↔ a ∈ l1 ∧ b ∈ l2.
Proof.
  unfold product. rewrite list_elem_of_bind. split.
  - intros (a' & Hb & Ha). apply list_elem_of_bind in Hb as (b' & Hab & Hb).
    apply list_elem_of_singleton in Hab. by simplify_eq.
  - intros [Ha Hb]. exists a. split; [|done].
    apply list_elem_of_bind. exists b. split; [|done]. by apply list_elem_of_singleton.
Qed.

(** What the comprehension computes: the offsets of the half-open square
    [-10..9] x [-10..9] that lie within distance 10 of the origin. *)
Lemma elem_of_circle (i j : Z) :
  (i, j) ∈ circle ↔ -10 ≤ i < 10 ∧ -10 ≤ j < 10 ∧ i ^ 2 + j ^ 2 ≤ 100.
Proof.
  unfold circle. rewrite list_elem_of_filter, elem_of_product, !elem_of_xrange.
  simpl. tauto.
Qed.

Lemma elem_of_visible (x z a b : Z) :
  KPair a b ∈ visible x z ↔ (a - x, b - z) ∈ circle.
Proof.
  unfold visible. rewrite elem_of_list_to_set, list_elem_of_fmap. split.
  - intros ([i j] & Heq & Hin). simpl in Heq. injection Heq as -> ->.
    by replace (i + x - x) with i by lia; replace (j + z - z) with j by lia.
  - intros Hin. exists (a - x, b - z). split; [|done]. simpl. f_equal; lia.
Qed.

Lemma visible_lacks_offset_10 (cx cz : Z) : KPair (cx + 10) cz ∉ visible cx cz.
Proof.
  rewrite elem_of_visible. replace (cx + 10 - cx) with 10 by lia.
  rewrite elem_of_circle. lia.
Qed.

(** C3 (the code departs from the claim): the offsets (10, 0) and (0, 10)
    are within distance 10 of the origin, yet [circle] has neither, because
    [xrange(-10, 10)] ends at 9; so the chunks at [(cx + 10, cz)] and
    [(cx, cz + 10)] are never in the visible set that [update_chunks]
    computes, while those at [(cx - 10, cz)] and [(cx, cz - 10)] are. *)
Theorem C3_circle_lacks_offset_10 (cx cz : Z) :
  10 ^ 2 + 0 ^ 2 ≤ 100 ∧
  ((10, 0) ∉ circle) ∧ ((0, 10) ∉ circle) ∧
  (KPair (cx + 10) cz ∉ visible cx cz) ∧ (KPair cx (cz + 10) ∉ visible cx cz) ∧
  KPair (cx - 10) cz ∈ visible cx cz ∧ KPair cx (cz - 10) ∈ visible cx cz.
Proof.
  rewrite !elem_of_visible.
  replace (cx + 10 - cx) with 10 by lia. replace (cx - 10 - cx) with (-10) by lia.
  replace (cz + 10 - cz) with 10 by lia. replace (cz - 10 - cz) with (-10) by lia.
  replace (cx - cx) with 0 by lia. replace (cz - cz) with 0 by lia.
  rewrite !elem_of_circle. lia.
Qed.

(** What [update_chunks] queues: the chunks it will enable are those of
    [visible] that are not cached, nearest first; so with the player in
    chunk [(x, z)], the chunk [(x + 10, z)] is never among them. *)
Lemma update_chunks_enables (s : Session) :
  chunk_tasks s = None →
  let x := Z.shiftr (int (loc_x (location s))) 4 in
  let z := Z.shiftr (int (loc_z (location s))) 4 in
  ∃ enabling disabling,
    update_chunks s = (Return (), set_chunk_tasks (Some [enabling; disabling]) s) ∧
    (∀ k, enable_work k ∈ work enabling ↔ k ∈ visible x z ∧ k ∉ dom (chunks s)) ∧
    Sorted (nearer x z) (enable_work_key <$> work enabling) ∧
    (enable_work (KPair (x + 10) z) ∉ work enabling).
Proof.
  intros Htasks x z. unfold update_chunks, split_coords, stop_chunk_tasks.
  unfold mbind, M_bind, get, mret, M_ret, modify. rewrite Htasks. cbn [work cooperate].
  fold x. fold z.
  set (sorted := merge_sort (nearer x z) (elements (visible x z ∖ dom (chunks s)))).
  assert (Hin : ∀ k, enable_work k ∈ enable_work <$> sorted ↔
                     k ∈ visible x z ∧ k ∉ dom (chunks s)).
  { intros k. rewrite list_elem_of_fmap. split.
    - intros (k' & [= <-] & Hk). unfold sorted in Hk.
      rewrite merge_sort_Permutation in Hk.
      by apply elem_of_elements, elem_of_difference in Hk.
    - intros Hk. exists k. split; [done|]. unfold sorted.
      rewrite merge_sort_Permutation. by apply elem_of_elements, elem_of_difference. }
  eexists _, _. split_and!; [reflexivity|exact Hin| |].
  - unfold cooperate. cbn [work].
    assert (Hid : ∀ l : list key, enable_work_key <$> (enable_work <$> l) = l).
    { induction l as [|k l IH]; [done|]. rewrite !fmap_cons, IH. done. }
    rewrite Hid.
    apply Sorted_merge_sort. intros a b. unfold nearer. lia.
  - unfold cooperate. cbn [work]. rewrite Hin. intros [Hvis _].
    by apply (visible_lacks_offset_10 x z).
Qed.

(** ** Position packets *)

Lemma int_inject_Z (n : Z) : int (inject_Z n) = n.
Proof. unfold int, inject_Z. simpl. apply Z.quot_1_r. Qed.

(** For a positive coordinate the stored block is the floor. *)
Lemma block_coord_positive (v : Q) : (0 < v)%Q → block_coord v = Qfloor v.
Proof.
  intros Hv. unfold block_coord. destruct (Qlt_le_dec 0 v) as [_|Hle].
  - destruct v as [n d]. unfold int, Qfloor. simpl.
    unfold Qlt in Hv. simpl in Hv. apply Z.quot_div_nonneg; lia.
  - exfalso. eapply Qlt_not_le; eauto.
Qed.

(** For a negative coordinate that is not a whole number, it is the floor
    too. *)
Lemma block_coord_negative_fraction (v : Q) :
  (v < 0)%Q → Qnum v mod Z.pos (Qden v) ≠ 0 → block_coord v = Qfloor v.
Proof.
  intros Hv Hfrac. unfold block_coord. destruct (Qlt_le_dec 0 v) as [Hpos|_].
  - exfalso. eapply Qlt_irrefl, Qlt_trans; eauto.
  - destruct v as [n d]. unfold int, Qfloor. simpl in *.
    unfold Qlt in Hv. simpl in Hv.
    assert (Hn : n < 0) by lia.
    replace n with (- (- n)) at 1 by lia.
    rewrite Z.quot_opp_l by lia.
    rewrite Z.quot_div_nonneg by lia.
    pose proof (Z.div_mod n (Z.pos d) ltac:(lia)) as Hdm.
    pose proof (Z.mod_pos_bound n (Z.pos d) ltac:(lia)) as Hb.
    set (q := n / Z.pos d) in *. set (r := n mod Z.pos d) in *.
    assert (Hneg : - n = (- q - 1) * Z.pos d + (Z.pos d - r)) by lia.
    rewrite Hneg.
    rewrite Z.div_add_l by lia.
    rewrite Z.div_small by lia. lia.
Qed.

(** For a whole number that is zero or negative, it is one block below. *)
Lemma block_coord_whole_nonpositive (n : Z) : n ≤ 0 → block_coord (inject_Z n) = n - 1.
Proof.
  intros Hn. unfold block_coord. destruct (Qlt_le_dec 0 (inject_Z n)) as [Hpos|_].
  - unfold Qlt, inject_Z in Hpos. simpl in Hpos. lia.
  - by rewrite int_inject_Z.
Qed.

(** C8 (the code departs from the claim): [position] tests [x > 0], so a
    received coordinate that is a whole number [n <= 0] is stored as block
    [n - 1]: [x = 0] gives block [-1], not 0, and [x = -3] gives block [-4],
    not [-3].  The same holds for [z]. *)
Theorem C8_position_whole_nonpositive (s : Session) (container : PositionPacket) (n m : Z) :
  n ≤ 0 → m ≤ 0 →
  position_x container = inject_Z n →
  position_z container = inject_Z m →
  let s' := (position BetaServerProtocol_position_changed container s).2 in
  loc_x (location s') = inject_Z (n - 1) ∧ loc_z (location s') = inject_Z (m - 1).
Proof.
  intros Hn Hm Hx Hz. unfold position, BetaServerProtocol_position_changed, grounded.
  rewrite Hx, Hz, !block_coord_whole_nonpositive by done.
  run. by destruct (_ && _).
Qed.

Lemma C8_position_whole_nonpositive_witness :
  let container := {| position_x := 0; position_y := 64; position_stance := 65;
                      position_z := inject_Z (-3); grounded_grounded := 1 |} in
  let s' := (position BetaServerProtocol_position_changed container
               (new_protocol Scenario.flat ∅)).2 in
  loc_x (location s') = inject_Z (-1) ∧ loc_z (location s') = inject_Z (-4).
Proof.
  intros container s'.
  apply (C8_position_whole_nonpositive (new_protocol Scenario.flat ∅) container 0 (-3));
    [lia | lia | reflexivity | reflexivity].
Defined.

(** ** The chunk cache *)

Lemma new_protocol_tuple_keys (w : World) (r : gset string) : tuple_keys (new_protocol w r).
Proof. intros k Hk. simpl in Hk. set_solver. Qed.

Lemma for_each_emit_chunks {A : Type} (l : list A) (k : nat) (f : A → Event) (s : Session) :
  for_each l k (λ _ x, emit (f x)) s = (Return (), set_out (out s ++ (f <$> l)) s).
Proof.
  revert k s. induction l as [|x l IH]; intros k s; simpl.
  - run. rewrite app_nil_r. by destruct s.
  - run. rewrite IH. simpl. by rewrite <- app_assoc.
Qed.

Lemma for_each_chunks {A : Type} (l : list A) (k : nat) (body : nat → A → M unit)
    (s : Session) :
  (∀ k x s, chunks (body k x s).2 = chunks s) →
  chunks (for_each l k body s).2 = chunks s.
Proof.
  intros Hbody. revert k s. induction l as [|x l IH]; intros k s; simpl; [done|].
  run. specialize (Hbody k x s). destruct (body k x s) as [[[]|e] s1]; simpl in *.
  - by rewrite IH.
  - done.
Qed.

(** [send_chunk] keeps the keys pairs. *)
Lemma send_chunk_tuple_keys (c : Chunk) (s : Session) :
  tuple_keys s → tuple_keys (send_chunk c s).2.
Proof.
  intros Hs. unfold send_chunk, mbind, M_bind, get.
  rewrite !emit_eq. simpl.
  rewrite for_each_emit_chunks. simpl.
  set (body := λ (_ : nat) (tile : Z * Z * Z * Entity), _).
  set (s1 := set_out _ _).
  assert (Hc : chunks (for_each (tiles (chunk_of (world s) c)) 0 body s1).2 = chunks s).
  { rewrite for_each_chunks; [done|]. intros k x s0. unfold body.
    destruct (String.eqb _ _); by run. }
  destruct (for_each _ 0 body s1) as [[[]|e] s2]; simpl in *.
  - intros k Hk. simpl in Hk. rewrite Hc, dom_insert_L in Hk.
    apply elem_of_union in Hk as [Hk|Hk]; [|by apply Hs].
    apply elem_of_singleton in Hk. eauto.
  - intros k Hk. rewrite Hc in Hk. by apply Hs.
Qed.

(** An integer key is never found among pair keys. *)
Lemma lookup_int_key (s : Session) (x : Z) : tuple_keys s → chunks s !! KInt x = None.
Proof.
  intros Hs. apply not_elem_of_dom. intros Hin.
  by destruct (Hs _ Hin) as (a & b & ?).
Qed.

(** C2 (the code departs from the claim): [disable_chunk(x, z)] calls
    [self.chunks.pop(x, z)], which looks up the integer [x] and, not finding
    it among the pair keys, returns the default [z]; reading [.entities] of
    that integer raises [AttributeError].  Nothing is written to the
    transport and the entry keyed [(x, z)] stays in [self.chunks]. *)
Theorem C2_disable_chunk_raises (s : Session) (x z : Z) (c : Chunk) :
  tuple_keys s →
  chunks s !! KPair x z = Some c →
  disable_chunk x z s = (Raise AttributeError, s) ∧
  chunks (disable_chunk x z s).2 !! KPair x z = Some c ∧
  out (disable_chunk x z s).2 = out s.
Proof.
  intros Hs Hc.
  assert (Heq : disable_chunk x z s = (Raise AttributeError, s)).
  { unfold disable_chunk, chunks_pop. run. by rewrite lookup_int_key. }
  by rewrite Heq.
Qed.

Lemma C2_disable_chunk_raises_witness :
  disable_chunk 0 0 Scenario.session = (Raise AttributeError, Scenario.session) ∧
  chunks (disable_chunk 0 0 Scenario.session).2 !! KPair 0 0 = Some Scenario.chunk00 ∧
  out (disable_chunk 0 0 Scenario.session).2 = out Scenario.session.
Proof.
  apply (C2_disable_chunk_raises Scenario.session 0 0 Scenario.chunk00).
  - intros k Hk. simpl in Hk. rewrite dom_singleton_L in Hk.
    apply elem_of_singleton in Hk. eauto.
  - reflexivity.
Defined.

(** C9: for a chunk coordinate already in [self.chunks], [enable_chunk] is
    done at once and leaves the session as it was: no [request_chunk] call
    on the world, nothing written to the transport. *)
Theorem C9_enable_chunk_cached (s : Session) (x z : Z) :
  KPair x z ∈ dom (chunks s) →
  enable_chunk x z s = (Return (), s) ∧
  out (enable_chunk x z s).2 = out s ∧
  chunks (enable_chunk x z s).2 = chunks s.
Proof.
  intros Hin.
  assert (Heq : enable_chunk x z s = (Return (), s)).
  { unfold enable_chunk. run. by rewrite bool_decide_eq_true_2. }
  by rewrite Heq.
Qed.

Lemma C9_enable_chunk_cached_witness :
  enable_chunk 0 0 Scenario.session = (Return (), Scenario.session) ∧
  out (enable_chunk 0 0 Scenario.session).2 = out Scenario.session ∧
  chunks (enable_chunk 0 0 Scenario.session).2 = chunks Scenario.session.
Proof.
  apply (C9_enable_chunk_cached Scenario.session 0 0).
  simpl. rewrite dom_singleton_L. by apply elem_of_singleton.
Defined.

(** A chunk that is not cached is requested from the world and sent. *)
Lemma enable_chunk_uncached (s : Session) (x z : Z) :
  KPair x z ∉ dom (chunks s) →
  enable_chunk x z s =
    send_chunk {| chunk_x := x; chunk_z := z |}
      (set_out (out s ++ [world_request_chunk x z]) s).
Proof.
  intros Hin. unfold enable_chunk. run. by rewrite bool_decide_eq_false_2.
Qed.

(** ** Equip packets *)




(** ** Window actions *)

Section Windows.

Variable select : Inventory → Z → bool → bool → bool * Inventory.

(** C4 (the code departs from the claim): for a window id that is neither
    0 nor open, [waction] does send the error packet and close the
    connection, and no selection, inventory packet, equipment broadcast
    or window-token follows; but the branch has no [return], so the
    handler goes on to [i.select] with [i] unbound and ends by raising
    [UnboundLocalError]. *)
Theorem C4_waction_unknown_window (s : Session) (container : WactionPacket) :
  waction_wid container ≠ 0 →
  waction_wid container ∉ dom (windows s) →
  waction select container s =
    (Raise UnboundLocalError,
     set_out (out s ++
       [transport_write
          (make_error_packet ("Couldn't find window " +:+ pretty (waction_wid container)));
        transport_loseConnection]) s).
Proof.
  intros Hz Hw. unfold waction. run.
  rewrite (proj2 (Z.eqb_neq _ _) Hz), bool_decide_eq_false_2 by done.
  simpl. rewrite <- app_assoc. by destruct s.
Qed.

End Windows.

Lemma C4_waction_unknown_window_witness :
  waction Scenario.select
    {| waction_wid := 7; waction_slot := 36; waction_button := 0; waction_token := 1;
       waction_shift := 0 |} Scenario.session =
  (Raise UnboundLocalError,
   set_out [transport_write (make_error_packet "Couldn't find window 7");
            transport_loseConnection] Scenario.session).
Proof.
  apply (C4_waction_unknown_window Scenario.select Scenario.session); simpl.
  - lia.
  - rewrite dom_empty_L. apply not_elem_of_empty.
Defined.

(** ** The periodic loops *)

Lemma stop_chunk_tasks_ping_loop (s : Session) :
  ping_loop (stop_chunk_tasks s).2 = ping_loop s.
Proof.
  unfold stop_chunk_tasks, mbind, M_bind, get, mret, M_ret, modify, raise.
  destruct (chunk_tasks s) as [[|t ts]|]; try done.
  generalize (stop_tasks (t :: ts)). by intros [r [e|]].
Qed.

Lemma stop_chunk_tasks_time_loop (s : Session) :
  time_loop (stop_chunk_tasks s).2 = time_loop s.
Proof.
  unfold stop_chunk_tasks, mbind, M_bind, get, mret, M_ret, modify, raise.
  destruct (chunk_tasks s) as [[|t ts]|]; try done.
  generalize (stop_tasks (t :: ts)). by intros [r [e|]].
Qed.

(** [BravoProtocol.connectionLost] does not touch the ping loop. *)
Lemma connectionLost_ping_loop (s : Session) :
  ping_loop (connectionLost s).2 = ping_loop s.
Proof.
  unfold connectionLost. run.
  destruct (time_loop s) as [l|]; [destruct (running l)|]; simpl; try done.
  all: match goal with
       | |- context [stop_chunk_tasks ?x] =>
         pose proof (stop_chunk_tasks_ping_loop x) as H2;
         destruct (stop_chunk_tasks x) as [[[]|e] s2]; simpl in *; [|congruence]
       end.
  all: destruct (player s2) as [p|]; simpl; destruct (username s2); simpl;
    try case_bool_decide; simpl; congruence.
Qed.

(** It does stop the time loop, when it runs to its end. *)
Lemma connectionLost_time_loop (s : Session) :
  (connectionLost s).1 = Return () →
  ∀ l, time_loop (connectionLost s).2 = Some l → running l = false.
Proof.
  unfold connectionLost. run.
  destruct (time_loop s) as [l|] eqn:Hl; [destruct (running l)|]; simpl; try done.
  all: match goal with
       | |- context [stop_chunk_tasks ?x] =>
         pose proof (stop_chunk_tasks_time_loop x) as H2;
         destruct (stop_chunk_tasks x) as [[[]|e] s2]; simpl in *; [|done]
       end.
  all: intros Hret l'.
  all: destruct (player s2) as [p|]; simpl in *; destruct (username s2); simpl in *;
    try case_bool_decide; simpl in *.
  all: rewrite H2; try rewrite Hl; by intros [= <-].
Qed.

Section Loops.

Variable factory_time : Q.

(** C5 (the code departs from the claim): [BravoProtocol.connectionLost]
    overrides [BetaServerProtocol.connectionLost] without calling it, so
    the keepalive loop started by [authenticated] is still running after
    the connection is lost, and at its next period [update_ping] writes
    another ping packet.  The inherited method would have stopped it; the
    time loop is stopped. *)
Theorem C5_ping_loop_outlives_connection (s : Session) :
  running (ping_loop s) = true →
  let s' := (connectionLost s).2 in
  running (ping_loop s') = true ∧
  ping_loop_fire s' =
    (Return (), set_out (out s' ++ [transport_write (make_packet "ping" [])]) s') ∧
  ((connectionLost s).1 = Return () → time_loop_fire factory_time s' = (Return (), s')) ∧
  running (ping_loop (BetaServerProtocol_connectionLost s).2) = false.
Proof.
  intros Hrun s'.
  assert (Hping : running (ping_loop s') = true).
  { subst s'. by rewrite connectionLost_ping_loop. }
  split_and!; [done| | |].
  - unfold ping_loop_fire, update_ping. run. by rewrite Hping.
  - intros Hret. pose proof (connectionLost_time_loop s Hret) as Hl.
    fold s' in Hl. unfold time_loop_fire. run.
    destruct (time_loop s') as [l|]; [|done]. by rewrite (Hl l eq_refl).
  - unfold BetaServerProtocol_connectionLost, ping_loop_stop. run.
    rewrite Hrun. simpl. by rewrite Hrun.
Qed.

End Loops.

(** The session of the scenario once authenticated: both loops started. *)
Lemma C5_ping_loop_outlives_connection_witness :
  let s := ((BetaServerProtocol_authenticated ;; time_loop_start 0 10) Scenario.session).2 in
  let s' := (connectionLost s).2 in
  running (ping_loop s) = true ∧
  (connectionLost s).1 = Return () ∧
  time_loop s' = Some {| running := false; interval := 10 |} ∧
  running (ping_loop s') = true ∧
  out (ping_loop_fire s').2 = out s' ++ [transport_write (make_packet "ping" [])].
Proof.
  intros s s'.
  pose proof (C5_ping_loop_outlives_connection 0 s eq_refl) as (Hrun & Hfire & _ & _).
  fold s' in Hrun, Hfire.
  split_and!; [reflexivity | reflexivity | reflexivity | exact Hrun |].
  by rewrite Hfire.
Defined.

(** ** The build pipeline *)

Section Build.

Variable blocks : gmap Z Block.
Variable consume : Inventory → Z * Z → nat → bool * Inventory.
Variable post_build_hooks : list (Z * Z * Z → Block → M unit).
Variable automatons : list (gset Z).

Lemma player_consume_eq (s : Session) (p : Player) (item : Z * Z) :
  player s = Some p →
  player_consume consume item s =
    (Return (consume (inventory p) item (equipped p)).1,
     set_player (Some (set_inventory (consume (inventory p) item (equipped p)).2 p)) s).
Proof. intros Hp. unfold player_consume. run. rewrite Hp. simpl. by rewrite Hp. Qed.

(** [run_build], path by path, for a session with a player. *)
Lemma run_build_paths (s : Session) (p : Player) (bd : BuildData) :
  player s = Some p →
  run_build blocks consume bd s =
    if bool_decide (is_item blocks bd) then (Raise BuildError, s)
    else match placed_metadata bd with
         | None => (Raise BuildError, s)
         | Some m =>
           let r1 := consume (inventory p) (slot (bd_block bd), 0) (equipped p) in
           let s1 := set_player (Some (set_inventory r1.2 p)) s in
           let r2 := consume r1.2 (drop (bd_block bd), 0) (equipped p) in
           let s2 := set_player (Some (set_inventory r2.2 (set_inventory r1.2 p))) s1 in
           if r1.1 then (Return (), place bd m s1)
           else if r2.1 then (Return (), place bd m s2)
           else (Raise BuildError, s2)
         end.
Proof.
  intros Hp. unfold run_build, is_item, placed_metadata.
  case_bool_decide; [done|].
  unfold mbind, M_bind at 1.
  destruct ((bd_metadata bd =? 0) && orientable (bd_block bd));
    [destruct (orientation (bd_block bd) (bd_face bd)) as [m|]|]; try done.
  all: unfold mret, M_ret at 1; unfold mbind, M_bind at 1.
  all: rewrite (player_consume_eq s p _ Hp).
  all: cbv zeta.
  all: destruct (consume (inventory p) (slot (bd_block bd), 0) (equipped p)) as [[] i1].
  all: cbn [fst snd].
  1,3: unfold place, mbind, M_bind, modify, mret, M_ret; cbn [fst snd];
       by destruct (_ =? 0).
  all: unfold M_bind.
  all: rewrite (player_consume_eq (set_player (Some (set_inventory i1 p)) s)
                  (set_inventory i1 p) _ eq_refl).
  all: cbn [inventory equipped set_inventory].
  all: destruct (consume i1 (drop (bd_block bd), 0) (equipped p)) as [[] i2].
  all: cbn [fst snd].
  all: unfold place, mbind, M_bind, modify, mret, M_ret, raise; cbn [fst snd]; try done.
  all: by destruct (_ =? 0).
Qed.

Lemma run_build_raises (s : Session) (p : Player) (bd : BuildData) :
  failure_takes_nothing consume →
  player s = Some p →
  is_item blocks bd ∨ cannot_orient bd ∨ cannot_consume consume p bd →
  run_build blocks consume bd s = (Raise BuildError, s).
Proof.
  intros Hpure Hp Hfail. rewrite (run_build_paths s p bd Hp).
  case_bool_decide as Hitem; [done|].
  destruct (placed_metadata bd) as [m|] eqn:Hm; [|done].
  destruct Hfail as [?|[(Hz & Ho & Hn)|[Hc1 Hc2]]]; [done| |].
  - unfold placed_metadata in Hm. rewrite Hz, Ho, Hn in Hm. done.
  - cbv zeta. rewrite Hc1, (Hpure _ _ _ Hc1), Hc2, (Hpure _ _ _ Hc2).
    by rewrite !set_inventory_same, <- Hp, !set_player_same.
Qed.

Lemma run_build_raises_inv (s : Session) (p : Player) (bd : BuildData) (e : exn) :
  failure_takes_nothing consume →
  player s = Some p →
  (run_build blocks consume bd s).1 = Raise e →
  e = BuildError ∧ (is_item blocks bd ∨ cannot_orient bd ∨ cannot_consume consume p bd).
Proof.
  intros Hpure Hp. rewrite (run_build_paths s p bd Hp).
  case_bool_decide as Hitem; [intros [= <-]; auto|].
  destruct (placed_metadata bd) as [m|] eqn:Hm.
  - cbv zeta.
    destruct (consume (inventory p) (slot (bd_block bd), 0) (equipped p)) as [[] i1] eqn:H1;
      cbn [fst snd]; [done|].
    assert (Hi1 : i1 = inventory p).
    { pose proof (Hpure (inventory p) (slot (bd_block bd), 0) (equipped p)) as Hi.
      rewrite H1 in Hi. by apply Hi. }
    subst i1.
    destruct (consume (inventory p) (drop (bd_block bd), 0) (equipped p)) as [[] i2] eqn:H2;
      cbn [fst snd]; [done|].
    intros [= <-]. split; [done|]. right; right. unfold cannot_consume.
    by rewrite H1, H2.
  - intros [= <-]. split; [done|]. right; left. unfold cannot_orient, placed_metadata in *.
    destruct (bd_metadata bd =? 0) eqn:Hz; [|done].
    destruct (orientable (bd_block bd)); [|done].
    simpl in Hm. split_and!; [lia|done|done].
Qed.

(** C7: with a player loaded and a [consume] that takes nothing when it
    fails, [run_build] raises [BuildError] exactly when the block is an
    item outside the block table, or the metadata is zero and the
    orientable block has no orientation on the face, or neither
    [(block.slot, 0)] nor [(block.drop, 0)] can be consumed from the held
    slot; it raises nothing else; when it raises it leaves the session, so
    the world and the inventory, as they were; and the rest of [build] then
    returns at once: no post-build hook, no automaton, no packet, no
    flush. *)
Theorem C7_run_build_fails_cleanly (s : Session) (p : Player) (bd : BuildData) :
  failure_takes_nothing consume →
  player s = Some p →
  ((run_build blocks consume bd s).1 = Raise BuildError ↔
     is_item blocks bd ∨ cannot_orient bd ∨ cannot_consume consume p bd) ∧
  (∀ e, (run_build blocks consume bd s).1 = Raise e →
     e = BuildError ∧
     world (run_build blocks consume bd s).2 = world s ∧
     player (run_build blocks consume bd s).2 = player s ∧
     (run_build blocks consume bd s).2 = s) ∧
  ((run_build blocks consume bd s).1 = Raise BuildError →
     commit_build blocks consume post_build_hooks automatons bd s = (Return (), s)).
Proof.
  intros Hpure Hp.
  assert (Hinv : ∀ e, (run_build blocks consume bd s).1 = Raise e →
            e = BuildError ∧ run_build blocks consume bd s = (Raise BuildError, s)).
  { intros e He. destruct (run_build_raises_inv s p bd e Hpure Hp He) as [-> Hwhy].
    split; [done|]. by apply (run_build_raises s p bd). }
  split_and!.
  - split.
    + intros He. by destruct (run_build_raises_inv s p bd _ Hpure Hp He).
    + intros Hwhy. by rewrite (run_build_raises s p bd Hpure Hp Hwhy).
  - intros e He. destruct (Hinv e He) as [-> Heq]. by rewrite Heq.
  - intros He. destruct (Hinv _ He) as [_ Heq].
    unfold commit_build, except_BuildError, mbind, M_bind. by rewrite Heq.
Qed.

End Build.

Lemma scenario_consume_failure (i : Inventory) (item : Z * Z) (index : nat) :
  (Scenario.consume i item index).1 = false → (Scenario.consume i item index).2 = i.
Proof.
  unfold Scenario.consume.
  destruct (holdables i !! index) as [[[[primary secondary] count]|]|]; try done.
  by destruct (_ && _).
Qed.

(** Alice tries to hang a torch under the block at (1, 64, 1). *)
Lemma C7_run_build_fails_cleanly_witness :
  let bd := {| bd_block := Scenario.torch; bd_metadata := 0; bd_x := 1; bd_y := 64;
               bd_z := 1; bd_face := "-y" |} in
  run_build Scenario.blocks Scenario.consume bd Scenario.session
    = (Raise BuildError, Scenario.session) ∧
  commit_build Scenario.blocks Scenario.consume Scenario.post_build_hooks
    Scenario.automatons bd Scenario.session = (Return (), Scenario.session).
Proof.
  intros bd.
  pose proof (C7_run_build_fails_cleanly Scenario.blocks Scenario.consume
                Scenario.post_build_hooks Scenario.automatons Scenario.session
                Scenario.alice bd scenario_consume_failure eq_refl)
    as (Hiff & Hclean & Habort).
  assert (Hfail : (run_build Scenario.blocks Scenario.consume bd Scenario.session).1
                  = Raise BuildError).
  { apply Hiff. right; left. by split_and!. }
  split.
  - destruct (Hclean _ Hfail) as (_ & _ & _ & Hs).
    rewrite <- Hs at 2. rewrite <- Hfail. by destruct (run_build _ _ _ _).
  - by apply Habort.
Defined.

Section PreBuild.

Variable blocks : gmap Z Block.
Variable items : gmap Z Block.
Variable workbench : Block.
Variable consume : Inventory → Z * Z → nat → bool * Inventory.
Variable Workbench : Inventory.
Variable sync_inventories : Inventory → Inventory → Inventory.
Variable pre_build_hooks : list (BuildData → M (bool * BuildData)).
Variable post_build_hooks : list (Z * Z * Z → Block → M unit).
Variable automatons : list (gset Z).

(** After a veto the loop ends normally, with the vetoing hook's data. *)
Lemma run_pre_build_hooks_vetoed hooks k bd s bd' s' :
  vetoed hooks k bd s bd' s' →
  run_pre_build_hooks hooks k bd s = (Return bd', s').
Proof.
  induction 1 as [hook rest k bd s bd' s' Hhook
                 |hook rest k bd s bd1 s1 bd' s' Hhook _ IH]; simpl.
  - unfold mbind, M_bind. rewrite emit_eq, Hhook. done.
  - unfold mbind, M_bind. rewrite emit_eq, Hhook. done.
Qed.

(** Past its guards, [build] is the hook loop followed by the commit. *)
Lemma build_pre_build_phase (container : BuildPacket) (s : Session) (block : Block) :
  reaches_pre_build blocks items workbench container s block →
  build blocks items workbench consume Workbench sync_inventories pre_build_hooks
        post_build_hooks automatons container s =
  (run_pre_build_hooks pre_build_hooks 0 (initial_builddata container block) ≫=
     commit_build blocks consume post_build_hooks automatons) s.
Proof.
  intros (Hsent & (chunk & Hchunk & Hwb) & Hprim & Hnoop & Hblock & Htop).
  unfold build, split_coords.
  destruct ((build_x container =? -1) && (build_z container =? -1)
            && (build_y container =? 255)) eqn:Hs.
  { exfalso. apply Hsent. apply andb_true_iff in Hs as [Hs ?].
    apply andb_true_iff in Hs as [? ?]. lia. }
  unfold mbind at 1, M_bind at 1, get. rewrite Hchunk.
  rewrite (proj2 (Z.eqb_neq _ _) Hwb), (proj2 (Z.eqb_neq _ _) Hprim).
  rewrite (proj2 (String.eqb_neq _ _) Hnoop), Hblock.
  destruct ((build_y container =? 127) && (build_face container =? "+y")%string) eqn:Ht.
  { exfalso. apply Htop. apply andb_true_iff in Ht as [? Hf].
    apply String.eqb_eq in Hf. split; [lia|done]. }
  done.
Qed.

(** C1 (the code departs from the claim): a pre-build hook that returns
    [cont = False] only leaves the loop over the hooks ([break]); the later
    hooks are indeed not run, but [build] then goes on to "Run the build."
    with the builddata that hook returned, exactly as after a chain without
    a veto: [run_build] commits to the world and the inventory, and the
    post-build hooks are called. *)
Theorem C1_veto_does_not_skip_commit (container : BuildPacket) (s : Session)
    (block : Block) (bd' : BuildData) (s' : Session) :
  reaches_pre_build blocks items workbench container s block →
  vetoed pre_build_hooks 0 (initial_builddata container block) s bd' s' →
  build blocks items workbench consume Workbench sync_inventories pre_build_hooks
        post_build_hooks automatons container s =
  commit_build blocks consume post_build_hooks automatons bd' s'.
Proof.
  intros Hreach Hveto. rewrite (build_pre_build_phase container s block Hreach).
  unfold mbind, M_bind. by rewrite (run_pre_build_hooks_vetoed _ _ _ _ _ _ Hveto).
Qed.

End PreBuild.

(** The veto scenario of section 8: the first hook sets the metadata to 3,
    the second vetoes; the stone is placed all the same. *)
Lemma C1_veto_does_not_skip_commit_witness :
  let bd0 := initial_builddata Scenario.place_stone Scenario.stone in
  let bd3 := {| bd_block := Scenario.stone; bd_metadata := 3; bd_x := 1; bd_y := 64;
                bd_z := 1; bd_face := "+y" |} in
  let s' := (Scenario.build Scenario.place_stone Scenario.session).2 in
  world_get_block (world Scenario.session) (1, 65, 1) = 0 ∧
  world_get_block (world s') (1, 65, 1) = 1 ∧
  holdables ∘ inventory <$> player Scenario.session
    = Some (Some (1, 0, 5) :: replicate 8 None) ∧
  holdables ∘ inventory <$> player s' = Some (Some (1, 0, 4) :: replicate 8 None) ∧
  out s' = [pre_build_hook 0 bd0; pre_build_hook 1 bd3;
            post_build_hook 0 (1, 64, 1) Scenario.stone;
            transport_write (inventory_save_to_packet
              (Scenario.set_holdables (Some (1, 0, 4) :: replicate 8 None)
                 (Scenario.empty_inventory 0)));
            factory_flush_chunk Scenario.chunk00].
Proof.
  intros bd0 bd3 s'.
  pose (s2 := set_out [pre_build_hook 0 bd0; pre_build_hook 1 bd3] Scenario.session).
  assert (Hreach : reaches_pre_build Scenario.blocks Scenario.items Scenario.workbench
                     Scenario.place_stone Scenario.session Scenario.stone).
  { split_and!; simpl; try done; try lia.
    exists Scenario.chunk00. split; [reflexivity|]. vm_compute. discriminate. }
  assert (Hveto : vetoed Scenario.pre_build_hooks 0 bd0 Scenario.session bd3 s2).
  { eapply vetoed_later; [reflexivity|]. apply vetoed_here. reflexivity. }
  pose proof (C1_veto_does_not_skip_commit Scenario.blocks Scenario.items
                Scenario.workbench Scenario.consume Scenario.Workbench
                Scenario.sync_inventories Scenario.pre_build_hooks
                Scenario.post_build_hooks Scenario.automatons
                Scenario.place_stone Scenario.session Scenario.stone bd3 s2
                Hreach Hveto) as Hbuild.
  subst s'. unfold Scenario.build. rewrite Hbuild.
  split_and!; vm_compute; reflexivity.
Defined.

(** ** Digging *)

Lemma max_zero (a : Q) :
  ((0 <= a)%Q → Py.max a 0 = a) ∧ ((a < 0)%Q → Py.max a 0 = 0%Q).
Proof.
  unfold Py.max. destruct (Qlt_le_dec a 0) as [Hlt|Hle]; split; intros H; try done.
  - exfalso. eapply Qlt_not_le; eauto.
  - exfalso. eapply Qlt_not_le; eauto.
Qed.

Lemma for_each_returns {A : Type} (l : list A) (k : nat) (body : nat → A → M unit)
    (s : Session) :
  (∀ k x s, (body k x s).1 = Return ()) →
  (for_each l k body s).1 = Return ().
Proof.
  intros Hbody. revert k s. induction l as [|x l IH]; intros k s; simpl; [done|].
  unfold mbind, M_bind. specialize (Hbody k x s).
  destruct (body k x s) as [[[]|e] s1]; simpl in *; [apply IH|done].
Qed.

Section Dig.

Variable blocks : gmap Z Block.
Variable consume : Inventory → Z * Z → nat → bool * Inventory.
Variable dig_hooks : list (Chunk → Z * Z * Z → Block → M unit).
Variable is_1ko : Z → option Slot → bool.
Variable dig_time : Z → option Slot → Q.
Variable in_front_of : Location → Z → Q * Q * Q.

(** [run_dig_hooks] always returns: the hooks run under [maybeDeferred]. *)
Lemma run_dig_hooks_returns (chunk : Chunk) (coords : Z * Z * Z) (block : Block)
    (s : Session) :
  (run_dig_hooks dig_hooks chunk coords block s).1 = Return ().
Proof.
  unfold run_dig_hooks, mbind, M_bind.
  destruct (breakable block); unfold modify, mret, M_ret.
  all: match goal with
       | |- context [for_each dig_hooks 0 ?body ?s1] =>
         pose proof (for_each_returns dig_hooks 0 body s1) as H2;
         destruct (for_each dig_hooks 0 body s1) as [[[]|e] s2]; [done|]
       end.
  all: simpl in H2; apply H2; by intros.
Qed.

(** A scheduled dig that comes due completes and clears [last_dig]. *)
Lemma fire_delayed_clears (call : DelayedCall) (s : Session) :
  (fire_delayed dig_hooks call s).1 = Return () ∧
  last_dig (fire_delayed dig_hooks call s).2 = None.
Proof.
  unfold fire_delayed, mbind, M_bind.
  pose proof (run_dig_hooks_returns (dc_chunk call) (dc_coords call) (dc_block call) s) as H.
  by destruct (run_dig_hooks _ _ _ _ _) as [[[]|e] s1].
Qed.

(** A [stopped] packet for a chunk that is not cached is answered with an
    error packet and the connection is closed; [last_dig] stays. *)
Lemma digging_stopped_uncached (now : Q) (container : DiggingPacket) (s : Session) :
  dig_state container = "stopped" →
  ¬ (dig_x container = -1 ∧ dig_z container = -1 ∧ dig_y container = 255) →
  chunks s !! KPair (Z.shiftr (dig_x container) 4) (Z.shiftr (dig_z container) 4) = None →
  digging blocks consume dig_hooks is_1ko dig_time in_front_of now container s =
    error (chunk_error "dig" (Z.shiftr (dig_x container) 4) (Z.shiftr (dig_z container) 4)) s.
Proof.
  intros Hstate Hsent Hchunk. unfold digging, split_coords. rewrite Hstate.
  destruct ((dig_x container =? -1) && (dig_z container =? -1)
            && (dig_y container =? 255)) eqn:Hs.
  { exfalso. apply Hsent. apply andb_true_iff in Hs as [Hs ?].
    apply andb_true_iff in Hs as [? ?]. lia. }
  cbn [String.eqb Ascii.eqb Bool.eqb andb].
  unfold mbind at 1, M_bind at 1, get. by rewrite Hchunk.
Qed.

(** The [stopped] branch of [digging], for a packet that is not the
    (-1, 255, -1) sentinel and whose chunk is in [self.chunks]; [coords]
    are the coordinates within the chunk, the only ones [last_dig] holds.
    If [last_dig] is unset, nothing changes.  If its coordinates or block
    differ from [coords] and the current block, [last_dig] is cleared and
    nothing else changes.  Otherwise, the block being in the block table,
    [run_dig_hooks] is scheduled after [max(finish_at - now, 0)] and
    nothing else changes: [last_dig] stays until that call comes due. *)
Lemma digging_stopped_cases (now : Q) (container : DiggingPacket) (s : Session) (chunk : Chunk) :
  dig_state container = "stopped" →
  ¬ (dig_x container = -1 ∧ dig_z container = -1 ∧ dig_y container = 255) →
  chunks s !! KPair (Z.shiftr (dig_x container) 4) (Z.shiftr (dig_z container) 4)
    = Some chunk →
  let coords := (Z.land (dig_x container) 15, dig_y container,
                 Z.land (dig_z container) 15) in
  let block := get_block (world s) chunk coords in
  let dig := digging blocks consume dig_hooks is_1ko dig_time in_front_of now container in
  (last_dig s = None → dig s = (Return (), s)) ∧
  (∀ oldcoords oldblock finish_at,
     last_dig s = Some (oldcoords, oldblock, finish_at) →
     oldcoords ≠ coords ∨ oldblock ≠ block →
     dig s = (Return (), set_last_dig None s)) ∧
  (∀ finish_at b,
     last_dig s = Some (coords, block, finish_at) →
     blocks !! block = Some b →
     let call := {| dc_delay := Py.max (finish_at - now) 0; dc_chunk := chunk;
                    dc_coords := coords; dc_block := b |} in
     dig s = (Return (), set_delayed (delayed s ++ [call]) s) ∧
     ∀ s', (fire_delayed dig_hooks call s').1 = Return () ∧
           last_dig (fire_delayed dig_hooks call s').2 = None).
Proof.
  intros Hstate Hsent Hchunk coords block dig.
  assert (Hdig : dig s =
    match last_dig s with
    | None => (Return (), s)
    | Some (oldcoords, oldblock, dtime) =>
      if bool_decide (oldcoords ≠ coords) || bool_decide (oldblock ≠ block)
      then (Return (), set_last_dig None s)
      else (b ← blocks_getitem blocks block;
            modify (λ s, set_delayed
              (delayed s ++ [{| dc_delay := Py.max (dtime - now) 0; dc_chunk := chunk;
                                dc_coords := coords; dc_block := b |}]) s)) s
    end).
  { subst dig. unfold digging, split_coords. rewrite Hstate.
    destruct ((dig_x container =? -1) && (dig_z container =? -1)
              && (dig_y container =? 255)) eqn:Hs.
    { exfalso. apply Hsent. apply andb_true_iff in Hs as [Hs ?].
      apply andb_true_iff in Hs as [? ?]. lia. }
    cbn [String.eqb Ascii.eqb Bool.eqb andb].
    unfold mbind at 1, M_bind at 1, get. rewrite Hchunk.
    destruct (last_dig s) as [[[oldcoords oldblock] dtime]|]; [|done].
    fold coords. fold block. by destruct (_ || _). }
  split_and!.
  - intros Hnone. by rewrite Hdig, Hnone.
  - intros oldcoords oldblock finish_at Hlast Hne. rewrite Hdig, Hlast.
    destruct Hne as [Hne|Hne].
    + by rewrite (bool_decide_eq_true_2 _ Hne).
    + rewrite (bool_decide_eq_true_2 (oldblock ≠ block) Hne). by rewrite orb_true_r.
  - intros finish_at b Hlast Hb call. split; [|apply fire_delayed_clears].
    rewrite Hdig, Hlast.
    rewrite !bool_decide_eq_false_2 by (intros Hne; by apply Hne).
    unfold blocks_getitem, mbind, M_bind. by rewrite Hb.
Qed.

End Dig.


(** * Further properties *)

(** ** Visibility *)

(** X1: the set [new] of [update_chunks] for a player in chunk [(x, z)] holds
    exactly the chunks [(a, b)] whose offset lies in the half-open square
    [-10..9] x [-10..9] and within distance 10; it holds no other key. *)
Theorem visible_characterised (x z : Z) (k : key) :
  k ∈ visible x z ↔
  ∃ a b, k = KPair a b ∧ -10 ≤ a - x ≤ 9 ∧ -10 ≤ b - z ≤ 9 ∧
         (a - x) ^ 2 + (b - z) ^ 2 ≤ 100.
Proof.
  split.
  - destruct k as [n|a b].
    + unfold visible. rewrite elem_of_list_to_set, list_elem_of_fmap.
      by intros (p & Hp & _).
    + rewrite elem_of_visible, elem_of_circle. intros H. exists a, b. split; [done|lia].
  - intros (a & b & -> & H). rewrite elem_of_visible, elem_of_circle. lia.
Qed.

(** X2: the player's own chunk and every chunk within distance 9 of it are
    visible, and no chunk farther than distance 10 is. *)
Theorem visible_near_and_far (x z a b : Z) :
  KPair x z ∈ visible x z ∧
  ((a - x) ^ 2 + (b - z) ^ 2 ≤ 81 → KPair a b ∈ visible x z) ∧
  (100 < (a - x) ^ 2 + (b - z) ^ 2 → KPair a b ∉ visible x z).
Proof.
  rewrite !elem_of_visible, !elem_of_circle.
  replace (x - x) with 0 by lia. replace (z - z) with 0 by lia.
  split; [lia|]. split; [|lia].
  intros H. nia.
Qed.

Lemma visible_near_and_far_witness :
  KPair 3 (-4) ∈ visible 0 0 ∧ (KPair 11 0 ∉ visible 0 0).
Proof.
  destruct (visible_near_and_far 0 0 3 (-4)) as (_ & Hnear & _).
  destruct (visible_near_and_far 0 0 11 0) as (_ & _ & Hfar).
  split; [apply Hnear; lia | apply Hfar; lia].
Defined.

(** ** Sending chunks *)

Lemma set_out_same (s : Session) : set_out (out s) s = s.
Proof. by destruct s. Qed.

Lemma for_each_emit_list {A : Type} (l : list A) (k : nat) (f : A → list Event)
    (body : nat → A → M unit) (s : Session) :
  (∀ k x s, body k x s = (Return (), set_out (out s ++ f x) s)) →
  for_each l k body s = (Return (), set_out (out s ++ (l ≫= f)) s).
Proof.
  intros Hbody. revert k s. induction l as [|x l IH]; intros k s; simpl.
  - unfold mret, M_ret. by rewrite app_nil_r, set_out_same.
  - unfold mbind at 1, M_bind. rewrite Hbody, IH. simpl.
    by rewrite <- app_assoc.
Qed.

Lemma send_chunk_eq (c : Chunk) (s : Session) :
  send_chunk c s =
    (Return (),
     set_chunks (<[KPair (chunk_x c) (chunk_z c) := c]> (chunks s))
       (set_out (out s ++ chunk_packets c (chunk_of (world s) c)) s)).
Proof.
  unfold send_chunk, mbind, M_bind, get. rewrite !emit_eq. cbn [fst snd world set_out].
  rewrite for_each_emit_chunks. cbn [world set_out out].
  erewrite (for_each_emit_list (tiles _) 0
              (λ tile, if String.eqb (ent_name tile.2) "Sign"
                       then [transport_write (entity_save_to_packet tile.2)] else [])).
  2:{ intros k x s0. destruct (String.eqb _ _); [apply emit_eq|].
      unfold mret, M_ret. by rewrite app_nil_r, set_out_same. }
  unfold modify, chunk_packets. cbn [chunks set_out out].
  destruct s; unfold set_out, set_chunks; simpl.
  by rewrite <- !app_assoc.
Qed.



Lemma enable_chunk_eq (s : Session) (x z : Z) :
  enable_chunk x z s =
    if bool_decide (KPair x z ∈ dom (chunks s)) then (Return (), s)
    else
      let c := {| chunk_x := x; chunk_z := z |} in
      (Return (),
       set_chunks (<[KPair x z := c]> (chunks s))
         (set_out (out s ++ world_request_chunk x z :: chunk_packets c (chunk_of (world s) c))
            s)).
Proof.
  case_bool_decide as Hin.
  - unfold enable_chunk, mbind, M_bind, get. by rewrite bool_decide_eq_true_2.
  - rewrite enable_chunk_uncached, send_chunk_eq by done.
    destruct s; unfold set_out, set_chunks; simpl. by rewrite <- app_assoc.
Qed.


Lemma stop_chunk_tasks_only_tasks (s : Session) :
  ∃ ts, (stop_chunk_tasks s).2 = set_chunk_tasks ts s.
Proof.
  unfold stop_chunk_tasks, mbind, M_bind, get, mret, M_ret, modify, raise.
  destruct (chunk_tasks s) as [[|t ts]|] eqn:Ht.
  - exists (Some []). rewrite <- Ht. by destruct s.
  - generalize (stop_tasks (t :: ts)). intros [r [e|]]; by eexists.
  - exists None. rewrite <- Ht. by destruct s.
Qed.

Lemma stop_chunk_tasks_chunks (s : Session) :
  chunks (stop_chunk_tasks s).2 = chunks s.
Proof. destruct (stop_chunk_tasks_only_tasks s) as [ts ->]. done. Qed.

Lemma cache_coherent_tuple_keys (s : Session) : cache_coherent s → tuple_keys s.
Proof.
  intros Hs k Hk. apply elem_of_dom in Hk as [c Hc]. specialize (Hs k c Hc). eauto.
Qed.

(** X5: the chunk cache stays keyed by chunk coordinates: this holds for a
    new protocol and is kept by [send_chunk], [enable_chunk],
    [disable_chunk] and [update_chunks]. *)
Theorem cache_coherent_kept (s : Session) (c : Chunk) (x z : Z) :
  cache_coherent s →
  cache_coherent (send_chunk c s).2 ∧
  cache_coherent (enable_chunk x z s).2 ∧
  cache_coherent (disable_chunk x z s).2 ∧
  cache_coherent (update_chunks s).2.
Proof.
  intros Hs.
  assert (Hins : ∀ c' out', cache_coherent
            (set_chunks (<[KPair (chunk_x c') (chunk_z c') := c']> (chunks s))
               (set_out out' s))).
  { intros c' out' k c0. cbn [chunks set_chunks]. rewrite lookup_insert.
    case_decide as Hk; [by intros [= <-]|apply Hs]. }
  split_and!.
  - rewrite send_chunk_eq. apply Hins.
  - rewrite enable_chunk_eq. case_bool_decide; [done|]. apply (Hins {| chunk_x := x; chunk_z := z |}).
  - unfold disable_chunk, chunks_pop, mbind, M_bind, get.
    rewrite (lookup_int_key s x (cache_coherent_tuple_keys s Hs)). done.
  - intros k c0. unfold update_chunks, split_coords, mbind, M_bind, get, modify.
    pose proof (stop_chunk_tasks_chunks s) as Hc.
    destruct (stop_chunk_tasks s) as [[[]|e] s1]; simpl in *; rewrite Hc; apply Hs.
Qed.

Lemma cache_coherent_kept_witness :
  cache_coherent (enable_chunk 3 4 (new_protocol Scenario.flat ∅)).2.
Proof.
  assert (Hnew : cache_coherent (new_protocol Scenario.flat ∅)).
  { intros k c Hk. simpl in Hk. by rewrite lookup_empty in Hk. }
  apply (cache_coherent_kept (new_protocol Scenario.flat ∅) Scenario.chunk00 3 4 Hnew).
Defined.


(** ** Streaming tasks *)

Lemma stop_tasks_fmap (ts : list CooperativeTask) :
  (∀ t, t ∈ ts → status t ≠ Stopped) →
  stop_tasks ts = (stopped_task <$> ts, None).
Proof.
  induction ts as [|t ts IH]; intros Hts; [done|]. simpl.
  assert (Ht : status t ≠ Stopped) by (apply Hts; left).
  rewrite IH by (intros t' Ht'; apply Hts; by right).
  unfold stopped_task. by destruct (status t).
Qed.

(** X7: stopping the chunk tasks ([task.stop()] under
    [except (TaskDone, TaskFailed)]) goes through exactly when no task has
    been stopped before; then every task that was running is stopped, the
    finished and failed ones are as they were, and none is left running.
    Otherwise the loop is left by [TaskStopped], which is not caught. *)
Theorem stop_tasks_spec (ts : list CooperativeTask) :
  ((stop_tasks ts).2 = None ↔ ∀ t, t ∈ ts → status t ≠ Stopped) ∧
  ((stop_tasks ts).2 = None →
     (stop_tasks ts).1 = stopped_task <$> ts ∧
     ∀ t, t ∈ (stop_tasks ts).1 → status t ≠ Running) ∧
  (∀ e, (stop_tasks ts).2 = Some e → e = TaskStopped) ∧
  length (stop_tasks ts).1 = length ts ∧
  work <$> (stop_tasks ts).1 = work <$> ts.
Proof.
  assert (Hiff : (stop_tasks ts).2 = None ↔ ∀ t, t ∈ ts → status t ≠ Stopped).
  { split.
    - induction ts as [|t ts IH]; simpl; [by intros _ t Ht; apply elem_of_nil in Ht|].
      destruct (status t) eqn:Hst; simpl; try done.
      all: intros Hnone t' Ht'; apply elem_of_cons in Ht' as [->|Ht'];
        [by rewrite Hst | by apply IH].
    - intros Hts. by rewrite stop_tasks_fmap. }
  split_and!; [done| | | |].
  - intros Hnone. rewrite stop_tasks_fmap by (by apply Hiff). split; [done|].
    intros t Ht. cbn [fst] in Ht. apply list_elem_of_fmap in Ht as (t0 & -> & _).
    unfold stopped_task. by destruct (status t0) eqn:Hst; simpl; rewrite ?Hst.
  - clear Hiff. induction ts as [|t ts IH]; simpl; [done|].
    destruct (status t); cbn [fst snd]; first [exact IH | intros e He; congruence].
  - clear Hiff. induction ts as [|t ts IH]; simpl; [done|].
    destruct (status t); simpl; by rewrite ?IH.
  - clear Hiff. induction ts as [|t ts IH]; simpl; [done|].
    destruct (status t); simpl; f_equal; done.
Qed.

Lemma update_chunks_eq (s : Session) :
  (stop_chunk_tasks s).1 = Return () →
  let x := Z.shiftr (int (loc_x (location s))) 4 in
  let z := Z.shiftr (int (loc_z (location s))) 4 in
  update_chunks s =
    (Return (),
     set_chunk_tasks (Some
       [cooperate (enable_work <$>
          merge_sort (nearer x z) (elements (visible x z ∖ dom (chunks s))));
        cooperate (disable_work <$> elements (dom (chunks s) ∖ visible x z))]) s).
Proof.
  intros Hstop x z. unfold update_chunks, split_coords, mbind, M_bind, get, modify.
  destruct (stop_chunk_tasks_only_tasks s) as [ts Hts].
  destruct (stop_chunk_tasks s) as [[[]|e] s1]; [|done].
  simpl in Hts. subst s1. by destruct s.
Qed.




(** ** The initial square *)

Lemma NoDup_xrange (a b : Z) : NoDup (xrange a b).
Proof.
  unfold xrange. apply NoDup_fmap_2; [|apply NoDup_seq].
  intros k1 k2 Hk. lia.
Qed.

Lemma length_xrange (a b : Z) : length (xrange a b) = Z.to_nat (b - a).
Proof. unfold xrange. by rewrite length_fmap, length_seq. Qed.

Lemma NoDup_product {A B : Type} (l1 : list A) (l2 : list B) :
  NoDup l1 → NoDup l2 → NoDup (product l1 l2).
Proof.
  intros H1 H2. unfold product. apply NoDup_bind; [| |done].
  - intros a1 a2 [a b] _ _ Ha1 Ha2.
    apply list_elem_of_bind in Ha1 as (b1 & Hb1 & _).
    apply list_elem_of_bind in Ha2 as (b2 & Hb2 & _).
    apply list_elem_of_singleton in Hb1, Hb2. congruence.
  - intros a _. apply NoDup_bind; [| |done].
    + intros b1 b2 y _ _ Hb1 Hb2. apply list_elem_of_singleton in Hb1, Hb2. congruence.
    + intros b _. apply NoDup_singleton.
Qed.

Lemma length_product {A B : Type} (l1 : list A) (l2 : list B) :
  length (product l1 l2) = (length l1 * length l2)%nat.
Proof.
  unfold product. induction l1 as [|a l1 IH]; [done|].
  rewrite bind_cons, length_app, IH. simpl. f_equal.
  clear IH. induction l2 as [|b l2 IH]; [done|].
  rewrite bind_cons. simpl. by rewrite IH.
Qed.

Lemma NoDup_circle : NoDup circle.
Proof.
  unfold circle. apply stdpp.list_relations.list.NoDup_filter, NoDup_product; apply NoDup_xrange.
Qed.

Lemma KPair_shift_inj (x z : Z) : Inj (=) (=) (λ p : Z * Z, KPair (p.1 + x) (p.2 + z)).
Proof. intros [a b] [a' b'] [= ? ?]. f_equal; lia. Qed.

Lemma size_visible (x z : Z) : size (visible x z) = 315%nat.
Proof.
  unfold visible. rewrite size_list_to_set.
  - rewrite length_fmap. by vm_compute.
  - pose proof (KPair_shift_inj x z). apply (NoDup_fmap_2 _), NoDup_circle.
Qed.

Lemma elem_of_initial_square (x z a b : Z) :
  (a, b) ∈ initial_square x z ↔ x - 3 ≤ a ≤ x + 2 ∧ z - 3 ≤ b ≤ z + 2.
Proof. unfold initial_square. rewrite elem_of_product, !elem_of_xrange. lia. Qed.

Lemma enable_chunk_frame (s : Session) (x z : Z) :
  (enable_chunk x z s).1 = Return () ∧
  dom (chunks (enable_chunk x z s).2) = {[KPair x z]} ∪ dom (chunks s) ∧
  location (enable_chunk x z s).2 = location s ∧
  chunk_tasks (enable_chunk x z s).2 = chunk_tasks s.
Proof.
  rewrite enable_chunk_eq. case_bool_decide as Hin; cbn [fst snd].
  - split_and!; try done. set_solver.
  - split_and!; try done. cbn [chunks set_chunks]. by rewrite dom_insert_L.
Qed.

Lemma enable_all (l : list (Z * Z)) (k : nat) (s : Session) :
  let r := for_each l k (λ _ p, enable_chunk p.1 p.2) s in
  r.1 = Return () ∧
  dom (chunks r.2) = list_to_set ((λ p, KPair p.1 p.2) <$> l) ∪ dom (chunks s) ∧
  location r.2 = location s ∧
  chunk_tasks r.2 = chunk_tasks s.
Proof.
  revert k s. induction l as [|[a b] l IH]; intros k s; cbn zeta.
  - simpl. split_and!; try done. set_solver.
  - cbn [for_each]. unfold mbind, M_bind. cbn beta. cbn [fst snd].
    destruct (enable_chunk_frame s a b) as (Hr & Hd & Hl & Ht).
    destruct (enable_chunk a b s) as [[[]|e] s1]; [|done].
    cbn [fst snd] in *. destruct (IH (S k) s1) as (Hr' & Hd' & Hl' & Ht').
    split_and!; [done| |congruence|congruence].
    rewrite Hd', Hd, fmap_cons. cbn [list_to_set foldr fst snd]. set_solver.
Qed.

(** X8: on a session with an empty cache and no chunk task, the initial
    task of [send_initial_chunk_and_location] runs to its end and leaves
    exactly the 36 chunks [(a, b)] with [x - 3 <= a <= x + 2] and
    [z - 3 <= b <= z + 2] cached, [(x, z)] being the player's chunk.  All of
    them are visible, so the [update_chunks] that follows disables none and
    queues the other 279 visible chunks. *)
Theorem initial_chunks_then_update (s : Session) :
  chunks s = ∅ →
  chunk_tasks s = None →
  let x := Z.shiftr (int (loc_x (location s))) 4 in
  let z := Z.shiftr (int (loc_z (location s))) 4 in
  let s1 := (enable_initial_chunks s).2 in
  (enable_initial_chunks s).1 = Return () ∧
  (∀ k, k ∈ dom (chunks s1) ↔
        ∃ a b, k = KPair a b ∧ x - 3 ≤ a ≤ x + 2 ∧ z - 3 ≤ b ≤ z + 2) ∧
  size (dom (chunks s1)) = 36%nat ∧
  dom (chunks s1) ⊆ visible x z ∧
  ∃ added,
    update_chunks s1 =
      (Return (),
       set_chunk_tasks (Some [cooperate (enable_work <$> added); cooperate []]) s1) ∧
    length added = 279%nat.
Proof.
  intros Hempty Htasks x z s1.
  assert (Hall := enable_all (initial_square x z) 0 s).
  cbn zeta in Hall. destruct Hall as (Hret & Hdom & Hloc & Htk).
  assert (Hs1 : enable_initial_chunks s =
                for_each (initial_square x z) 0 (λ _ p, enable_chunk p.1 p.2) s).
  { unfold enable_initial_chunks, split_coords, mbind at 1, M_bind at 1, get. done. }
  subst s1. rewrite Hs1. rewrite Hempty, dom_empty_L, (right_id_L ∅ (∪)) in Hdom.
  set (s1 := (for_each _ _ _ s).2) in *.
  assert (Hmem : ∀ k, k ∈ dom (chunks s1) ↔
            ∃ a b, k = KPair a b ∧ x - 3 ≤ a ≤ x + 2 ∧ z - 3 ≤ b ≤ z + 2).
  { intros k. rewrite Hdom, elem_of_list_to_set, list_elem_of_fmap. split.
    - intros ([a b] & -> & Hin). apply elem_of_initial_square in Hin. eauto.
    - intros (a & b & -> & Hin). exists (a, b). split; [done|].
      by apply elem_of_initial_square. }
  assert (Hsize : size (dom (chunks s1)) = 36%nat).
  { rewrite Hdom, size_list_to_set.
    - rewrite length_fmap. unfold initial_square.
      rewrite length_product, !length_xrange.
      replace (x + 3 - (x - 3)) with 6 by lia. replace (z + 3 - (z - 3)) with 6 by lia.
      done.
    - apply NoDup_fmap_2; [by intros [a b] [a' b'] [= -> ->]|].
      apply NoDup_product; apply NoDup_xrange. }
  assert (Hsub : dom (chunks s1) ⊆ visible x z).
  { intros k Hk. apply Hmem in Hk as (a & b & -> & Ha & Hb).
    apply elem_of_visible, elem_of_circle. nia. }
  split_and!; [done|done|done|done|].
  assert (Hstop : (stop_chunk_tasks s1).1 = Return ()).
  { unfold stop_chunk_tasks, mbind, M_bind, get. by rewrite Htk, Htasks. }
  pose proof (update_chunks_eq s1 Hstop) as Hupd. cbn zeta in Hupd.
  rewrite Hloc in Hupd. fold x in Hupd. fold z in Hupd.
  eexists. split.
  - rewrite Hupd. do 4 f_equal.
    assert (Hnone : dom (chunks s1) ∖ visible x z = ∅) by set_solver.
    by rewrite Hnone, elements_empty.
  - rewrite merge_sort_Permutation.
    change (length (elements (visible x z ∖ dom (chunks s1))))
      with (size (visible x z ∖ dom (chunks s1))).
    rewrite size_difference, size_visible, Hsize by done. done.
Qed.

Lemma initial_chunks_then_update_witness :
  let s := new_protocol Scenario.flat ∅ in
  (enable_initial_chunks s).1 = Return () ∧
  size (dom (chunks (enable_initial_chunks s).2)) = 36%nat ∧
  dom (chunks (enable_initial_chunks s).2) ⊆ visible 0 0.
Proof.
  intros s.
  destruct (initial_chunks_then_update s eq_refl eq_refl) as (Hret & _ & Hsize & Hsub & _).
  split_and!; [exact Hret|exact Hsize|exact Hsub].
Defined.


(** ** Steps of the handler monad *)

Lemma the_player_eq (s : Session) (p : Player) :
  player s = Some p → the_player s = (Return p, s).
Proof. intros Hp. unfold the_player, mbind, M_bind, get. by rewrite Hp. Qed.

Lemma modify_player_eq (f : Player → Player) (s : Session) (p : Player) :
  player s = Some p → modify_player f s = (Return (), set_player (Some (f p)) s).
Proof. intros Hp. unfold modify_player, mbind, M_bind. by rewrite (the_player_eq s p). Qed.

Lemma index_eq {A : Type} (l : list A) (n : nat) (x : A) (s : Session) :
  l !! n = Some x → index l n s = (Return x, s).
Proof. intros Hl. unfold index. by rewrite Hl. Qed.

Lemma index_none {A : Type} (l : list A) (n : nat) (s : Session) :
  l !! n = None → index l n s = (Raise IndexError, s).
Proof. intros Hl. unfold index. by rewrite Hl. Qed.

(** ** The dig pipeline *)

Lemma for_each_indexed {A : Type} (l : list A) (k : nat) (body : nat → A → M unit)
    (g : nat → Event) (s : Session) :
  (∀ k x s, x ∈ l → body k x s = (Return (), set_out (out s ++ [g k]) s)) →
  for_each l k body s = (Return (), set_out (out s ++ (g <$> seq k (length l))) s).
Proof.
  revert k s. induction l as [|x l IH]; intros k s Hbody; simpl.
  - unfold mret, M_ret. by rewrite app_nil_r, set_out_same.
  - unfold mbind at 1, M_bind. rewrite Hbody by left.
    rewrite IH by (intros k' x' s' Hx'; apply Hbody; by right).
    simpl. by rewrite <- app_assoc.
Qed.

Section DigPipeline.

Variable blocks : gmap Z Block.
Variable consume : Inventory → Z * Z → nat → bool * Inventory.
Variable dig_hooks : list (Chunk → Z * Z * Z → Block → M unit).
Variable is_1ko : Z → option Slot → bool.
Variable dig_time : Z → option Slot → Q.
Variable in_front_of : Location → Z → Q * Q * Q.

(** X9: with dig hooks that do not touch the session, [run_dig_hooks]
    destroys the block in its chunk exactly when the block is breakable,
    calls every dig hook once, in order, with the block as it was before,
    and calls [flush_chunk] once, after all of them; it does so even when
    hooks raise. *)
Theorem run_dig_hooks_calls (chunk : Chunk) (coords : Z * Z * Z) (block : Block)
    (s : Session) :
  (∀ hook, hook ∈ dig_hooks → ∀ c co b, quiet (hook c co b)) →
  let s1 :=
    if breakable block
    then set_world (<[(chunk_x chunk, chunk_z chunk) :=
                        chunk_destroy coords (chunk_of (world s) chunk)]> (world s)) s
    else s in
  run_dig_hooks dig_hooks chunk coords block s =
    (Return (),
     set_out (out s ++ ((λ k, dig_hook k chunk coords block) <$> seq 0 (length dig_hooks))
                   ++ [factory_flush_chunk chunk]) s1) ∧
  (breakable block = true → get_block (world s1) chunk coords = 0) ∧
  (breakable block = false → world s1 = world s).
Proof.
  intros Hquiet s1. split_and!.
  - unfold run_dig_hooks. unfold mbind at 1 2, M_bind at 1 2.
    assert (Hfirst : (if breakable block
                      then modify (λ s0, set_world
                             (<[(chunk_x chunk, chunk_z chunk) :=
                                  chunk_destroy coords (chunk_of (world s0) chunk)]>
                                (world s0)) s0)
                      else mret ()) s = (Return (), s1)).
    { subst s1. by destruct (breakable block). }
    rewrite Hfirst.
    rewrite (for_each_indexed dig_hooks 0 _ (λ k, dig_hook k chunk coords block)).
    + rewrite emit_eq. subst s1. destruct (breakable block); destruct s;
        unfold set_out, set_world; simpl; by rewrite <- app_assoc.
    + intros k hook s0 Hhook. unfold mbind, M_bind, maybeDeferred. rewrite emit_eq.
      by rewrite (Hquiet hook Hhook).
  - intros Hb. subst s1. rewrite Hb. unfold get_block, chunk_of. cbn [world set_world].
    rewrite (fn_lookup_insert (world s : Z * Z → ChunkData)).
    cbn [blocks_of chunk_destroy]. by rewrite lookup_insert_eq.
  - intros Hb. subst s1. by rewrite Hb.
Qed.

Lemma digging_past_guards (now : Q) (c : DiggingPacket) (s : Session) :
  dig_sentinel c = false → dig_drop c = false →
  digging blocks consume dig_hooks is_1ko dig_time in_front_of now c s =
    match chunks s !! chunk_key (dig_x c) (dig_z c) with
    | None =>
      error (chunk_error "dig" (Z.shiftr (dig_x c) 4) (Z.shiftr (dig_z c) 4)) s
    | Some chunk =>
      let coords := local_coords (dig_x c) (dig_y c) (dig_z c) in
      let block := get_block (world s) chunk coords in
      if String.eqb (dig_state c) "started" then
        (p ← the_player;
         tool ← index (holdables (inventory p)) (equipped p);
         if is_1ko block tool then
           b ← blocks_getitem blocks block;
           run_dig_hooks dig_hooks chunk coords b
         else modify (set_last_dig (Some (coords, block, (now + dig_time block tool)%Q)))) s
      else if String.eqb (dig_state c) "stopped" then
        match last_dig s with
        | None => (Return (), s)
        | Some (oldcoords, oldblock, dtime) =>
          if bool_decide (oldcoords ≠ coords) || bool_decide (oldblock ≠ block)
          then (Return (), set_last_dig None s)
          else (b ← blocks_getitem blocks block;
                modify (λ s, set_delayed
                  (delayed s ++ [{| dc_delay := Py.max (dtime - now) 0; dc_chunk := chunk;
                                    dc_coords := coords; dc_block := b |}]) s)) s
        end
      else (Return (), s)
    end.
Proof.
  unfold dig_sentinel, dig_drop. intros Hs Hd.
  unfold digging, split_coords, chunk_key, local_coords. rewrite Hs, Hd.
  unfold mbind at 1, M_bind at 1, get.
  destruct (chunks s !! KPair _ _) as [chunk|]; [|done].
  destruct (String.eqb (dig_state c) "started"); [done|].
  destruct (String.eqb (dig_state c) "stopped"); [|done].
  destruct (last_dig s) as [[[oldcoords oldblock] dtime]|]; [|done].
  by destruct (_ || _).
Qed.

(** X10: a digging packet that is neither the sentinel nor a drop, for a
    chunk that is not in the cache, is answered with the error packet
    "Couldn't dig in chunk (cx, cz)!" and the connection is closed, whatever
    its phase; nothing else changes, [last_dig] included. *)
Theorem digging_uncached_chunk (now : Q) (c : DiggingPacket) (s : Session) :
  dig_sentinel c = false → dig_drop c = false →
  chunks s !! chunk_key (dig_x c) (dig_z c) = None →
  digging blocks consume dig_hooks is_1ko dig_time in_front_of now c s =
    (Return (),
     set_out (out s ++
       [transport_write (make_error_packet
          (chunk_error "dig" (Z.shiftr (dig_x c) 4) (Z.shiftr (dig_z c) 4)));
        transport_loseConnection]) s).
Proof.
  intros Hs Hd Hc. rewrite digging_past_guards, Hc by done.
  unfold error, mbind, M_bind. rewrite !emit_eq.
  destruct s; unfold set_out; simpl. by rewrite <- app_assoc.
Qed.

Lemma digging_started_eq (now : Q) (x y z : Z) (face : string) (s : Session)
    (chunk : Chunk) (p : Player) (tool : option Slot) :
  let coords := local_coords x y z in
  let block := get_block (world s) chunk coords in
  dig_sentinel (dig_packet "started" x y z face) = false →
  chunks s !! chunk_key x z = Some chunk →
  player s = Some p →
  holdables (inventory p) !! equipped p = Some tool →
  digging blocks consume dig_hooks is_1ko dig_time in_front_of now
    (dig_packet "started" x y z face) s =
    if is_1ko block tool then
      (b ← blocks_getitem blocks block; run_dig_hooks dig_hooks chunk coords b) s
    else (Return (), set_last_dig (Some (coords, block, (now + dig_time block tool)%Q)) s).
Proof.
  intros coords block Hs Hc Hp Htool.
  rewrite digging_past_guards; [|exact Hs|reflexivity].
  cbn [dig_x dig_y dig_z dig_packet].
  rewrite Hc. cbn [dig_state dig_packet String.eqb Ascii.eqb Bool.eqb].
  unfold the_player, index, mbind, M_bind, get. rewrite Hp. cbn [mret M_ret].
  rewrite Htool. unfold mret, M_ret. fold coords. fold block.
  by destruct (is_1ko block tool).
Qed.

(** X11: a [started] packet for a cached chunk, from a player whose held
    slot exists.  If the dig policy says the tool breaks the block at once,
    the dig pipeline runs now (and [KeyError] is raised, with nothing
    changed, for a block outside the block table); otherwise the only
    effect is [last_dig = (coords, block, now + dig_time)]. *)
Theorem digging_started (now : Q) (x y z : Z) (face : string) (s : Session)
    (chunk : Chunk) (p : Player) (tool : option Slot) :
  let c := dig_packet "started" x y z face in
  let coords := local_coords x y z in
  let block := get_block (world s) chunk coords in
  let dig := digging blocks consume dig_hooks is_1ko dig_time in_front_of now c in
  dig_sentinel c = false →
  chunks s !! chunk_key x z = Some chunk →
  player s = Some p →
  holdables (inventory p) !! equipped p = Some tool →
  (is_1ko block tool = false →
     dig s = (Return (), set_last_dig (Some (coords, block, (now + dig_time block tool)%Q)) s)) ∧
  (is_1ko block tool = true →
     (∀ b, blocks !! block = Some b → dig s = run_dig_hooks dig_hooks chunk coords b s) ∧
     (blocks !! block = None → dig s = (Raise KeyError, s))).
Proof.
  intros c coords block dig Hs Hc Hp Htool.
  pose proof (digging_started_eq now x y z face s chunk p tool Hs Hc Hp Htool) as Hdig.
  cbn zeta in Hdig. fold coords in Hdig. fold block in Hdig. fold c in Hdig. fold dig in Hdig.
  split.
  - intros H1. by rewrite Hdig, H1.
  - intros H1. rewrite Hdig, H1. unfold blocks_getitem, mbind, M_bind. split.
    + intros b Hb. by rewrite Hb.
    + intros Hb. by rewrite Hb.
Qed.

(** X12: [started] then [stopped] on the same block, with a tool that does
    not break it at once: the first packet arms [last_dig], the second, at
    time [now'], schedules the dig pipeline after
    [max(now + dig_time - now', 0)] seconds, with the block of the block
    table, and changes nothing else. *)
Theorem digging_started_then_stopped (now now' : Q) (x y z : Z) (face face' : string)
    (s : Session) (chunk : Chunk) (p : Player) (tool : option Slot) (b : Block) :
  let coords := local_coords x y z in
  let block := get_block (world s) chunk coords in
  let dig t c := digging blocks consume dig_hooks is_1ko dig_time in_front_of t c in
  dig_sentinel (dig_packet "started" x y z face) = false →
  chunks s !! chunk_key x z = Some chunk →
  player s = Some p →
  holdables (inventory p) !! equipped p = Some tool →
  is_1ko block tool = false →
  blocks !! block = Some b →
  (dig now (dig_packet "started" x y z face) ;;
   dig now' (dig_packet "stopped" x y z face')) s =
  (Return (),
   set_delayed (delayed s ++
     [{| dc_delay := Py.max (now + dig_time block tool - now') 0; dc_chunk := chunk;
         dc_coords := coords; dc_block := b |}])
     (set_last_dig (Some (coords, block, (now + dig_time block tool)%Q)) s)).
Proof.
  intros coords block dig Hs Hc Hp Htool H1 Hb.
  unfold mbind at 1, M_bind at 1. subst dig. cbn beta.
  rewrite (digging_started_eq now x y z face s chunk p tool Hs Hc Hp Htool).
  cbn zeta. fold coords. fold block. rewrite H1.
  rewrite digging_past_guards; [|exact Hs|reflexivity]. cbn [dig_x dig_z dig_y dig_packet].
  cbn [chunks set_last_dig last_dig world]. rewrite Hc.
  cbn [dig_state dig_packet String.eqb Ascii.eqb Bool.eqb]. fold coords. fold block.
  rewrite !bool_decide_eq_false_2 by (intros Hne; by apply Hne).
  cbn [orb]. unfold blocks_getitem, mbind, M_bind. rewrite Hb. done.
Qed.

End DigPipeline.


Lemma run_dig_hooks_calls_witness :
  run_dig_hooks Scenario.dig_hooks Scenario.chunk00 (1, 64, 1) Scenario.stone Scenario.mid_dig =
    (Return (),
     set_out [dig_hook 0 Scenario.chunk00 (1, 64, 1) Scenario.stone;
              factory_flush_chunk Scenario.chunk00]
       (set_world (<[(0, 0) := chunk_destroy (1, 64, 1) (Scenario.stony (0, 0))]> Scenario.stony)
          Scenario.mid_dig)).
Proof.
  assert (Hquiet : ∀ hook, hook ∈ Scenario.dig_hooks → ∀ c co b, quiet (hook c co b)).
  { intros hook Hhook c co b s. apply list_elem_of_singleton in Hhook. by subst hook. }
  exact (proj1 (run_dig_hooks_calls Scenario.dig_hooks Scenario.chunk00 (1, 64, 1)
                  Scenario.stone Scenario.mid_dig Hquiet)).
Defined.

Lemma digging_uncached_chunk_witness :
  Scenario.digging 0 (dig_packet "started" 100 64 1 "+y") Scenario.session =
    (Return (),
     set_out [transport_write (make_error_packet "Couldn't dig in chunk (6, 0)!");
              transport_loseConnection] Scenario.session).
Proof.
  exact (digging_uncached_chunk Scenario.blocks Scenario.consume Scenario.dig_hooks
           Scenario.is_1ko Scenario.dig_time Scenario.in_front_of 0
           (dig_packet "started" 100 64 1 "+y") Scenario.session eq_refl eq_refl eq_refl).
Defined.

Lemma digging_started_witness :
  Scenario.digging 4 (dig_packet "started" 1 64 1 "+y") Cases.on_stone =
    (Return (), set_last_dig (Some (1, 64, 1, 1, Cases.due)) Cases.on_stone).
Proof.
  destruct (digging_started Scenario.blocks Scenario.consume Scenario.dig_hooks
              Scenario.is_1ko Scenario.dig_time Scenario.in_front_of 4 1 64 1 "+y"
              Cases.on_stone Scenario.chunk00 Scenario.alice
              Cases.held_stone eq_refl eq_refl eq_refl eq_refl) as [Htimed _].
  exact (Htimed eq_refl).
Defined.

Lemma digging_started_then_stopped_witness :
  (Scenario.digging 4 (dig_packet "started" 1 64 1 "+y") ;;
   Scenario.digging 5 (dig_packet "stopped" 1 64 1 "+y")) Cases.on_stone =
  (Return (),
   set_delayed
     [{| dc_delay := Py.max (Cases.due - 5) 0;
         dc_chunk := Scenario.chunk00; dc_coords := (1, 64, 1);
         dc_block := Scenario.stone |}]
     (set_last_dig (Some (1, 64, 1, 1, Cases.due)) Cases.on_stone)).
Proof.
  assert (Hblock : Scenario.blocks
            !! get_block (world Cases.on_stone)
                 Scenario.chunk00 (local_coords 1 64 1) = Some Scenario.stone).
  { vm_compute. reflexivity. }
  exact (digging_started_then_stopped Scenario.blocks Scenario.consume Scenario.dig_hooks
           Scenario.is_1ko Scenario.dig_time Scenario.in_front_of 4 5 1 64 1 "+y" "+y"
           Cases.on_stone Scenario.chunk00 Scenario.alice
           Cases.held_stone Scenario.stone eq_refl eq_refl eq_refl eq_refl eq_refl Hblock).
Defined.

Section StoppedDig.

Variable blocks : gmap Z Block.
Variable consume : Inventory → Z * Z → nat → bool * Inventory.
Variable dig_hooks : list (Chunk → Z * Z * Z → Block → M unit).
Variable is_1ko : Z → option Slot → bool.
Variable dig_time : Z → option Slot → Q.
Variable in_front_of : Location → Z → Q * Q * Q.

(** C6: [digging] stores and compares the coordinates within the chunk
    only, and leaves [last_dig] set when it schedules the dig.  So after a
    [started] packet at (x, y, z) has set [last_dig], a [stopped] packet at
    other coordinates (x', y, z'), which fall on the same place within
    another cached chunk holding the same kind of block, does not clear
    [last_dig]: the dig pipeline is scheduled for the block at (x', y, z'),
    which was never started, after the time left of the other dig.  The
    same [stopped] packet sent once more schedules the pipeline a second
    time. *)
Theorem C6_stopped_matches_another_block (t0 t1 t2 : Q) (x y z x' z' : Z)
    (face face' : string) (s : Session) (chunk chunk' : Chunk) (p : Player)
    (tool : option Slot) (b : Block) :
  let started := dig_packet "started" x y z face in
  let stopped := dig_packet "stopped" x' y z' face' in
  let coords := local_coords x y z in
  let block := get_block (world s) chunk coords in
  let dig t c := digging blocks consume dig_hooks is_1ko dig_time in_front_of t c in
  dig_sentinel started = false →
  dig_sentinel stopped = false →
  x' ≠ x ∨ z' ≠ z →
  local_coords x' y z' = coords →
  chunks s !! chunk_key x z = Some chunk →
  chunks s !! chunk_key x' z' = Some chunk' →
  get_block (world s) chunk' coords = block →
  player s = Some p →
  holdables (inventory p) !! equipped p = Some tool →
  is_1ko block tool = false →
  blocks !! block = Some b →
  let finish_at := (t0 + dig_time block tool)%Q in
  let call t := {| dc_delay := Py.max (finish_at - t) 0; dc_chunk := chunk';
                   dc_coords := coords; dc_block := b |} in
  let s1 := set_last_dig (Some (coords, block, finish_at)) s in
  let s2 := set_delayed (delayed s ++ [call t1]) s1 in
  dig t0 started s = (Return (), s1) ∧
  dig t1 stopped s1 = (Return (), s2) ∧
  last_dig s2 = Some (coords, block, finish_at) ∧
  dig t2 stopped s2 = (Return (), set_delayed (delayed s ++ [call t1; call t2]) s1).
Proof.
  intros started stopped coords block dig Hs Hs' Hother Hlocal Hc Hc' Hblock Hp Htool H1 Hb
    finish_at call s1 s2.
  assert (Hstopped : ∀ t s0, chunks s0 = chunks s → world s0 = world s →
            last_dig s0 = Some (coords, block, finish_at) →
            dig t stopped s0 = (Return (), set_delayed (delayed s0 ++ [call t]) s0)).
  { intros t s0 Hchunks Hworld Hlast. subst dig. cbn beta.
    rewrite digging_past_guards; [|exact Hs'|reflexivity].
    subst stopped. cbn [dig_x dig_z dig_y dig_state dig_packet].
    rewrite Hchunks, Hc', Hlocal, Hworld, Hblock, Hlast.
    cbn [String.eqb Ascii.eqb Bool.eqb].
    rewrite !bool_decide_eq_false_2 by (intros Hne; by apply Hne).
    cbn [orb]. unfold blocks_getitem, mbind, M_bind. by rewrite Hb. }
  split_and!.
  - subst dig started. cbn beta.
    rewrite (digging_started_eq blocks consume dig_hooks is_1ko dig_time in_front_of
               t0 x y z face s chunk p tool Hs Hc Hp Htool).
    cbn zeta. fold coords. fold block. by rewrite H1.
  - by rewrite (Hstopped t1 s1).
  - reflexivity.
  - rewrite (Hstopped t2 s2) by done. subst s2.
    destruct s. unfold set_delayed. simpl. by rewrite <- app_assoc.
Qed.

End StoppedDig.

(** Alice starts to dig the stone at (1, 64, 1) at time 4, then says at
    time 5, twice, that she has broken the stone at (17, 64, 1): both times
    a dig of the block in chunk (1, 0) is scheduled. *)
Lemma C6_stopped_matches_another_block_witness :
  let finish_at := (4 + Scenario.dig_time 1 Cases.held_stone)%Q in
  let call t := {| dc_delay := Py.max (finish_at - t) 0; dc_chunk := Cases.chunk10;
                   dc_coords := (1, 64, 1); dc_block := Scenario.stone |} in
  let s1 := set_last_dig (Some (1, 64, 1, 1, finish_at)) Cases.two_chunks in
  Scenario.digging 4 (dig_packet "started" 1 64 1 "+y") Cases.two_chunks = (Return (), s1) ∧
  Scenario.digging 5 (dig_packet "stopped" 17 64 1 "+y") s1
    = (Return (), set_delayed [call 5%Q] s1) ∧
  Scenario.digging 5 (dig_packet "stopped" 17 64 1 "+y") (set_delayed [call 5%Q] s1)
    = (Return (), set_delayed [call 5%Q; call 5%Q] s1).
Proof.
  assert (Hother : 17 ≠ 1 ∨ 1 ≠ 1) by (left; lia).
  assert (Hblock : Scenario.blocks
            !! get_block (world Cases.two_chunks) Scenario.chunk00 (local_coords 1 64 1)
            = Some Scenario.stone).
  { vm_compute. reflexivity. }
  destruct (C6_stopped_matches_another_block Scenario.blocks Scenario.consume
              Scenario.dig_hooks Scenario.is_1ko Scenario.dig_time Scenario.in_front_of
              4 5 5 1 64 1 17 1 "+y" "+y" Cases.two_chunks Scenario.chunk00 Cases.chunk10
              Scenario.alice Cases.held_stone Scenario.stone
              eq_refl eq_refl Hother eq_refl eq_refl eq_refl eq_refl eq_refl eq_refl eq_refl
              Hblock) as (Hstart & Hstop & _ & Hagain).
  split_and!; [exact Hstart|exact Hstop|exact Hagain].
Defined.

Section DropHeld.

Variable blocks : gmap Z Block.
Variable consume : Inventory → Z * Z → nat → bool * Inventory.
Variable dig_hooks : list (Chunk → Z * Z * Z → Block → M unit).
Variable is_1ko : Z → option Slot → bool.
Variable dig_time : Z → option Slot → Q.
Variable in_front_of : Location → Z → Q * Q * Q.

(** X13: a digging packet in phase [dropped] with face [-y] at (0, 0, 0)
    drops from the held slot.  With a held slot that is empty nothing
    happens; with one beyond the holdables [IndexError] is raised.
    Otherwise one item of the held kind is consumed: if that fails nothing
    is sent; if it succeeds exactly one item of that kind is given to the
    world in front of the player, whatever the size of the stack, the
    inventory is re-sent, and the others are told the hand is empty when
    the slot has become empty. *)
Theorem digging_drop (now : Q) (c : DiggingPacket) (s : Session) (p : Player) :
  dig_drop c = true →
  player s = Some p →
  let dig := digging blocks consume dig_hooks is_1ko dig_time in_front_of now c in
  let i := inventory p in
  let front := in_front_of (location s) 2 in
  let coords := (int (front.1.1 * 32) + 16, int ((front.1.2 + 1) * 32) + 16,
                 int (front.2 * 32) + 16) in
  (holdables i !! equipped p = None → dig s = (Raise IndexError, s)) ∧
  (holdables i !! equipped p = Some None → dig s = (Return (), s)) ∧
  (∀ primary secondary count,
     holdables i !! equipped p = Some (Some (primary, secondary, count)) →
     let r := consume i (primary, secondary) (equipped p) in
     let s1 := set_player (Some (set_inventory r.2 p)) s in
     (r.1 = false → dig s = (Return (), s1)) ∧
     (r.1 = true →
        ∀ left, holdables r.2 !! equipped p = Some left →
          dig s =
            (Return (),
             set_out (out s ++
               [factory_give coords (primary, secondary) 1;
                transport_write (inventory_save_to_packet r.2)]
               ++ match left with
                  | None => [factory_broadcast_for_others (entity_equipment (eid p) 0 65535 0)]
                  | Some _ => []
                  end) s1))).
Proof.
  intros Hdrop Hp dig i front coords.
  assert (Hdig : dig s = drop_held consume in_front_of s).
  { subst dig. unfold digging. fold (dig_drop c). rewrite Hdrop.
    unfold dig_drop in Hdrop.
    destruct ((dig_x c =? -1) && (dig_z c =? -1) && (dig_y c =? 255)) eqn:Hs; [|done].
    exfalso. apply andb_true_iff in Hs as [Hs _]. apply andb_true_iff in Hs as [Hx _].
    apply andb_true_iff in Hdrop as [Hdrop _]. apply andb_true_iff in Hdrop as [Hdrop _].
    apply andb_true_iff in Hdrop as [_ Hx0]. lia. }
  rewrite Hdig. clear Hdig. subst dig i coords front.
  unfold drop_held, mbind, M_bind. rewrite (the_player_eq s p Hp).
  split_and!.
  - intros Hn. by rewrite (index_none _ _ s Hn).
  - intros Hn. by rewrite (index_eq _ _ _ s Hn).
  - intros primary secondary count Hh.
    erewrite index_eq by exact Hh. cbn beta iota.
    rewrite (modify_player_eq _ s p Hp).
    set (r := consume (inventory p) (primary, secondary) (equipped p)).
    set (s1 := set_player (Some (set_inventory r.2 p)) s). split.
    + intros Hr. by rewrite Hr.
    + intros Hr left Hleft. rewrite Hr. unfold get.
      cbn [location set_player s1].
      destruct (in_front_of (location s) 2) as [[dx dy] dz]. cbn [fst snd].
      rewrite emit_eq. rewrite (the_player_eq _ (set_inventory r.2 p)) by done.
      rewrite emit_eq. cbn [inventory set_inventory equipped].
      rewrite (index_eq _ _ _ _ Hleft).
      destruct left as [l|]; [unfold mret, M_ret|rewrite emit_eq]; cbn [eid set_inventory];
        destruct s; unfold set_out, set_player; simpl; by rewrite <- ?app_assoc.
Qed.

End DropHeld.

Lemma digging_drop_witness :
  Scenario.digging 0 (dig_packet "dropped" 0 0 0 "-y") Scenario.session =
    (Return (),
     set_out [factory_give (16, 48, 16) (1, 0) 1;
              transport_write (inventory_save_to_packet
                (Scenario.set_holdables (Some (1, 0, 4) :: replicate 8 None)
                   (Scenario.empty_inventory 0)))]
       (set_player (Some (set_inventory
          (Scenario.set_holdables (Some (1, 0, 4) :: replicate 8 None)
             (Scenario.empty_inventory 0)) Scenario.alice)) Scenario.session)).
Proof.
  destruct (digging_drop Scenario.blocks Scenario.consume Scenario.dig_hooks
              Scenario.is_1ko Scenario.dig_time Scenario.in_front_of 0
              (dig_packet "dropped" 0 0 0 "-y") Scenario.session Scenario.alice
              eq_refl eq_refl) as (_ & _ & Hheld).
  destruct (Hheld 1 0 5 eq_refl) as [_ Hok].
  exact (Hok eq_refl (Some (1, 0, 4)) eq_refl).
Defined.


(** ** The build pipeline, continued *)

Lemma for_each_imap {A : Type} (l : list A) (k : nat) (body : nat → A → M unit)
    (g : nat → A → list Event) (s : Session) :
  (∀ k x s, body k x s = (Return (), set_out (out s ++ g k x) s)) →
  for_each l k body s =
    (Return (), set_out (out s ++ mjoin (imap (λ j, g (k + j)%nat) l)) s).
Proof.
  intros Hbody. revert k s. induction l as [|x l IH]; intros k s; simpl.
  - unfold mret, M_ret. by rewrite app_nil_r, set_out_same.
  - unfold mbind at 1, M_bind. rewrite Hbody, IH. cbn [out set_out].
    rewrite Nat.add_0_r, <- app_assoc.
    assert (Himap : imap (λ j, g (S k + j)%nat) l = imap ((λ j, g (k + j)%nat) ∘ S) l).
    { apply imap_ext. intros j y _. simpl. by rewrite Nat.add_succ_r. }
    by rewrite Himap.
Qed.

Section BuildGuards.

Variable blocks : gmap Z Block.
Variable items : gmap Z Block.
Variable workbench : Block.
Variable consume : Inventory → Z * Z → nat → bool * Inventory.
Variable Workbench : Inventory.
Variable sync_inventories : Inventory → Inventory → Inventory.
Variable pre_build_hooks : list (BuildData → M (bool * BuildData)).
Variable post_build_hooks : list (Z * Z * Z → Block → M unit).
Variable automatons : list (gset Z).

Local Notation build' :=
  (build blocks items workbench consume Workbench sync_inventories pre_build_hooks
         post_build_hooks automatons).

Lemma build_past_sentinel (c : BuildPacket) (s : Session) (chunk : Chunk) :
  build_sentinel c = false →
  chunks s !! chunk_key (build_x c) (build_z c) = Some chunk →
  build' c s =
    if get_block (world s) chunk (local_coords (build_x c) (build_y c) (build_z c))
       =? slot workbench
    then
      (p ← the_player;
       modify (set_windows (<[wid s := sync_inventories (inventory p) Workbench]> (windows s))) ;;
       modify (set_wid (wid s + 1)) ;;
       emit (transport_write (window_open (wid s)))) s
    else if build_primary c =? -1 then (Return (), s)
    else if String.eqb (build_face c) "noop" then (Return (), s)
    else
      match blocks !! build_primary c ∪ items !! build_primary c with
      | None =>
        emit (log_err ("Ignoring request to place unknown block "
                         +:+ pretty (build_primary c))) s
      | Some block =>
        if (build_y c =? 127) && String.eqb (build_face c) "+y" then (Return (), s)
        else
          (run_pre_build_hooks pre_build_hooks 0 (initial_builddata c block) ≫=
             commit_build blocks consume post_build_hooks automatons) s
      end.
Proof.
  unfold build_sentinel, chunk_key, local_coords. intros Hs Hc.
  unfold build, split_coords. rewrite Hs. unfold mbind at 1, M_bind at 1, get.
  rewrite Hc.
  destruct (_ =? slot workbench); [reflexivity|].
  destruct (build_primary c =? -1); [reflexivity|].
  destruct (String.eqb (build_face c) "noop"); [reflexivity|].
  destruct (blocks !! build_primary c ∪ items !! build_primary c); [|reflexivity].
  destruct ((build_y c =? 127) && String.eqb (build_face c) "+y"); reflexivity.
Qed.

(** X14: a build packet whose target block is a workbench opens a
    workbench window, whatever the packet's item and face: the player's
    inventory is synced into a new workbench, which is stored under the
    current [wid]; the window-open packet names that [wid]; [wid] grows by
    one.  No hook runs and the world is untouched.  If every open window
    had an id below [wid], the new id was free and this still holds
    afterwards. *)
Theorem build_on_workbench (c : BuildPacket) (s : Session) (chunk : Chunk) (p : Player) :
  build_sentinel c = false →
  chunks s !! chunk_key (build_x c) (build_z c) = Some chunk →
  get_block (world s) chunk (local_coords (build_x c) (build_y c) (build_z c))
    = slot workbench →
  player s = Some p →
  let s' :=
    set_out (out s ++ [transport_write (window_open (wid s))])
      (set_wid (wid s + 1)
         (set_windows (<[wid s := sync_inventories (inventory p) Workbench]> (windows s)) s)) in
  build' c s = (Return (), s') ∧
  (windows_below_wid s → (wid s ∉ dom (windows s)) ∧ windows_below_wid s').
Proof.
  intros Hs Hc Hwb Hp s'. split.
  - rewrite (build_past_sentinel c s chunk Hs Hc), Hwb, Z.eqb_refl.
    unfold mbind, M_bind. rewrite (the_player_eq s p Hp). unfold modify. by rewrite emit_eq.
  - intros [Hwid Hbelow]. split.
    + intros Hin. apply Hbelow in Hin. lia.
    + subst s'. split; cbn [wid set_out set_wid windows set_windows]; [lia|].
      intros w Hw. rewrite dom_insert_L in Hw.
      apply elem_of_union in Hw as [Hw|Hw].
      * apply elem_of_singleton in Hw. lia.
      * apply Hbelow in Hw. lia.
Qed.

(** X15: the packets [build] discards.  With the target chunk cached and
    the target block not a workbench, a packet is dropped with no effect
    at all when its item is -1, or its face is "noop", or it builds
    upwards from y = 127 with a known item; an unknown item is only
    logged.  A packet for a chunk that is not cached is answered with an
    error packet and the connection is closed. *)
Theorem build_discards (c : BuildPacket) (s : Session) :
  build_sentinel c = false →
  (chunks s !! chunk_key (build_x c) (build_z c) = None →
     build' c s =
       error (chunk_error "select" (Z.shiftr (build_x c) 4) (Z.shiftr (build_z c) 4)) s) ∧
  (∀ chunk,
     chunks s !! chunk_key (build_x c) (build_z c) = Some chunk →
     get_block (world s) chunk (local_coords (build_x c) (build_y c) (build_z c))
       ≠ slot workbench →
     (build_primary c = -1 ∨ build_face c = "noop" → build' c s = (Return (), s)) ∧
     (build_primary c ≠ -1 → build_face c ≠ "noop" →
        (blocks !! build_primary c = None → items !! build_primary c = None →
           build' c s =
             (Return (),
              set_out (out s ++ [log_err ("Ignoring request to place unknown block "
                                            +:+ pretty (build_primary c))]) s)) ∧
        (is_Some (blocks !! build_primary c ∪ items !! build_primary c) →
           build_y c = 127 → build_face c = "+y" → build' c s = (Return (), s)))).
Proof.
  intros Hs. split.
  - intros Hc. unfold build_sentinel, chunk_key in *. unfold build, split_coords.
    rewrite Hs. unfold mbind at 1, M_bind at 1, get. by rewrite Hc.
  - intros chunk Hc Hwb. rewrite (build_past_sentinel c s chunk Hs Hc).
    rewrite (proj2 (Z.eqb_neq _ _) Hwb). split.
    + intros [Hp|Hf].
      * by rewrite Hp.
      * rewrite Hf. by destruct (build_primary c =? -1).
    + intros Hp Hf. rewrite (proj2 (Z.eqb_neq _ _) Hp), (proj2 (String.eqb_neq _ _) Hf).
      split.
      * intros Hb Hi. by rewrite Hb, Hi.
      * intros [block Hblock] Hy Hface. rewrite Hblock, Hy, Hface. done.
Qed.

End BuildGuards.

Lemma build_discards_witness :
  Scenario.build {| build_x := 1; build_y := 127; build_z := 1; build_face := "+y";
                    build_primary := 1 |} Scenario.session = (Return (), Scenario.session).
Proof.
  pose (c := {| build_x := 1; build_y := 127; build_z := 1; build_face := "+y";
                build_primary := 1 |}).
  destruct (build_discards Scenario.blocks Scenario.items Scenario.workbench
              Scenario.consume Scenario.Workbench Scenario.sync_inventories
              Scenario.pre_build_hooks Scenario.post_build_hooks Scenario.automatons
              c Scenario.session eq_refl) as [_ Hcached].
  assert (Hwb : get_block (world Scenario.session) Scenario.chunk00
                  (local_coords (build_x c) (build_y c) (build_z c))
                ≠ slot Scenario.workbench).
  { vm_compute. discriminate. }
  destruct (Hcached Scenario.chunk00 eq_refl Hwb) as [_ Hknown].
  assert (Hp : build_primary c ≠ -1) by (simpl; lia).
  assert (Hf : build_face c ≠ "noop") by discriminate.
  destruct (Hknown Hp Hf) as [_ Htop].
  apply Htop; [by eexists|done|done].
Defined.


Lemma build_on_workbench_witness :
  Scenario.build Cases.click_workbench Cases.at_workbench =
    (Return (),
     set_out [transport_write (window_open 1)]
       (set_wid 2
          (set_windows {[ 1 := Scenario.sync_inventories (inventory Scenario.alice)
                                  Scenario.Workbench ]} Cases.at_workbench))) ∧
  windows_below_wid (Scenario.build Cases.click_workbench Cases.at_workbench).2.
Proof.
  assert (Hwb : get_block (world Cases.at_workbench) Scenario.chunk00
                  (local_coords (build_x Cases.click_workbench)
                     (build_y Cases.click_workbench) (build_z Cases.click_workbench))
                = slot Scenario.workbench).
  { vm_compute. reflexivity. }
  destruct (build_on_workbench Scenario.blocks Scenario.items Scenario.workbench
              Scenario.consume Scenario.Workbench Scenario.sync_inventories
              Scenario.pre_build_hooks Scenario.post_build_hooks Scenario.automatons
              Cases.click_workbench Cases.at_workbench Scenario.chunk00 Scenario.alice
              eq_refl eq_refl Hwb eq_refl) as [Heq Hinv].
  assert (Hbelow : windows_below_wid Cases.at_workbench).
  { split; [simpl; lia|]. intros w Hw. simpl in Hw. set_solver. }
  split.
  - exact Heq.
  - unfold Scenario.build. rewrite Heq. apply (Hinv Hbelow).
Defined.

Lemma world_get_set_block (w : World) (coords : Z * Z * Z) (b : Z) :
  world_get_block (world_set_block coords b w) coords = b.
Proof.
  destruct coords as [[x y] z]. unfold world_get_block, world_set_block, split_coords.
  unfold get_block, chunk_of. cbn [chunk_x chunk_z].
  rewrite (fn_lookup_insert (w : Z * Z → ChunkData)).
  cbn [blocks_of chunk_set_block]. by rewrite lookup_insert_eq.
Qed.

Lemma world_get_block_set_metadata (w : World) (coords coords' : Z * Z * Z) (m : Z) :
  world_get_block (world_set_metadata coords m w) coords' = world_get_block w coords'.
Proof.
  destruct coords as [[x y] z], coords' as [[x' y'] z'].
  unfold world_get_block, world_set_metadata, split_coords, get_block, chunk_of.
  cbn [chunk_x chunk_z].
  destruct (decide ((Z.shiftr x 4, Z.shiftr z 4) = (Z.shiftr x' 4, Z.shiftr z' 4))) as [He|Hne].
  - rewrite He. by rewrite (fn_lookup_insert (w : Z * Z → ChunkData)).
  - by rewrite (fn_lookup_insert_ne (w : Z * Z → ChunkData)).
Qed.

Lemma world_get_set_metadata (w : World) (coords : Z * Z * Z) (m : Z) :
  world_get_metadata (world_set_metadata coords m w) coords = m.
Proof.
  destruct coords as [[x y] z]. unfold world_get_metadata, world_set_metadata, split_coords.
  unfold get_metadata, chunk_of. cbn [chunk_x chunk_z].
  rewrite (fn_lookup_insert (w : Z * Z → ChunkData)).
  cbn [metadata_of chunk_set_metadata]. by rewrite lookup_insert_eq.
Qed.

Section Commit.

Variable blocks : gmap Z Block.
Variable consume : Inventory → Z * Z → nat → bool * Inventory.
Variable post_build_hooks : list (Z * Z * Z → Block → M unit).
Variable automatons : list (gset Z).

(** X16: [run_build] on a session with a player, for a block of the block
    table that can be oriented, when the held slot yields the block or,
    failing that, its drop variant: it returns, exactly one successful
    [consume] is kept in the inventory (the drop variant only after the
    block itself was refused), the block read back one step along the face
    is [block.slot], a non-zero metadata is stored there too, and nothing
    is sent. *)
Theorem run_build_places (s : Session) (p : Player) (bd : BuildData) (m : Z) :
  player s = Some p →
  ¬ is_item blocks bd →
  placed_metadata bd = Some m →
  let r1 := consume (inventory p) (slot (bd_block bd), 0) (equipped p) in
  let r2 := consume r1.2 (drop (bd_block bd), 0) (equipped p) in
  r1.1 = true ∨ r2.1 = true →
  let s' := (run_build blocks consume bd s).2 in
  let coords := offset (bd_face bd) (bd_x bd) (bd_y bd) (bd_z bd) in
  (run_build blocks consume bd s).1 = Return () ∧
  inventory <$> player s' = Some (if r1.1 then r1.2 else r2.2) ∧
  world_get_block (world s') coords = slot (bd_block bd) ∧
  (m ≠ 0 → world_get_metadata (world s') coords = m) ∧
  (m = 0 → world s' = world_set_block coords (slot (bd_block bd)) (world s)) ∧
  out s' = out s.
Proof.
  intros Hp Hitem Hm r1 r2 Hok s' coords. subst s'.
  rewrite (run_build_paths blocks consume s p bd Hp).
  rewrite bool_decide_eq_false_2 by done. rewrite Hm. cbv zeta. fold r1. fold r2.
  assert (Hplace : ∀ s0,
            world_get_block (world (place bd m s0)) coords = slot (bd_block bd) ∧
            (m ≠ 0 → world_get_metadata (world (place bd m s0)) coords = m) ∧
            (m = 0 → world (place bd m s0)
                     = world_set_block coords (slot (bd_block bd)) (world s0)) ∧
            player (place bd m s0) = player s0 ∧ out (place bd m s0) = out s0).
  { intros s0. unfold place. fold coords. destruct (m =? 0) eqn:Hz.
    - cbn [world set_world]. split_and!; try done.
      + apply world_get_set_block.
      + intros Hne. apply Z.eqb_eq in Hz. lia.
    - cbn [world set_world]. split_and!; try done.
      + by rewrite world_get_block_set_metadata, world_get_set_block.
      + intros _. apply world_get_set_metadata.
      + intros He. apply Z.eqb_neq in Hz. lia. }
  destruct (r1.1) eqn:H1.
  - cbn [fst snd]. destruct (Hplace (set_player (Some (set_inventory r1.2 p)) s))
      as (Hb & Hmeta & Hw & Hpl & Hout).
    split_and!; try done. by rewrite Hpl.
  - destruct Hok as [?|H2]; [done|]. rewrite H2. cbn [fst snd].
    destruct (Hplace (set_player (Some (set_inventory r2.2 (set_inventory r1.2 p)))
                        (set_player (Some (set_inventory r1.2 p)) s)))
      as (Hb & Hmeta & Hw & Hpl & Hout).
    split_and!; try done. by rewrite Hpl.
Qed.

(** X17: once [run_build] has returned, with post-build hooks that return
    without touching the session, the rest of [build] calls every
    post-build hook once, in order, with the block and the coordinates of
    the packet (not the coordinates moved along the face); then feeds the
    automatons whose trigger set has the block; then re-sends the
    inventory; then flushes every cached chunk, last. *)
Theorem commit_build_order (s s1 : Session) (p1 : Player) (bd : BuildData) :
  run_build blocks consume bd s = (Return (), s1) →
  player s1 = Some p1 →
  (∀ hook, hook ∈ post_build_hooks → ∀ co b s0, hook co b s0 = (Return (), s0)) →
  let coords := (bd_x bd, bd_y bd, bd_z bd) in
  commit_build blocks consume post_build_hooks automatons bd s =
    (Return (),
     set_out (out s1
       ++ ((λ k, post_build_hook k coords (bd_block bd)) <$> seq 0 (length post_build_hooks))
       ++ feeds (slot (bd_block bd)) coords automatons
       ++ [transport_write (inventory_save_to_packet (inventory p1))]
       ++ (factory_flush_chunk ∘ snd <$> map_to_list (chunks s1))) s1).
Proof.
  intros Hrun Hp Hhooks coords.
  unfold commit_build, except_BuildError. unfold mbind at 1, M_bind at 1. rewrite Hrun.
  unfold mbind, M_bind.
  rewrite (for_each_indexed post_build_hooks 0 _
             (λ k, post_build_hook k coords (bd_block bd))).
  2:{ intros k hook s0 Hhook. rewrite emit_eq. by rewrite (Hhooks hook Hhook). }
  rewrite (for_each_imap automatons 0 _
             (λ k blocks_k, if bool_decide (slot (bd_block bd) ∈ blocks_k)
                            then [automaton_feed k coords] else [])).
  2:{ intros k a s0. case_bool_decide; [apply emit_eq|].
      unfold mret, M_ret. by rewrite app_nil_r, set_out_same. }
  rewrite (the_player_eq _ p1) by done. rewrite emit_eq. unfold get.
  rewrite (for_each_emit_chunks _ 0 (λ kc : Py.key * Chunk, factory_flush_chunk kc.2)).
  unfold feeds. destruct s1; unfold set_out; simpl. by rewrite <- !app_assoc.
Qed.

End Commit.

Lemma run_build_places_witness :
  let s' := (run_build Scenario.blocks Scenario.consume Cases.stone_on_top Scenario.session).2 in
  (run_build Scenario.blocks Scenario.consume Cases.stone_on_top Scenario.session).1
    = Return () ∧
  inventory <$> player s'
    = Some (Scenario.set_holdables (Some (1, 0, 4) :: replicate 8 None)
              (Scenario.empty_inventory 0)) ∧
  world_get_block (world s') (1, 65, 1) = 1.
Proof.
  assert (Hitem : ¬ is_item Scenario.blocks Cases.stone_on_top).
  { unfold is_item. intros Hn. apply Hn. by vm_compute. }
  destruct (run_build_places Scenario.blocks Scenario.consume Scenario.session
              Scenario.alice Cases.stone_on_top 0 eq_refl Hitem eq_refl
              (or_introl eq_refl)) as (Hret & Hinv & Hblock & _).
  split_and!; [exact Hret|exact Hinv|exact Hblock].
Defined.

(** Alice's stone is placed: the one post-build hook is called, the first
    automaton, which watches stone, is fed and the second is not. *)
Lemma commit_build_order_witness :
  let s1 := (run_build Scenario.blocks Scenario.consume Cases.stone_on_top Scenario.session).2 in
  commit_build Scenario.blocks Scenario.consume Scenario.post_build_hooks [{[1]}; {[4]}]
    Cases.stone_on_top Scenario.session =
    (Return (),
     set_out [post_build_hook 0 (1, 64, 1) Scenario.stone;
              automaton_feed 0 (1, 64, 1);
              transport_write (inventory_save_to_packet
                (Scenario.set_holdables (Some (1, 0, 4) :: replicate 8 None)
                   (Scenario.empty_inventory 0)));
              factory_flush_chunk Scenario.chunk00] s1).
Proof.
  intros s1.
  assert (Hrun : run_build Scenario.blocks Scenario.consume Cases.stone_on_top
                   Scenario.session = (Return (), s1)).
  { vm_compute. reflexivity. }
  assert (Hhooks : ∀ hook, hook ∈ Scenario.post_build_hooks →
                     ∀ co b s0, hook co b s0 = (Return (), s0)).
  { intros hook Hhook co b s0. apply list_elem_of_singleton in Hhook. by subst hook. }
  pose proof (commit_build_order Scenario.blocks Scenario.consume Scenario.post_build_hooks
                [{[1]}; {[4]}] Scenario.session s1
                {| eid := 7; equipped := 0;
                   inventory := Scenario.set_holdables (Some (1, 0, 4) :: replicate 8 None)
                                  (Scenario.empty_inventory 0) |}
                Cases.stone_on_top Hrun eq_refl Hhooks) as Hcommit.
  rewrite Hcommit. f_equal.
Defined.

(** ** Moving, logging in and closing windows *)

Section Moves.

Variable position_changed : M unit.
Variable orientation_changed : M unit.




End Moves.

Section Moves2.

Variable position_changed : M unit.
Variable orientation_changed : M unit.



End Moves2.

(** X20: the block [position] stores for a coordinate is its floor when
    the coordinate is positive or has a fractional part, and one below the
    floor otherwise, that is for zero and the negative whole numbers. *)
Theorem block_coord_floor (v : Q) :
  ((0 < v)%Q ∨ ¬ whole v → block_coord v = Qfloor v) ∧
  ((v <= 0)%Q ∧ whole v → block_coord v = Qfloor v - 1).
Proof.
  split.
  - intros [Hpos|Hfrac]; [by apply block_coord_positive|].
    destruct (Qlt_le_dec 0 v) as [Hpos|Hle]; [by apply block_coord_positive|].
    apply block_coord_negative_fraction; [|exact Hfrac].
    apply Qle_lteq in Hle as [Hlt|Heq]; [exact Hlt|].
    exfalso. apply Hfrac. unfold whole. destruct v as [n d].
    unfold Qeq in Heq. simpl in *. assert (n = 0) by lia. subst n. reflexivity.
  - intros [Hle Hwhole]. unfold block_coord.
    destruct (Qlt_le_dec 0 v) as [Hpos|_].
    { exfalso. eapply Qlt_not_le; eauto. }
    f_equal. destruct v as [n d]. unfold whole, int, Qfloor in *. simpl in *.
    unfold Qle in Hle. simpl in Hle.
    apply Z.mod_divide in Hwhole as [q Hq]; [|lia]. subst n.
    rewrite Z.quot_mul, Z.div_mul by lia. reflexivity.
Qed.

Lemma block_coord_floor_witness :
  block_coord (5 # 2) = 2 ∧ block_coord (- 5 # 2) = -3 ∧ block_coord (- 4 # 2) = -3.
Proof.
  assert (Hfrac : ¬ whole (- 5 # 2)) by (intros H; vm_compute in H; discriminate H).
  assert (Hpos : (0 < 5 # 2)%Q) by reflexivity.
  assert (Hwhole : ((- 4 # 2) <= 0)%Q ∧ whole (- 4 # 2)).
  { split; [unfold Qle; simpl; lia|reflexivity]. }
  split_and!.
  - exact (proj1 (block_coord_floor (5 # 2)) (or_introl Hpos)).
  - exact (proj1 (block_coord_floor (- 5 # 2)) (or_intror Hfrac)).
  - exact (proj2 (block_coord_floor (- 4 # 2)) Hwhole).
Defined.


Section LoginProps.

Variable login_hook : M unit.
Variable authenticated : M unit.

(** X21: [login] never raises.  A client whose protocol version is not 11
    gets the error packet for an ancient or a newfangled client and the
    connection is closed; neither the login hook nor [authenticated] runs.
    With version 11 the hook runs; when it returns, [authenticated] runs
    on its result; when it fails, the connection is closed and
    [authenticated] runs all the same. *)
Theorem login_outcomes (protocol : Z) (s : Session) :
  let run := login login_hook authenticated protocol in
  let kicked message :=
    (Return (),
     set_out (out s ++ [transport_write (make_error_packet message);
                        transport_loseConnection]) s) in
  (run s).1 = Return () ∧
  (protocol < 11 → run s = kicked "This server doesn't support your ancient client.") ∧
  (11 < protocol → run s = kicked "This server doesn't support your newfangled client.") ∧
  (protocol = 11 →
     (∀ s1, login_hook s = (Return (), s1) → (run s).2 = (authenticated s1).2) ∧
     (∀ e s1, login_hook s = (Raise e, s1) →
        (run s).2
        = (authenticated (set_out (out s1 ++ [transport_loseConnection]) s1)).2)).
Proof.
  intros run kicked.
  assert (Herror : ∀ message, error message s = kicked message).
  { intros message. unfold error, mbind, M_bind. rewrite !emit_eq. subst kicked.
    destruct s. unfold set_out. simpl. by rewrite <- app_assoc. }
  subst run. unfold login, SUPPORTED_PROTOCOL. split_and!.
  - destruct (protocol <? 11); [by rewrite Herror|].
    destruct (11 <? protocol); [by rewrite Herror|].
    by destruct (login_hook s) as [[[]|e] s1].
  - intros Hlt. rewrite (proj2 (Z.ltb_lt _ _) Hlt). apply Herror.
  - intros Hgt. rewrite (proj2 (Z.ltb_ge _ _)) by lia.
    rewrite (proj2 (Z.ltb_lt _ _) Hgt). apply Herror.
  - intros ->. cbn [Z.ltb Z.compare Pos.compare Pos.compare_cont]. split.
    + intros s1 Hhook. by rewrite Hhook.
    + intros e s1 Hhook. rewrite Hhook. unfold mbind, M_bind. by rewrite emit_eq.
Qed.

End LoginProps.

(** A login hook that refuses the player, with the base class's
    [authenticated]: the connection is closed, and yet the session ends up
    authenticated with its keepalive loop running. *)
Lemma login_outcomes_witness :
  let s' := (login (raise KeyError) BetaServerProtocol_authenticated 11
               (new_protocol Scenario.flat ∅)).2 in
  out s' = [transport_loseConnection; transport_write (make_packet "ping" [])] ∧
  state s' = STATE_AUTHENTICATED ∧ running (ping_loop s') = true.
Proof.
  intros s'.
  destruct (login_outcomes (raise KeyError) BetaServerProtocol_authenticated 11
              (new_protocol Scenario.flat ∅)) as (_ & _ & _ & Hrun).
  destruct (Hrun eq_refl) as [_ Hfail].
  subst s'. rewrite (Hfail KeyError (new_protocol Scenario.flat ∅) eq_refl).
  split_and!; reflexivity.
Defined.

Section Closing.

Variable blocks : gmap Z Block.
Variable items : gmap Z Block.
Variable workbench : Block.
Variable consume : Inventory → Z * Z → nat → bool * Inventory.
Variable Workbench : Inventory.
Variable sync_inventories : Inventory → Inventory → Inventory.
Variable pre_build_hooks : list (BuildData → M (bool * BuildData)).
Variable post_build_hooks : list (Z * Z * Z → Block → M unit).
Variable automatons : list (gset Z).
Variable in_front_of : Location → Z → Q * Q * Q.

Lemma wclose_open (w : Z) (s : Session) (i : Inventory) (p : Player) :
  windows s !! w = Some i →
  player s = Some p →
  wclose sync_inventories in_front_of w s =
    (Return (),
     set_player (Some (set_inventory (sync_inventories i (inventory p)) p))
       (set_windows (delete w (windows s))
          (set_out (out s ++ leftovers (give_coords in_front_of (location s)) i) s))).
Proof.
  intros Hw Hp. unfold wclose. unfold mbind at 1, M_bind at 1, get. rewrite Hw.
  assert (Hrest : ∀ s0, player s0 = Some p →
            (modify (λ s, set_windows (delete w (windows s)) s) ;;
             p ← the_player;
             modify_player (set_inventory (sync_inventories i (inventory p)))) s0
            = (Return (),
               set_player (Some (set_inventory (sync_inventories i (inventory p)) p))
                 (set_windows (delete w (windows s0)) s0))).
  { intros s0 Hp0. unfold mbind, M_bind, modify.
    erewrite the_player_eq by (destruct s0; exact Hp0).
    erewrite modify_player_eq by (destruct s0; exact Hp0). reflexivity. }
  unfold leftovers, give_coords. destruct (identifier i =? 1).
  - destruct (in_front_of (location s) 1) as [[dx dy] dz]. cbv zeta.
    unfold mbind at 1, M_bind at 1.
    rewrite (for_each_emit_list (crafting i) 0
               (λ item, match item with
                        | None => []
                        | Some (primary, secondary, count) =>
                          [factory_give (int (dx * 32) + 16, int ((dy + 1) * 32) + 16,
                                         int (dz * 32) + 16) (primary, secondary) count]
                        end)).
    2:{ intros k [[[primary secondary] count]|] s0; [apply emit_eq|].
        unfold mret, M_ret. by rewrite app_nil_r, set_out_same. }
    rewrite Hrest by (destruct s; exact Hp). reflexivity.
  - unfold mbind at 1, M_bind at 1, mret at 1, M_ret at 1.
    rewrite Hrest by exact Hp. by rewrite app_nil_r, set_out_same.
Qed.

(** X22: [wclose].  Closing window 0 when no window has that id does
    nothing; closing any other id that is not open is answered with the
    error packet "Can't close non-existent window <wid>!" and the connection
    is closed.  Closing an open window returns, removes it and no other
    window, syncs its inventory into the player's, and gives the world the
    stacks left on its crafting grid when it is a workbench, whole and in
    the grid's order, and nothing otherwise. *)
Theorem wclose_cases (w : Z) (s : Session) :
  let close := wclose sync_inventories in_front_of w in
  (windows s !! w = None →
     (w = 0 → close s = (Return (), s)) ∧
     (w ≠ 0 →
        close s =
          (Return (),
           set_out (out s ++
             [transport_write (make_error_packet
                ("Can't close non-existent window " +:+ pretty w +:+ "!"));
              transport_loseConnection]) s))) ∧
  (∀ i p, windows s !! w = Some i → player s = Some p →
     (close s).1 = Return () ∧
     windows (close s).2 = delete w (windows s) ∧
     inventory <$> player (close s).2 = Some (sync_inventories i (inventory p)) ∧
     out (close s).2 = out s ++ leftovers (give_coords in_front_of (location s)) i).
Proof.
  intros close. split.
  - intros Hw. subst close.
    assert (Hclosed : wclose sync_inventories in_front_of w s =
              (if w =? 0 then mret ()
               else error ("Can't close non-existent window " +:+ pretty w +:+ "!")) s).
    { unfold wclose. unfold mbind at 1, M_bind at 1, get. by rewrite Hw. }
    rewrite Hclosed. split.
    + intros ->. reflexivity.
    + intros Hne. rewrite (proj2 (Z.eqb_neq _ _) Hne).
      unfold error, mbind, M_bind. rewrite !emit_eq.
      destruct s. unfold set_out. simpl. by rewrite <- app_assoc.
  - intros i p Hw Hp. subst close. rewrite (wclose_open w s i p Hw Hp).
    by destruct s.
Qed.

Local Notation build' :=
  (build blocks items workbench consume Workbench sync_inventories pre_build_hooks
         post_build_hooks automatons).

(** X23: a click on a workbench followed by closing the window it opened,
    on a session whose open windows all have ids below [wid].  The windows
    are as they were before the click, [wid] has grown by one, the player's
    inventory is the player's synced into the new workbench and back, and
    what is sent is the window-open packet and then the leftovers of that
    workbench, nothing else. *)
Theorem workbench_opened_then_closed (c : BuildPacket) (s : Session) (chunk : Chunk)
    (p : Player) :
  build_sentinel c = false →
  chunks s !! chunk_key (build_x c) (build_z c) = Some chunk →
  get_block (world s) chunk (local_coords (build_x c) (build_y c) (build_z c))
    = slot workbench →
  player s = Some p →
  windows_below_wid s →
  let bench := sync_inventories (inventory p) Workbench in
  (build' c ;; wclose sync_inventories in_front_of (wid s)) s =
    (Return (),
     set_player (Some (set_inventory (sync_inventories bench (inventory p)) p))
       (set_wid (wid s + 1)
          (set_out (out s ++ [transport_write (window_open (wid s))]
                          ++ leftovers (give_coords in_front_of (location s)) bench) s))).
Proof.
  intros Hs Hc Hwb Hp [Hwid Hbelow] bench.
  assert (Hfree : windows s !! wid s = None).
  { apply not_elem_of_dom. intros Hin. apply Hbelow in Hin. lia. }
  set (s1 := set_out (out s ++ [transport_write (window_open (wid s))])
               (set_wid (wid s + 1) (set_windows (<[wid s := bench]> (windows s)) s))).
  assert (Hbuild : build' c s = (Return (), s1)).
  { rewrite (build_past_sentinel blocks items workbench consume Workbench sync_inventories
               pre_build_hooks post_build_hooks automatons c s chunk Hs Hc), Hwb, Z.eqb_refl.
    unfold mbind, M_bind. rewrite (the_player_eq s p Hp). unfold modify.
    by rewrite emit_eq. }
  assert (Hw1 : windows s1 !! wid s = Some bench).
  { subst s1. cbn [windows set_out set_wid set_windows]. apply lookup_insert_eq. }
  assert (Hp1 : player s1 = Some p).
  { subst s1. by destruct s. }
  assert (Hwin : delete (wid s) (windows s1) = windows s).
  { subst s1. cbn [windows set_out set_wid set_windows]. by apply delete_insert_id. }
  assert (Hout1 : out s1 = out s ++ [transport_write (window_open (wid s))])
    by reflexivity.
  assert (Hloc1 : location s1 = location s) by reflexivity.
  unfold mbind at 1, M_bind at 1. rewrite Hbuild.
  rewrite (wclose_open (wid s) s1 bench p Hw1 Hp1), Hwin, Hout1, Hloc1, <- app_assoc.
  reflexivity.
Qed.

End Closing.


Lemma wclose_cases_witness :
  let s' := (wclose Scenario.sync_inventories Scenario.in_front_of 1 Cases.crafting_open).2 in
  windows s' = ∅ ∧
  out s' = [factory_give (16, 48, 16) (4, 0) 2; factory_give (16, 48, 16) (50, 0) 1].
Proof.
  intros s'.
  destruct (wclose_cases Scenario.sync_inventories Scenario.in_front_of 1 Cases.crafting_open)
    as [_ Hopen].
  destruct (Hopen Cases.used_workbench Scenario.alice eq_refl eq_refl)
    as (_ & Hwin & _ & Hout).
  split.
  - subst s'. rewrite Hwin. reflexivity.
  - subst s'. rewrite Hout. reflexivity.
Defined.

Lemma workbench_opened_then_closed_witness :
  let s' := (Scenario.build Cases.click_workbench ;;
             wclose Scenario.sync_inventories Scenario.in_front_of 1) Cases.at_workbench in
  s'.1 = Return () ∧ windows s'.2 = ∅ ∧ wid s'.2 = 2 ∧
  out s'.2 = [transport_write (window_open 1)].
Proof.
  assert (Hwb : get_block (world Cases.at_workbench) Scenario.chunk00
                  (local_coords (build_x Cases.click_workbench)
                     (build_y Cases.click_workbench) (build_z Cases.click_workbench))
                = slot Scenario.workbench).
  { vm_compute. reflexivity. }
  assert (Hbelow : windows_below_wid Cases.at_workbench).
  { split; [simpl; lia|]. intros w Hw. simpl in Hw. set_solver. }
  pose proof (workbench_opened_then_closed Scenario.blocks Scenario.items
                Scenario.workbench Scenario.consume Scenario.Workbench
                Scenario.sync_inventories Scenario.pre_build_hooks
                Scenario.post_build_hooks Scenario.automatons Scenario.in_front_of
                Cases.click_workbench Cases.at_workbench Scenario.chunk00 Scenario.alice
                eq_refl eq_refl Hwb eq_refl Hbelow) as Hround.
  cbv zeta in Hround. split_and!.
  - exact (f_equal fst Hround).
  - exact (f_equal (windows ∘ snd) Hround).
  - exact (f_equal (wid ∘ snd) Hround).
  - exact (f_equal (out ∘ snd) Hround).
Defined.

(** ** Leaving *)

Lemma stop_chunk_tasks_eq (s : Session) :
  (∀ ts t, chunk_tasks s = Some ts → t ∈ ts → status t ≠ Stopped) →
  stop_chunk_tasks s = (Return (), set_chunk_tasks (stopped_tasks (chunk_tasks s)) s).
Proof.
  intros Hts. unfold stop_chunk_tasks, mbind, M_bind, get.
  assert (Hsame : set_chunk_tasks (chunk_tasks s) s = s) by (by destruct s).
  destruct (chunk_tasks s) as [[|t ts]|] eqn:Ht.
  - unfold mret, M_ret. f_equal. by rewrite <- Hsame at 1.
  - rewrite stop_tasks_fmap by (intros t' Ht'; by eapply Hts).
    reflexivity.
  - unfold mret, M_ret. f_equal. by rewrite <- Hsame at 1.
Qed.

Lemma emit_4 (a b c d : Event) (s : Session) :
  (emit a ;; emit b ;; emit c ;; emit d) s = (Return (), set_out (out s ++ [a; b; c; d]) s).
Proof.
  unfold mbind, M_bind. rewrite !emit_eq. unfold set_out. cbn [out].
  by rewrite <- !app_assoc.
Qed.

Lemma connectionLost_eq (s : Session) (p : Player) :
  (∀ l, time_loop s = Some l → running l = true) →
  (∀ ts t, chunk_tasks s = Some ts → t ∈ ts → status t ≠ Stopped) →
  player s = Some p →
  connectionLost s =
    (Return (),
     set_protocols (protocols s ∖ from_option singleton ∅ (username s))
       (set_out (out s ++ [world_save_player (username s) p;
                           factory_destroy_entity (eid p);
                           factory_broadcast (destroy (eid p));
                           factory_chat (default "None" (username s)
                                           +:+ " has left the game.")])
          (set_chunk_tasks (stopped_tasks (chunk_tasks s))
             (set_time_loop (stopped_loop (time_loop s)) s)))).
Proof.
  intros Hloop Hts Hp. unfold connectionLost.
  unfold mbind at 1, M_bind at 1, get.
  set (s1 := set_time_loop (stopped_loop (time_loop s)) s).
  assert (Hfirst : match time_loop s with
                   | Some l =>
                     if running l
                     then modify (set_time_loop
                            (Some {| running := false; interval := interval l |}))
                     else raise AssertionError
                   | None => mret ()
                   end s = (Return (), s1)).
  { subst s1. assert (Hsame : set_time_loop (time_loop s) s = s) by (by destruct s).
    destruct (time_loop s) as [l|] eqn:Hl.
    - by rewrite (Hloop l eq_refl).
    - unfold mret, M_ret. f_equal. symmetry. exact Hsame. }
  unfold mbind at 1, M_bind at 1. rewrite Hfirst.
  unfold mbind at 1, M_bind at 1.
  rewrite (stop_chunk_tasks_eq s1) by exact Hts.
  set (s2 := set_chunk_tasks (stopped_tasks (chunk_tasks s1)) s1).
  unfold mbind at 1, M_bind at 1, get.
  change (player s2) with (player s). rewrite Hp.
  unfold mbind at 1, M_bind at 1. rewrite emit_4.
  unfold mbind, M_bind, get. cbn [username set_out protocols].
  change (username s2) with (username s). change (protocols s2) with (protocols s).
  change (out s2) with (out s).
  destruct (username s) as [name|]; cbn [from_option default].
  - case_bool_decide as Hin.
    + reflexivity.
    + unfold mret, M_ret. f_equal.
      assert (Hsame : protocols s ∖ {[name]} = protocols s).
      { apply difference_disjoint_L. apply disjoint_singleton_r. exact Hin. }
      rewrite Hsame. by destruct s.
  - unfold mret, M_ret. f_equal. rewrite difference_empty_L. by destruct s.
Qed.

(** X24: [BravoProtocol.connectionLost] on a session with a player, whose
    time loop, if any, is running and none of whose chunk tasks has been
    stopped before.  It returns; the player is saved under the session's
    username, the entity is destroyed, the destroy packet is broadcast and
    the farewell is chatted, in this order and nothing else; the username
    is no longer in the registry; the time loop and the chunk tasks are
    stopped; the chunk cache and the player are kept.  A second call, when
    there was a time loop, raises [AssertionError] right away and changes
    nothing: nothing is saved or announced twice. *)
Theorem connectionLost_once (s : Session) (p : Player) (name : string) :
  (∀ l, time_loop s = Some l → running l = true) →
  (∀ ts t, chunk_tasks s = Some ts → t ∈ ts → status t ≠ Stopped) →
  player s = Some p →
  username s = Some name →
  let s' := (connectionLost s).2 in
  (connectionLost s).1 = Return () ∧
  out s' = out s ++ [world_save_player (Some name) p;
                     factory_destroy_entity (eid p);
                     factory_broadcast (make_packet "destroy" [("eid", FInt (eid p))]);
                     factory_chat (name +:+ " has left the game.")] ∧
  protocols s' = protocols s ∖ {[name]} ∧
  (∀ l, time_loop s' = Some l → running l = false) ∧
  (∀ ts t, chunk_tasks s' = Some ts → t ∈ ts → status t ≠ Running) ∧
  chunks s' = chunks s ∧ player s' = Some p ∧
  (time_loop s ≠ None → connectionLost s' = (Raise AssertionError, s')).
Proof.
  intros Hloop Hts Hp Hname s'. subst s'.
  rewrite (connectionLost_eq s p Hloop Hts Hp), Hname. cbn [fst snd from_option default].
  split_and!; try reflexivity.
  - cbn [time_loop set_protocols set_out set_chunk_tasks set_time_loop].
    intros l Hl. destruct (time_loop s) as [l0|]; [|done].
    simpl in Hl. by injection Hl as <-.
  - cbn [chunk_tasks set_protocols set_out set_chunk_tasks].
    intros ts t Hsome Ht. destruct (chunk_tasks s) as [ts0|]; [|done].
    simpl in Hsome. injection Hsome as <-.
    apply list_elem_of_fmap in Ht as (t0 & -> & _).
    unfold stopped_task. by destruct (status t0) eqn:Hst; simpl; rewrite ?Hst.
  - exact Hp.
  - intros Hsome. destruct (time_loop s) as [l|] eqn:Hl; [|done].
    unfold connectionLost. unfold mbind at 1, M_bind at 1, get.
    cbn [time_loop set_protocols set_out set_chunk_tasks set_time_loop stopped_loop running].
    reflexivity.
Qed.


Lemma connectionLost_once_witness :
  let s' := (connectionLost Cases.playing).2 in
  out s' = [world_save_player (Some "alice") Scenario.alice;
            factory_destroy_entity 7;
            factory_broadcast (make_packet "destroy" [("eid", FInt 7)]);
            factory_chat "alice has left the game."] ∧
  protocols s' = {[ "bob" ]} ∧
  connectionLost s' = (Raise AssertionError, s').
Proof.
  intros s'.
  assert (Hloop : ∀ l, time_loop Cases.playing = Some l → running l = true).
  { intros l Hl. by injection Hl as <-. }
  assert (Hts : ∀ ts t, chunk_tasks Cases.playing = Some ts → t ∈ ts → status t ≠ Stopped).
  { intros ts t Hsome Ht. injection Hsome as <-.
    apply elem_of_cons in Ht as [->|Ht]; [done|].
    apply list_elem_of_singleton in Ht as ->. done. }
  destruct (connectionLost_once Cases.playing Scenario.alice "alice" Hloop Hts
              eq_refl eq_refl) as (_ & Hout & Hreg & _ & _ & _ & _ & Hagain).
  split_and!.
  - exact Hout.
  - subst s'. rewrite Hreg. apply set_eq. intros x. set_solver.
  - apply Hagain. discriminate.
Defined.

(** ** Window actions, continued *)

Section WindowActions.

Variable select : Inventory → Z → bool → bool → bool * Inventory.

(** X25: [waction] on an open window other than the player's inventory.
    [select] is called on that window's inventory, which takes the result;
    the inventory is re-sent exactly when [select] reports a change; the
    others are never told of an equipment change; and the handler ends
    with the window-token packet, which carries wid 0 (not the window's
    id), the packet's token and what [select] reported. *)
Theorem waction_window (c : WactionPacket) (s : Session) (inv : Inventory) :
  waction_wid c ≠ 0 →
  windows s !! waction_wid c = Some inv →
  let button := bool_of (waction_button c) in
  let shift := bool_of (waction_shift c) in
  let r := select inv (waction_slot c) button shift in
  waction select c s =
    (Return (),
     set_out (out s
       ++ [inventory_select (waction_wid c) (waction_slot c) button shift]
       ++ (if r.1 then [transport_write (inventory_save_to_packet r.2)] else [])
       ++ [transport_write (window_token (waction_token c) r.1)])
       (set_windows (<[waction_wid c := r.2]> (windows s)) s)).
Proof.
  intros Hw Hinv button shift r.
  unfold waction. unfold mbind at 1, M_bind at 1, get.
  rewrite (proj2 (Z.eqb_neq _ _) Hw).
  rewrite bool_decide_eq_true_2 by (apply elem_of_dom; eauto).
  unfold mbind at 1, M_bind at 1, mret at 1, M_ret at 1.
  assert (Hread : read_local (Some (window_inventory (waction_wid c))) s = (Return inv, s)).
  { unfold read_local, mbind, M_bind, get. by rewrite Hinv. }
  unfold mbind at 1, M_bind at 1. rewrite Hread. fold button shift r.
  unfold mbind at 1, M_bind at 1. rewrite emit_eq.
  unfold mbind at 1, M_bind at 1. cbn [from_option write_back]. unfold modify at 1.
  cbn [andb].
  unfold mbind at 1, M_bind at 1.
  destruct (r.1) eqn:Hsel.
  - unfold mbind at 1, M_bind at 1. rewrite emit_eq. unfold mret, M_ret.
    rewrite emit_eq. unfold set_out, set_windows. cbn [out windows].
    by rewrite <- !app_assoc.
  - unfold mret, M_ret. rewrite emit_eq. unfold set_out, set_windows. cbn [out windows].
    by rewrite <- !app_assoc.
Qed.

Lemma waction_player_head (c : WactionPacket) (s : Session) (p : Player) :
  waction_wid c = 0 →
  player s = Some p →
  let button := bool_of (waction_button c) in
  let shift := bool_of (waction_shift c) in
  let r := select (inventory p) (waction_slot c) button shift in
  let s1 := set_player (Some (set_inventory r.2 p))
              (set_out (out s ++ [inventory_select 0 (waction_slot c) button shift]) s) in
  waction select c s =
    ((if r.1 then
        emit (transport_write (inventory_save_to_packet r.2)) ;;
        if in_range_5_9 (waction_slot c) || (waction_slot c =? 36) then
          item ← (if in_range_5_9 (waction_slot c)
                  then index (armor r.2) (Z.to_nat (waction_slot c - 5))
                  else index (holdables r.2) 0 : M (option Slot));
          let eslot := if in_range_5_9 (waction_slot c)
                       then 4 - (waction_slot c - 5) else 0 in
          let ps := match item with
                    | None => (65535, 0)
                    | Some (primary, secondary, count) => (primary, secondary)
                    end in
          p ← the_player;
          emit (factory_broadcast_for_others (entity_equipment (eid p) eslot ps.1 ps.2))
        else mret ()
      else mret () : M unit) ;;
     emit (transport_write (window_token (waction_token c) r.1))) s1.
Proof.
  intros Hw Hp button shift r s1.
  unfold waction. unfold mbind at 1, M_bind at 1, get. rewrite Hw, Z.eqb_refl.
  unfold mbind at 1, M_bind at 1, mret at 1, M_ret at 1.
  assert (Hread : read_local (Some player_inventory) s = (Return (inventory p), s)).
  { unfold read_local, mbind, M_bind. by rewrite (the_player_eq s p Hp). }
  unfold mbind at 1, M_bind at 1. rewrite Hread. fold button shift r.
  unfold mbind at 1, M_bind at 1. rewrite emit_eq.
  unfold mbind at 1, M_bind at 1. cbn [from_option write_back].
  erewrite modify_player_eq by exact Hp.
  reflexivity.
Qed.

(** X26: [waction] on the player's own inventory (wid 0).  [select] is
    called on it and the player takes the result.  When [select] reports
    no change, only the window-token follows.  When it reports a change,
    the inventory is re-sent first; and the others are told of an
    equipment change exactly for the held slot 36, as equipment slot 0
    with the first holdable, and for the armor slots 5 to 8, as equipment
    slots 4 down to 1 with the armor piece.  The window-token comes last
    and carries the packet's token and what [select] reported. *)
Theorem waction_player (c : WactionPacket) (s : Session) (p : Player) :
  waction_wid c = 0 →
  player s = Some p →
  let slot := waction_slot c in
  let button := bool_of (waction_button c) in
  let shift := bool_of (waction_shift c) in
  let r := select (inventory p) slot button shift in
  let sent events :=
    (Return (),
     set_out (out s ++ [inventory_select 0 slot button shift] ++ events
                    ++ [transport_write (window_token (waction_token c) r.1)])
       (set_player (Some (set_inventory r.2 p)) s)) in
  let resent := transport_write (inventory_save_to_packet r.2) in
  (r.1 = false → waction select c s = sent []) ∧
  (r.1 = true → ¬ 5 ≤ slot ≤ 8 → slot ≠ 36 → waction select c s = sent [resent]) ∧
  (r.1 = true → slot = 36 → ∀ item, holdables r.2 !! 0%nat = Some item →
     waction select c s =
       sent [resent; factory_broadcast_for_others (equipment_packet (eid p) 0 item)]) ∧
  (r.1 = true → 5 ≤ slot ≤ 8 → ∀ item, armor r.2 !! Z.to_nat (slot - 5) = Some item →
     waction select c s =
       sent [resent; factory_broadcast_for_others (equipment_packet (eid p) (9 - slot) item)]).
Proof.
  intros Hw Hp slot button shift r sent resent.
  pose proof (waction_player_head c s p Hw Hp) as Hhead. cbv zeta in Hhead.
  fold slot button shift r in Hhead. rewrite Hhead. clear Hhead.
  set (s1 := set_player (Some (set_inventory r.2 p))
               (set_out (out s ++ [inventory_select 0 slot button shift]) s)).
  assert (Hp1 : ∀ o, player (set_out o s1) = Some (set_inventory r.2 p)) by done.
  assert (Hdone : ∀ b events s2, r.1 = b → s2 = set_out (out s1 ++ events) s1 →
            (Return (), set_out (out s2 ++ [transport_write
                                              (window_token (waction_token c) b)]) s2)
            = sent events).
  { intros b events s2 <- ->. subst sent s1. unfold set_out, set_player. cbn [out].
    by rewrite <- !app_assoc. }
  assert (Hrange : in_range_5_9 slot = true ↔ 5 ≤ slot ≤ 8).
  { unfold in_range_5_9. rewrite andb_true_iff. lia. }
  split_and!.
  - intros Hsel. rewrite Hsel. unfold mbind, M_bind, mret, M_ret. rewrite emit_eq.
    apply Hdone; [done|]. by rewrite app_nil_r, set_out_same.
  - intros Hsel Harmor Hheld. rewrite Hsel.
    assert (Hno : in_range_5_9 slot || (slot =? 36) = false).
    { apply orb_false_iff. split; [|lia]. apply not_true_iff_false. by rewrite Hrange. }
    rewrite Hno. unfold mbind, M_bind, mret, M_ret. rewrite !emit_eq.
    by apply Hdone.
  - intros Hsel Hslot item Hitem. rewrite Hsel.
    assert (Hno : in_range_5_9 slot = false).
    { apply not_true_iff_false. rewrite Hrange. lia. }
    rewrite Hno, Hslot. cbn [orb Z.eqb Pos.eqb].
    unfold mbind at 1, M_bind at 1. unfold mbind at 1, M_bind at 1. rewrite emit_eq.
    unfold mbind at 1, M_bind at 1. erewrite index_eq by exact Hitem.
    unfold mbind at 1, M_bind at 1. rewrite (the_player_eq _ _ (Hp1 _)).
    rewrite !emit_eq. apply Hdone; [done|].
    unfold set_out. cbn [out eid set_inventory]. rewrite <- !app_assoc.
    by destruct item as [[[primary secondary] count]|].
  - intros Hsel Harmor item Hitem. rewrite Hsel.
    rewrite (proj2 Hrange Harmor). cbn [orb].
    unfold mbind at 1, M_bind at 1. unfold mbind at 1, M_bind at 1. rewrite emit_eq.
    unfold mbind at 1, M_bind at 1. erewrite index_eq by exact Hitem.
    unfold mbind at 1, M_bind at 1. rewrite (the_player_eq _ _ (Hp1 _)).
    rewrite !emit_eq. apply Hdone; [done|].
    unfold set_out. cbn [out eid set_inventory]. rewrite <- !app_assoc.
    replace (4 - (slot - 5)) with (9 - slot) by lia.
    by destruct item as [[[primary secondary] count]|].
Qed.

End WindowActions.


Lemma waction_window_witness :
  waction Cases.changing_select (Cases.click 1 3) Cases.crafting_open =
    (Return (),
     set_out [inventory_select 1 3 false false;
              transport_write (inventory_save_to_packet Cases.used_workbench);
              transport_write (make_packet "window-token"
                [("wid", FInt 0); ("token", FInt 5); ("acknowledged", FBool true)])]
       (set_windows {[ 1 := Cases.used_workbench ]} Cases.crafting_open)).
Proof.
  assert (Hw : waction_wid (Cases.click 1 3) ≠ 0) by (simpl; lia).
  pose proof (waction_window Cases.changing_select (Cases.click 1 3) Cases.crafting_open
                Cases.used_workbench Hw eq_refl) as Hact.
  cbv zeta in Hact. rewrite Hact. f_equal.
Defined.

Lemma waction_player_witness :
  waction Cases.changing_select (Cases.click 0 36) Scenario.session =
    (Return (),
     set_out [inventory_select 0 36 false false;
              transport_write (inventory_save_to_packet (inventory Scenario.alice));
              factory_broadcast_for_others
                (make_packet "entity-equipment"
                   [("eid", FInt 7); ("slot", FInt 0); ("primary", FInt 1);
                    ("secondary", FInt 0)]);
              transport_write (make_packet "window-token"
                [("wid", FInt 0); ("token", FInt 5); ("acknowledged", FBool true)])]
       Scenario.session).
Proof.
  destruct (waction_player Cases.changing_select (Cases.click 0 36) Scenario.session
              Scenario.alice eq_refl eq_refl) as (_ & _ & Hheld & _).
  exact (Hheld eq_refl eq_refl (Some (1, 0, 5)) eq_refl).
Defined.

(** ** Ascending and descending *)

Lemma getitem_in_range (column : list Z) (y : Z) :
  0 ≤ y < Z.of_nat (length column) → getitem column y = Return (block_at column y).
Proof.
  intros Hy. unfold getitem, block_at.
  rewrite (proj2 (Z.ltb_ge _ _)) by lia.
  rewrite (proj2 (Z.leb_le _ _)), (proj2 (Z.ltb_lt _ _)) by lia. cbn [andb].
  destruct (column !! Z.to_nat y) as [a|] eqn:Ha; [done|].
  apply lookup_ge_None in Ha. lia.
Qed.

Lemma getitem_beyond (column : list Z) (y : Z) :
  Z.of_nat (length column) ≤ y → getitem column y = Raise IndexError.
Proof.
  intros Hy. unfold getitem.
  rewrite (proj2 (Z.ltb_ge _ _)) by lia.
  rewrite (proj2 (Z.ltb_ge y _)) by lia. by rewrite andb_false_r.
Qed.

Lemma platform_at_in_range (column : list Z) (y : Z) :
  0 ≤ y → y + 2 < Z.of_nat (length column) →
  platform_at column y = Return (platform column y).
Proof.
  intros Hy Hlen. unfold platform_at, platform, mbind, outcome_bind, mret, outcome_ret.
  rewrite !getitem_in_range by lia.
  destruct (block_at column y =? 0); [done|]. cbn [negb andb].
  by destruct (block_at column (y + 1) =? 0).
Qed.

Lemma descend_loop_S (column : list Z) (n : nat) (y : Z) :
  descend_loop column (S n) y =
    (found ← platform_at column (y - 1);
     if found : bool then Return (Some (y - 1)) else descend_loop column n (y - 1)).
Proof. reflexivity. Qed.

Lemma ascend_loop_spec (column : list Z) (n : nat) (y : Z) :
  -1 ≤ y → y + Z.of_nat n + 2 < Z.of_nat (length column) →
  match ascend_loop column n y with
  | Return (Some y') =>
    y < y' ≤ y + Z.of_nat n ∧ platform column y' = true ∧
    ∀ h, y < h < y' → platform column h = false
  | Return None => ∀ h, y < h ≤ y + Z.of_nat n → platform column h = false
  | Raise _ => False
  end.
Proof.
  revert y. induction n as [|n IH]; intros y Hy Hlen.
  - simpl. intros h Hh. lia.
  - cbn [ascend_loop]. unfold mbind, outcome_bind.
    rewrite platform_at_in_range by lia.
    destruct (platform column (y + 1)) eqn:Hp.
    + split_and!; [lia|lia|done|intros h Hh; lia].
    + specialize (IH (y + 1) ltac:(lia) ltac:(lia)).
      destruct (ascend_loop column n (y + 1)) as [[y'|]|e]; [| |done].
      * destruct IH as (Hy' & Hp' & Hbelow). split_and!; [lia|lia|done|].
        intros h Hh. destruct (decide (h = y + 1)) as [->|Hne]; [done|].
        apply Hbelow. lia.
      * intros h Hh. destruct (decide (h = y + 1)) as [->|Hne]; [done|].
        apply IH. lia.
Qed.

Lemma descend_loop_spec (column : list Z) (n : nat) (y : Z) :
  Z.of_nat n ≤ y → y + 1 < Z.of_nat (length column) →
  match descend_loop column n y with
  | Return (Some y') =>
    y - Z.of_nat n ≤ y' < y ∧ platform column y' = true ∧
    ∀ h, y' < h < y → platform column h = false
  | Return None => ∀ h, y - Z.of_nat n ≤ h < y → platform column h = false
  | Raise _ => False
  end.
Proof.
  revert y. induction n as [|n IH]; intros y Hy Hlen.
  - simpl. intros h Hh. lia.
  - cbn [descend_loop]. unfold mbind, outcome_bind.
    rewrite platform_at_in_range by lia.
    destruct (platform column (y - 1)) eqn:Hp.
    + split_and!; [lia|lia|done|intros h Hh; lia].
    + specialize (IH (y - 1) ltac:(lia) ltac:(lia)).
      destruct (descend_loop column n (y - 1)) as [[y'|]|e]; [| |done].
      * destruct IH as (Hy' & Hp' & Hbelow). split_and!; [lia|lia|done|].
        intros h Hh. destruct (decide (h = y - 1)) as [->|Hne]; [done|].
        apply Hbelow. lia.
      * intros h Hh. destruct (decide (h = y - 1)) as [->|Hne]; [done|].
        apply IH. lia.
Qed.

(** X27: the search of [Ascend] in a column of 128 blocks, from a height
    that is not below -1.  It never fails on an index.  When it finds a
    height, that is the lowest place to stand above the player, and at
    most 125; when it does not, there is no place to stand above the
    player up to height 125. *)
Theorem ascend_finds_lowest (column : list Z) (y : Z) :
  length column = 128%nat →
  -1 ≤ y →
  match ascend column y with
  | Return (Some y') =>
    y < y' ≤ 125 ∧ platform column y' = true ∧ ∀ h, y < h < y' → platform column h = false
  | Return None => ∀ h, y < h ≤ 125 → platform column h = false
  | Raise _ => False
  end.
Proof.
  intros Hlen Hy. unfold ascend.
  destruct (decide (y < 125)) as [Hlt|Hge].
  - assert (H2 : y + Z.of_nat (Z.to_nat (125 - y)) + 2 < Z.of_nat (length column))
      by (rewrite Hlen; lia).
    pose proof (ascend_loop_spec column (Z.to_nat (125 - y)) y Hy H2) as Hspec.
    rewrite Z2Nat.id in Hspec by lia.
    destruct (ascend_loop column (Z.to_nat (125 - y)) y) as [[y'|]|e]; [| |done].
    + destruct Hspec as (Hy' & Hp & Hbelow). split_and!; [lia|lia|done|done].
    + intros h Hh. apply Hspec. lia.
  - replace (Z.to_nat (125 - y)) with 0%nat by lia. simpl. intros h Hh. lia.
Qed.

(** X28: the search of [Descend] in a column of 128 blocks.  From a height
    between 0 and 126 it never fails on an index; when it finds a height,
    that is the highest place to stand below the player; when it does not,
    there is none.  From the top of the world, height 128 on a block at
    height 127, it raises [IndexError] at its first step. *)
Theorem descend_finds_highest (column : list Z) (y : Z) :
  length column = 128%nat →
  (0 ≤ y ≤ 126 →
   match descend column y with
   | Return (Some y') =>
     0 ≤ y' < y ∧ platform column y' = true ∧ ∀ h, y' < h < y → platform column h = false
   | Return None => ∀ h, 0 ≤ h < y → platform column h = false
   | Raise _ => False
   end) ∧
  (y = 128 → block_at column 127 ≠ 0 → descend column y = Raise IndexError).
Proof.
  intros Hlen. split.
  - intros Hy. unfold descend.
    assert (H1 : Z.of_nat (Z.to_nat y) ≤ y) by lia.
    assert (H2 : y + 1 < Z.of_nat (length column)) by (rewrite Hlen; lia).
    pose proof (descend_loop_spec column (Z.to_nat y) y H1 H2) as Hspec.
    rewrite Z2Nat.id in Hspec by lia.
    destruct (descend_loop column (Z.to_nat y) y) as [[y'|]|e]; [| |done].
    + destruct Hspec as (Hy' & Hp & Hbelow). split_and!; [lia|lia|done|done].
    + intros h Hh. apply Hspec. lia.
  - intros -> Htop. unfold descend.
    assert (Hp : platform_at column (128 - 1) = Raise IndexError).
    { change (128 - 1) with 127. unfold platform_at, mbind, outcome_bind.
      rewrite (getitem_in_range column 127) by (rewrite Hlen; lia).
      rewrite (proj2 (Z.eqb_neq _ _) Htop).
      by rewrite (getitem_beyond column (127 + 1)) by (rewrite Hlen; lia). }
    change (Z.to_nat 128) with (S 127). rewrite descend_loop_S.
    unfold mbind, outcome_bind. by rewrite Hp.
Qed.


Lemma ascend_finds_lowest_witness :
  ascend Cases.hill 64 = Return (Some 70) ∧ platform Cases.hill 70 = true ∧
  ascend Cases.hill 70 = Return None.
Proof.
  assert (Hy : -1 ≤ 64) by lia.
  pose proof (ascend_finds_lowest Cases.hill 64 eq_refl Hy) as Hfound.
  assert (Heq : ascend Cases.hill 64 = Return (Some 70)) by (vm_compute; reflexivity).
  rewrite Heq in Hfound. destruct Hfound as (_ & Hp & _).
  split_and!; [exact Heq|exact Hp|vm_compute; reflexivity].
Defined.

Lemma descend_finds_highest_witness :
  descend Cases.hill 70 = Return (Some 63) ∧ platform Cases.hill 63 = true ∧
  descend Cases.tower 128 = Raise IndexError.
Proof.
  assert (Hy : 0 ≤ 70 ≤ 126) by lia.
  pose proof (proj1 (descend_finds_highest Cases.hill 70 eq_refl) Hy) as Hfound.
  assert (Heq : descend Cases.hill 70 = Return (Some 63)) by (vm_compute; reflexivity).
  rewrite Heq in Hfound. destruct Hfound as (_ & Hp & _).
  assert (Htop : block_at Cases.tower 127 ≠ 0) by (vm_compute; discriminate).
  split_and!; [exact Heq|exact Hp|].
  exact (proj2 (descend_finds_highest Cases.tower 128 eq_refl) eq_refl Htop).
Defined.
